(** * Histogram edges and stair-step curve of silx's [Curve] item

    A shallow embedding of [_computeEdges] and [_getHistogramValue] from
    [silx/gui/plot/items/curve.py], together with the fragment of Python and
    numpy they run on:

    - numpy arrays are objects in a store, named by references; a call
      receives references, allocates new arrays and returns references;
      a slice of an array is a view, read through the array it shares its
      buffer with;
    - element types are numpy's two default numeric dtypes, [int64]
      (wrap-around integers) and [float64] (IEEE binary64, the kernel's
      primitive floats), with numpy's promotion and casts between them;
    - exceptions are results of the store-passing monad [M], which keeps
      the store on the exceptional path as Python does; assertions are
      enabled;
    - a str is an object: the interned one its literal denotes, or another
      one of the same text, since the source compares modes with [is] in
      one function and with [in] in the others;
    - what [numpy.empty] leaves in a new array is a parameter, and no
      result depends on it. *)

From Stdlib Require Import ZArith Floats String DecimalString Lia.
From stdpp Require Import base list strings.
From Equations Require Import Equations.

Open Scope Z_scope.

(** ** Python values and exceptions *)

(** The objects [histogramType] and a line style can be: [None], a str, or
    (to stand for what is neither) an integer.

    A str is an object, and the source tells objects apart:
    [_computeEdges] compares the mode with [is] against the literals
    ['left'], ['center'] and ['right'] (identity), the other functions use
    [in], [==] and [!=] (equality of text). CPython interns the literals
    that look like identifiers, so the literal ['left'] is one object
    wherever it is written, and [sys.intern] returns that object too.
    [PyStr s] is that object: the str a literal of text [s] denotes.
    [PyStrNew s] is a str of the same text that is another object, as
    [''.join], slicing, formatting, decoding or reading a file build them
    at run time.

    Equality of Rocq terms is therefore identity ([a is b], for [b] a
    literal or [None]); [py_eq] is [==]. *)
Inductive pyobj :=
| PyNone
| PyStr (s : string)
| PyInt (z : Z)
| PyStrNew (s : string).

#[global] Instance pyobj_eq_dec : EqDecision pyobj.
Proof. solve_decision. Defined.

(** The value of an object, whichever object it is. *)
Definition value (o : pyobj) : pyobj :=
  match o with
  | PyStrNew s => PyStr s
  | _ => o
  end.

(** [a == b], and [o in (a, b, ...)]. *)
Definition py_eq (a b : pyobj) : bool := bool_decide (value a = value b).

Definition py_in (o : pyobj) (l : list pyobj) : bool := existsb (py_eq o) l.

Inductive exn :=
| AssertionError
| IndexError
| ValueError
| SystemError.

Inductive result (A : Type) :=
| Ok (a : A)
| Raise (e : exn).
Arguments Ok {A} a.
Arguments Raise {A} e.

(** ** numpy scalars and element types *)

Inductive dtype :=
| int64
| float64.

Inductive scalar :=
| I (z : Z)
| F (f : float).

Definition scalar_dtype (s : scalar) : dtype :=
  match s with
  | I _ => int64
  | F _ => float64
  end.

(** Two's complement wrap-around of a 64-bit signed integer. *)
Definition wrap64 (z : Z) : Z := (z + 2 ^ 63) mod 2 ^ 64 - 2 ^ 63.

(** int64 to float64: round to nearest, ties to even. *)
Definition Z2float (z : Z) : float :=
  SF2Prim (binary_normalize prec emax z 0 false).

(** float64 to int64: truncation toward zero; what is not representable
    (NaN, infinities, magnitudes of 2^63 and more) gives the smallest
    int64, as the conversion instruction of x86-64 does. *)
Definition float2int64 (f : float) : Z :=
  match Prim2SF f with
  | S754_zero _ => 0
  | S754_finite s m e =>
      let a := if 0 <=? e then Z.shiftl (Zpos m) e else Z.shiftr (Zpos m) (- e) in
      let z := if s then - a else a in
      if (- 2 ^ 63 <=? z) && (z <? 2 ^ 63) then z else - 2 ^ 63
  | _ => - 2 ^ 63
  end.

Definition to_float (s : scalar) : float :=
  match s with
  | I z => Z2float z
  | F f => f
  end.

(** [numpy.ndarray.astype] on one element. *)
Definition astype (d : dtype) (s : scalar) : scalar :=
  match d, s with
  | int64, I z => I (wrap64 z)
  | int64, F f => I (float2int64 f)
  | float64, s => F (to_float s)
  end.

(** Type promotion of the two element types. *)
Definition promote (d1 d2 : dtype) : dtype :=
  match d1, d2 with
  | int64, int64 => int64
  | _, _ => float64
  end.

(** [a - b], [a + b] and [a / b] on numpy scalars and Python numbers. *)
Definition scalar_sub (a b : scalar) : scalar :=
  match a, b with
  | I x, I y => I (wrap64 (x - y))
  | _, _ => F (to_float a - to_float b)
  end.

Definition scalar_add (a b : scalar) : scalar :=
  match a, b with
  | I x, I y => I (wrap64 (x + y))
  | _, _ => F (to_float a + to_float b)
  end.

Definition scalar_truediv (a b : scalar) : scalar :=
  F (to_float a / to_float b).

(** ** numpy arrays (one-dimensional) *)

Record ndarray := mk_ndarray {
  arr_dtype : dtype;
  data : list scalar
}.

Definition in_int64 (z : Z) : bool := (- 2 ^ 63 <=? z) && (z <? 2 ^ 63).

Definition has_dtype (d : dtype) (s : scalar) : bool :=
  match d, s with
  | int64, I z => in_int64 z
  | float64, F _ => true
  | _, _ => false
  end.

(** Every element of an array is of the array's element type. *)
Definition wf_ndarray (a : ndarray) : bool :=
  forallb (has_dtype (arr_dtype a)) (data a).

(** ** Slices *)

Record slice := Slice {
  slice_start : option Z;
  slice_stop : option Z;
  slice_step : option Z
}.

(** [PySlice_AdjustIndices] for one bound. *)
Definition slice_adjust (len step : Z) (v : option Z) (dflt : Z) : Z :=
  match v with
  | None => dflt
  | Some i =>
      let i := if i <? 0 then i + len else i in
      if i <? 0 then (if step <? 0 then -1 else 0)
      else if len <=? i then (if step <? 0 then len - 1 else len)
      else i
  end.

(** The positions a slice selects in a sequence of [n] elements. *)
Definition slice_indices (sl : slice) (n : nat) : result (list nat) :=
  let len := Z.of_nat n in
  let step := default 1 (slice_step sl) in
  if step =? 0 then Raise ValueError
  else
    let start := slice_adjust len step (slice_start sl)
                   (if step <? 0 then len - 1 else 0) in
    let stop := slice_adjust len step (slice_stop sl)
                  (if step <? 0 then -1 else len) in
    let count :=
      if step <? 0
      then (if stop <? start then (start - stop - 1) / (- step) + 1 else 0)
      else (if start <? stop then (stop - start - 1) / step + 1 else 0) in
    Ok (map (fun k => Z.to_nat (start + Z.of_nat k * step))
            (seq 0 (Z.to_nat count))).

(** Reading and writing a list at the positions of a slice. *)
Definition gather (l : list scalar) (idx : list nat) : list scalar :=
  omap (fun i => l !! i) idx.

Definition scatter (l : list scalar) (idx : list nat) (vals : list scalar)
  : list scalar :=
  foldl (fun acc iv => <[iv.1 := iv.2]> acc) l (zip idx vals).

(** ** Broadcasting *)

Definition broadcast_shape (n m : nat) : result nat :=
  if (n =? m)%nat then Ok n
  else if (n =? 1)%nat then Ok m
  else if (m =? 1)%nat then Ok n
  else Raise ValueError.

Definition broadcast_to (n : nat) (l : list scalar) : result (list scalar) :=
  if (length l =? n)%nat then Ok l
  else match l with
       | [s] => Ok (replicate n s)
       | _ => Raise ValueError
       end.

(** ** The store and its monad *)

Definition ref := nat.
Abbreviation heap := (list ndarray).

Record M (A : Type) := mkM { run : heap -> heap * result A }.
Arguments mkM {A} run.
Arguments run {A} m h.

Definition ret {A} (a : A) : M A := mkM (fun h => (h, Ok a)).

Definition raise {A} (e : exn) : M A := mkM (fun h => (h, Raise e)).

Definition bind {A B} (m : M A) (f : A -> M B) : M B :=
  mkM (fun h =>
         match run m h with
         | (h', Ok a) => run (f a) h'
         | (h', Raise e) => (h', Raise e)
         end).

Definition lift {A} (r : result A) : M A := mkM (fun h => (h, r)).

Notation "x <- c1 ;; c2" := (bind c1 (fun x => c2))
  (at level 100, c1 at next level, right associativity).
Notation "c1 ;;; c2" := (bind c1 (fun _ => c2))
  (at level 100, right associativity).

Definition alloc (a : ndarray) : M ref :=
  mkM (fun h => (h ++ [a], Ok (length h))).

(** Reading the array a reference names. Python references never dangle;
    a reference that names nothing in the store is an interpreter error. *)
Definition load (r : ref) : M ndarray :=
  mkM (fun h =>
         match h !! r with
         | Some a => (h, Ok a)
         | None => (h, Raise SystemError)
         end).

Definition store (r : ref) (a : ndarray) : M unit :=
  mkM (fun h => (<[r := a]> h, Ok tt)).

(** [assert b], with assertions enabled (the interpreter's default). *)
Definition py_assert (b : bool) : M unit :=
  if b then ret tt else raise AssertionError.

(** ** numpy operations *)

(** What an operand of a numpy operation can be: a scalar, an array, or a
    view of an array through a slice (a view shares the array's buffer). *)
Inductive array_like :=
| Sc (s : scalar)
| Arr (r : ref)
| View (r : ref) (sl : slice).

(** The contents an operand stands for. *)
Definition asarray (v : array_like) : M ndarray :=
  match v with
  | Sc s => ret (mk_ndarray (scalar_dtype s) [s])
  | Arr r => load r
  | View r sl =>
      a <- load r ;;
      idx <- lift (slice_indices sl (length (data a))) ;;
      ret (mk_ndarray (arr_dtype a) (gather (data a) idx))
  end.

(** [len(r)] *)
Definition len (r : ref) : M Z :=
  a <- load r ;;
  ret (Z.of_nat (length (data a))).

(** [r.dtype] *)
Definition get_dtype (r : ref) : M dtype :=
  a <- load r ;;
  ret (arr_dtype a).

(** [r[i]] for an integer [i], negative indices counting from the end. *)
Definition getitem (r : ref) (i : Z) : M scalar :=
  a <- load r ;;
  let n := Z.of_nat (length (data a)) in
  let j := if i <? 0 then i + n else i in
  if (0 <=? j) && (j <? n)
  then match data a !! Z.to_nat j with
       | Some s => ret s
       | None => raise IndexError
       end
  else raise IndexError.

(** [r.copy()] *)
Definition ndarray_copy (r : ref) : M ref :=
  a <- load r ;;
  alloc a.

(** [numpy.append(u, v)] *)
Definition numpy_append (u v : array_like) : M ref :=
  a <- asarray u ;;
  b <- asarray v ;;
  let d := promote (arr_dtype a) (arr_dtype b) in
  alloc (mk_ndarray d (map (astype d) (data a ++ data b))).

(** Element-wise binary operations with broadcasting. *)
Definition arr_binop (rd : dtype -> dtype -> dtype)
    (op : dtype -> scalar -> scalar -> scalar) (u v : array_like) : M ref :=
  a <- asarray u ;;
  b <- asarray v ;;
  n <- lift (broadcast_shape (length (data a)) (length (data b))) ;;
  da <- lift (broadcast_to n (data a)) ;;
  db <- lift (broadcast_to n (data b)) ;;
  let d := rd (arr_dtype a) (arr_dtype b) in
  alloc (mk_ndarray d (zip_with (op d) da db)).

(** [u - v] *)
Definition arr_sub : array_like -> array_like -> M ref :=
  arr_binop promote (fun d p q => scalar_sub (astype d p) (astype d q)).

(** [u / v] *)
Definition arr_truediv : array_like -> array_like -> M ref :=
  arr_binop (fun _ _ => float64) (fun _ p q => scalar_truediv p q).

(** [r[sl] = v] *)
Definition setitem (r : ref) (sl : slice) (v : array_like) : M unit :=
  b <- asarray v ;;
  a <- load r ;;
  idx <- lift (slice_indices sl (length (data a))) ;;
  vals <- lift (broadcast_to (length idx) (data b)) ;;
  store r (mk_ndarray (arr_dtype a)
             (scatter (data a) idx (map (astype (arr_dtype a)) vals))).

(** ** The two functions of [curve.py] *)

(** [_computeEdges] calls itself in center mode only, and then with
    'right': the rank of the mode decreases. *)
Definition rank (histogramType : pyobj) : nat :=
  if decide (histogramType = PyStr "center") then 1%nat else 0%nat.

(** [_computeEdges(x, histogramType)], curve.py lines 46-78. The three
    [if] statements follow one another; each rebinds [edges]. Each tests
    [histogramType is '...']: that the argument is the object the literal
    denotes, which a [PyStrNew] of the same text is not. The call of the
    center branch passes the literal ['right']. *)
Equations _computeEdges (x : ref) (histogramType : pyobj) : M ref
  by wf (rank histogramType) lt :=
  _computeEdges x histogramType :=
    edges <- ndarray_copy x ;;
    edges <-
      (if decide (histogramType = PyStr "left") then
         n <- len x ;;
         width <- (if 1 <? n then
                     x1 <- getitem x 1 ;;
                     x0 <- getitem x 0 ;;
                     ret (scalar_sub x1 x0)
                   else ret (I 1)) ;;
         x0 <- getitem x 0 ;;
         numpy_append (Sc (scalar_sub x0 width)) (Arr edges)
       else ret edges) ;;
    edges <-
      (match decide (histogramType = PyStr "center") with
       | left _ =>
           edges <- _computeEdges edges (PyStr "right") ;;
           t <- arr_sub (View edges (Slice (Some 1) None None))
                        (View edges (Slice (Some 0) (Some (-1)) None)) ;;
           widths <- arr_truediv (Arr t) (Sc (F 2)) ;;
           w <- getitem widths (-1) ;;
           widths <- numpy_append (Arr widths) (Sc w) ;;
           arr_sub (Arr edges) (Arr widths)
       | right _ => ret edges
       end) ;;
    edges <-
      (if decide (histogramType = PyStr "right") then
         n <- len x ;;
         width <- (if 1 <? n then
                     xl <- getitem x (-1) ;;
                     xp <- getitem x (-2) ;;
                     ret (scalar_sub xl xp)
                   else ret (I 1)) ;;
         xl <- getitem x (-1) ;;
         numpy_append (Arr edges) (Sc (scalar_add xl width))
       else ret edges) ;;
    ret edges.

Section GetHistogramValue.

(** What [numpy.empty] finds in the memory it hands out: the element at
    each position of the array allocated at each reference. *)
Variable uninit : ref -> nat -> scalar.

(** [numpy.empty(n, dtype=d)] *)
Definition numpy_empty (n : Z) (d : dtype) : M ref :=
  if n <? 0 then raise ValueError
  else mkM (fun h =>
              (h ++ [mk_ndarray d
                       (map (fun i => astype d (uninit (length h) i))
                            (seq 0 (Z.to_nat n)))],
               Ok (length h))).

(** [_getHistogramValue(x, y, histogramType)], curve.py lines 81-113. *)
Definition _getHistogramValue (x y : ref) (histogramType : pyobj)
  : M (ref * ref) :=
  py_assert (py_in histogramType
                    [PyStr "left"; PyStr "right"; PyStr "center"]) ;;;
  lx <- len x ;;
  ly <- len y ;;
  edges <- (if lx =? ly + 1 then ret x
            else _computeEdges x histogramType) ;;
  le <- len edges ;;
  py_assert (1 <? le) ;;;
  d <- get_dtype edges ;;
  resx <- numpy_empty ((le - 1) * 2) d ;;
  d <- get_dtype edges ;;
  resy <- numpy_empty ((le - 1) * 2) d ;;
  setitem resx (Slice None (Some (-1)) (Some 2))
          (View edges (Slice None (Some (-1)) None)) ;;;
  setitem resx (Slice (Some 1) None (Some 2))
          (View edges (Slice (Some 1) None None)) ;;;
  setitem resy (Slice None (Some (-1)) (Some 2)) (Arr y) ;;;
  setitem resy (Slice (Some 1) None (Some 2)) (Arr y) ;;;
  lrx <- len resx ;;
  lry <- len resy ;;
  py_assert (lrx =? lry) ;;;
  ret (resx, resy).

End GetHistogramValue.

(** The part of [_getHistogramValue] that follows the choice of the edges. *)
Definition stairs (uninit : ref -> nat -> scalar) (edges y : ref)
  : M (ref * ref) :=
  le <- len edges ;;
  py_assert (1 <? le) ;;;
  d <- get_dtype edges ;;
  resx <- numpy_empty uninit ((le - 1) * 2) d ;;
  d <- get_dtype edges ;;
  resy <- numpy_empty uninit ((le - 1) * 2) d ;;
  setitem resx (Slice None (Some (-1)) (Some 2))
          (View edges (Slice None (Some (-1)) None)) ;;;
  setitem resx (Slice (Some 1) None (Some 2))
          (View edges (Slice (Some 1) None None)) ;;;
  setitem resy (Slice None (Some (-1)) (Some 2)) (Arr y) ;;;
  setitem resy (Slice (Some 1) None (Some 2)) (Arr y) ;;;
  lrx <- len resx ;;
  lry <- len resy ;;
  py_assert (lrx =? lry) ;;;
  ret (resx, resy).

(** Arrays of Python integers and of Python floats. *)
Definition int_array (l : list Z) : ndarray := mk_ndarray int64 (map I l).
Definition float_array (l : list float) : ndarray :=
  mk_ndarray float64 (map F l).

(** The three histogram types. [m ∈ modes] says that [m] is one of the
    three literals (the interned object), [value m ∈ modes] that it is
    equal to one of them. *)
Definition modes : list pyobj := [PyStr "left"; PyStr "right"; PyStr "center"].

(** * The [Curve] item *)

(** What [Curve] takes from the classes it extends ([Points], the mix-ins)
    and from the [Colors] module, whose code is in other files: the part of
    the item's state they own, as a type [World], and the operations
    [Curve] calls on it. They do not touch the attributes [Curve.__init__]
    creates. A [Color] is an RGBA tuple as [Colors.rgba] returns it; the
    methods compare two of them with [!=], which is taken to be the
    negation of equality ([EqDecision Color] below). *)
Class Inherited (World Color ColorSpec : Type) := {
  (** [self._updated()]: the item tells its plot and its listeners that it
      changed *)
  _updated : World -> World;
  (** [self.isVisible()] *)
  isVisible : World -> bool;
  (** [super(Curve, self).setVisible(visible)] *)
  Item_setVisible : bool -> World -> World;
  (** [self.getPlot() is not None] *)
  hasPlot : World -> bool;
  (** [plot._invalidateDataRange()] on the plot of the item *)
  _invalidateDataRange : World -> World;
  (** [self.getColor()] *)
  getColor : World -> Color;
  (** [Colors.rgba(color)] *)
  Colors_rgba : ColorSpec -> result Color;
  (** the tuple [(0, 0, 0, 255)] *)
  _DEFAULT_HIGHLIGHT_COLOR : Color
}.

(** The attributes of a [Curve], beside the inherited state. *)
Record Curve (World Color : Type) := mkCurve {
  inherited : World;
  _linewidth : float;
  _linestyle : pyobj;
  _histogram : pyobj;
  _highlightColor : Color;
  _highlighted : bool
}.
Arguments mkCurve {World Color}.
Arguments inherited {World Color}.
Arguments _linewidth {World Color}.
Arguments _linestyle {World Color}.
Arguments _histogram {World Color}.
Arguments _highlightColor {World Color}.
Arguments _highlighted {World Color}.

(** The text of [str(o)], and [str(o)]: a str is returned as it is, of
    anything else a new str is made. *)
Definition py_str (o : pyobj) : string :=
  match o with
  | PyNone => "None"
  | PyStr s => s
  | PyInt z => NilZero.string_of_int (Z.to_int z)
  | PyStrNew s => s
  end.

Definition str_of (o : pyobj) : pyobj :=
  match o with
  | PyStr _ | PyStrNew _ => o
  | _ => PyStrNew (py_str o)
  end.

(** What [Curve.__getitem__] gives access to, and what it is asked. *)
Inductive component :=
| XData
| YData
| Legend
| Info
| Params.

Inductive subscript :=
| Index (i : Z)
| Slicing (sl : slice).

Inductive subscripted :=
| One (v : component)
| Many (l : list component).

(** The call [backend.addCurve(x, y, legend, color=..., ...)]: the data, the
    arguments computed by methods of [Curve], and the inherited state the
    others are read from. *)
Record addCurve_call (World Color : Type) := mk_addCurve {
  call_x : ref;
  call_y : ref;
  call_color : Color;
  call_linestyle : pyobj;
  call_linewidth : float;
  call_xerror : option ref;
  call_yerror : option ref;
  call_item : World
}.
Arguments mk_addCurve {World Color}.
Arguments call_x {World Color}.
Arguments call_y {World Color}.
Arguments call_color {World Color}.
Arguments call_linestyle {World Color}.
Arguments call_linewidth {World Color}.
Arguments call_xerror {World Color}.
Arguments call_yerror {World Color}.
Arguments call_item {World Color}.

(** The line styles and histogram types a [Curve] can hold, and the five
    components in the order of [Curve.__getitem__]. *)
Definition line_styles : list string :=
  [""; " "; "-"; "--"; "-."; ":"]%string.

Definition histogram_types : list pyobj :=
  [PyStr "left"; PyStr "right"; PyStr "center"; PyNone].

Definition components : list component :=
  [XData; YData; Legend; Info; Params].

Section CurveMethods.

Context {World Color ColorSpec : Type}.
Context `{!Inherited World Color ColorSpec} `{!EqDecision Color}.

Local Abbreviation Curve := (Curve World Color).

(** [Curve.__init__], after the initialisers of the inherited classes *)
Definition Curve_init (w : World) : Curve :=
  mkCurve w 1%float (PyStr "-") PyNone _DEFAULT_HIGHLIGHT_COLOR false.

Definition isHighlighted (c : Curve) : bool := _highlighted c.

(** [setHighlighted(highlighted)]; [bool(highlighted)] is the argument *)
Definition setHighlighted (highlighted : bool) (c : Curve) : Curve :=
  if negb (eqb highlighted (_highlighted c))
  then mkCurve (_updated (inherited c)) (_linewidth c) (_linestyle c)
               (_histogram c) (_highlightColor c) highlighted
  else c.

Definition getHighlightedColor (c : Curve) : Color := _highlightColor c.

Definition setHighlightedColor (color : ColorSpec) (c : Curve)
  : result Curve :=
  match Colors_rgba color with
  | Raise e => Raise e
  | Ok color =>
      Ok (if decide (color <> _highlightColor c)
          then mkCurve (_updated (inherited c)) (_linewidth c) (_linestyle c)
                       (_histogram c) color (_highlighted c)
          else c)
  end.

Definition getCurrentColor (c : Curve) : Color :=
  if isHighlighted c then getHighlightedColor c else getColor (inherited c).

Definition getLineWidth (c : Curve) : float := _linewidth c.

(** [setLineWidth(width)] for a float [width], on which [float(width)] is
    [width] *)
Definition setLineWidth (width : float) (c : Curve) : Curve :=
  if negb (PrimFloat.eqb width (_linewidth c))
  then mkCurve (_updated (inherited c)) width (_linestyle c)
               (_histogram c) (_highlightColor c) (_highlighted c)
  else c.

Definition getLineStyle (c : Curve) : pyobj := _linestyle c.

Definition setLineStyle (style : pyobj) (c : Curve) : result Curve :=
  let style := str_of style in
  if py_in style [PyStr ""; PyStr " "; PyStr "-"; PyStr "--";
                  PyStr "-."; PyStr ":"; PyNone]
  then
    let style := if decide (style = PyNone) then PyStr "-" else style in
    Ok (if negb (py_eq style (_linestyle c))
        then mkCurve (_updated (inherited c)) (_linewidth c) style
                     (_histogram c) (_highlightColor c) (_highlighted c)
        else c)
  else Raise AssertionError.

Definition getHistogramType (c : Curve) : pyobj := _histogram c.

Definition setHistogramType (histogram : pyobj) (c : Curve) : result Curve :=
  if py_in histogram [PyStr "left"; PyStr "right"; PyStr "center"; PyNone]
  then
    Ok (if negb (py_eq histogram (_histogram c))
        then
          let w := _updated (inherited c) in
          let w := if isVisible w
                   then (if hasPlot w then _invalidateDataRange w else w)
                   else w in
          mkCurve w (_linewidth c) (_linestyle c) histogram
                  (_highlightColor c) (_highlighted c)
        else c)
  else Raise AssertionError.

(** [setVisible(visible)]; [bool(visible)] is the argument *)
Definition setVisible (visible : bool) (c : Curve) : Curve :=
  let visibleChanged := negb (eqb (isVisible (inherited c)) visible) in
  let w := Item_setVisible visible (inherited c) in
  let w := if visibleChanged
           then (if hasPlot w then _invalidateDataRange w else w)
           else w in
  mkCurve w (_linewidth c) (_linestyle c) (_histogram c)
          (_highlightColor c) (_highlighted c).

(** [Curve.__getitem__] on an integer: the chain of [elif item == ...] *)
Definition getitem_index (i : Z) : result component :=
  if i =? 0 then Ok XData
  else if i =? 1 then Ok YData
  else if i =? 2 then Ok Legend
  else if i =? 3 then Ok Info
  else if i =? 4 then Ok Params
  else Raise IndexError.

(** [[f(i) for i in l]] *)
Fixpoint comprehension {A B} (f : A -> result B) (l : list A)
  : result (list B) :=
  match l with
  | [] => Ok []
  | a :: l =>
      match f a with
      | Raise e => Raise e
      | Ok b =>
          match comprehension f l with
          | Raise e => Raise e
          | Ok bs => Ok (b :: bs)
          end
      end
  end.

(** [Curve.__getitem__(item)], for an integer or a slice; each [self[index]]
    of the comprehension is on an integer. *)
Definition __getitem__ (item : subscript) : result subscripted :=
  match item with
  | Slicing sl =>
      match slice_indices sl 5 with
      | Raise e => Raise e
      | Ok idx =>
          match comprehension (fun index => getitem_index (Z.of_nat index)) idx with
          | Raise e => Raise e
          | Ok l => Ok (Many l)
          end
      end
  | Index i =>
      match getitem_index i with
      | Raise e => Raise e
      | Ok v => Ok (One v)
      end
  end.

(** [Curve._addBackendRenderer(backend)]. [xFiltered, yFiltered, xerror,
    yerror] are what [self.getData(copy=False, displayed=True)] returns,
    [xerrorData] and [yerrorData] what [getXErrorData] and [getYErrorData]
    return. The result is the call made to the backend, if any, and
    whether the warning was logged. *)
Definition _addBackendRenderer (uninit : ref -> nat -> scalar) (c : Curve)
    (xFiltered yFiltered : ref) (xerror yerror : option ref)
    (xerrorData yerrorData : option ref)
  : M (option (addCurve_call World Color) * bool) :=
  n <- len xFiltered ;;
  if n =? 0 then ret (None, false)
  else
    d <- (if py_in (getHistogramType c)
                   [PyStr "left"; PyStr "right"; PyStr "center"]
          then
            lx <- len xFiltered ;;
            ly <- len yFiltered ;;
            ly1 <- len yFiltered ;;
            py_assert ((lx =? ly) || (lx =? ly1 + 1)) ;;;
            xy <- _getHistogramValue uninit xFiltered yFiltered
                    (getHistogramType c) ;;
            let warned := bool_decide (xerrorData <> None)
                          || bool_decide (yerrorData <> None) in
            ret (xy.1, xy.2, None, None, warned)
          else ret (xFiltered, yFiltered, xerror, yerror, false)) ;;
    let '(x, y, xerr, yerr, warned) := d in
    ret (Some (mk_addCurve x y (getCurrentColor c) (getLineStyle c)
                 (getLineWidth c) xerr yerr (inherited c)),
         warned).

(** What the setters maintain: the line style is a str equal to one of the
    six styles, the histogram type is equal to one of the four values. *)
Definition curve_invariant (c : Curve) : Prop :=
  (exists s, s ∈ line_styles /\ value (getLineStyle c) = PyStr s) /\
  value (getHistogramType c) ∈ histogram_types.

End CurveMethods.

(** The calls that change a [Curve], and a sequence of them; a call that
    raises leaves the curve as it was. *)
Inductive setter (ColorSpec : Type) :=
| SetLineStyle (style : pyobj)
| SetLineWidth (width : float)
| SetHighlighted (highlighted : bool)
| SetHighlightedColor (color : ColorSpec)
| SetHistogramType (histogram : pyobj)
| SetVisible (visible : bool).
Arguments SetLineStyle {ColorSpec}.
Arguments SetLineWidth {ColorSpec}.
Arguments SetHighlighted {ColorSpec}.
Arguments SetHighlightedColor {ColorSpec}.
Arguments SetHistogramType {ColorSpec}.
Arguments SetVisible {ColorSpec}.

Definition perform {World Color ColorSpec : Type}
    `{!Inherited World Color ColorSpec} `{!EqDecision Color}
    (k : setter ColorSpec) (c : Curve World Color)
  : result (Curve World Color) :=
  match k with
  | SetLineStyle style => setLineStyle style c
  | SetLineWidth width => Ok (setLineWidth width c)
  | SetHighlighted highlighted => Ok (setHighlighted highlighted c)
  | SetHighlightedColor color => setHighlightedColor color c
  | SetHistogramType histogram => setHistogramType histogram c
  | SetVisible visible => Ok (setVisible visible c)
  end.

Definition perform_all {World Color ColorSpec : Type}
    `{!Inherited World Color ColorSpec} `{!EqDecision Color}
    (ks : list (setter ColorSpec)) (c : Curve World Color)
  : Curve World Color :=
  foldl (fun c k => match perform k c with Ok c' => c' | Raise _ => c end)
        c ks.

(** The setters whose second call with the same argument finds the value
    it stored: all but [setVisible], which always calls the inherited
    method, and [setLineWidth] on a NaN, which differs from itself. *)
Definition repeatable {ColorSpec : Type} (k : setter ColorSpec) : Prop :=
  match k with
  | SetLineWidth width => is_nan width = false
  | SetVisible _ => False
  | _ => True
  end.

(** An inherited state for examples: it counts the notifications and the
    invalidations of the data range; colours are RGBA tuples that
    [Colors.rgba] returns as they are. *)
Record counters := mk_counters {
  notified : nat;
  invalidated : nat;
  visible : bool;
  plotted : bool;
  colour : Z * Z * Z * Z
}.

#[export] Instance counters_inherited
  : Inherited counters (Z * Z * Z * Z) (Z * Z * Z * Z) := {|
  _updated w := mk_counters (S (notified w)) (invalidated w) (visible w)
                            (plotted w) (colour w);
  isVisible := visible;
  Item_setVisible v w := mk_counters (notified w) (invalidated w) v
                                     (plotted w) (colour w);
  hasPlot := plotted;
  _invalidateDataRange w := mk_counters (notified w) (S (invalidated w))
                                        (visible w) (plotted w) (colour w);
  getColor := colour;
  Colors_rgba c := Ok c;
  _DEFAULT_HIGHLIGHT_COLOR := (0, 0, 0, 255)
|}.

(** Strictly increasing integers. *)
Definition increasing (l : list Z) : Prop :=
  forall (i : nat) a b, l !! i = Some a -> l !! S i = Some b -> a < b.

(** ** Frame reasoning *)

(** A computation that leaves the store as it found it. *)
Definition readonly {A} (m : M A) : Prop := forall h, (run m h).1 = h.

(** A computation that allocates one array and returns its reference, or
    raises and leaves the store as it found it. *)
Definition allocates (m : M ref) : Prop :=
  forall h, match run m h with
            | (h', Ok r) => r = length h /\ exists a, h' = h ++ [a]
            | (h', Raise _) => h' = h
            end.

(** A computation that overwrites the array at [r] and nothing else. *)
Definition stores_at {A} (r : ref) (m : M A) : Prop :=
  forall h, match run m h with
            | (h', Ok _) => exists a, h' = <[r := a]> h
            | (h', Raise _) => h' = h
            end.

(** The store [h] extends [h0] without changing it, and the references of
    [fresh] were allocated since. *)
Definition frame (h0 : heap) (fresh : list ref) (h : heap) : Prop :=
  h0 `prefix_of` h /\
  Forall (fun r => (length h0 <= r < length h)%nat) fresh.

Definition triple {A} (P : heap -> Prop) (m : M A)
    (Q : A -> heap -> Prop) (E : heap -> Prop) : Prop :=
  forall h, P h ->
    match run m h with
    | (h', Ok a) => Q a h'
    | (h', Raise _) => E h'
    end.

(** * Reasoning about runs *)

Section RunLemmas.

Context {A B : Type}.

Lemma run_ret (a : A) h : run (ret a) h = (h, Ok a).
Proof. reflexivity. Qed.

Lemma run_raise (e : exn) h : run (raise e : M A) h = (h, Raise e).
Proof. reflexivity. Qed.

Lemma run_lift (r : result A) h : run (lift r) h = (h, r).
Proof. reflexivity. Qed.

Lemma run_bind (m : M A) (f : A -> M B) h :
  run (bind m f) h =
  match run m h with
  | (h', Ok a) => run (f a) h'
  | (h', Raise e) => (h', Raise e)
  end.
Proof. reflexivity. Qed.

Lemma run_bind_ok (m : M A) (f : A -> M B) h h' a :
  run m h = (h', Ok a) -> run (bind m f) h = run (f a) h'.
Proof. intros E. rewrite run_bind, E. reflexivity. Qed.

Lemma run_bind_raise (m : M A) (f : A -> M B) h h' e :
  run m h = (h', Raise e) -> run (bind m f) h = (h', Raise e).
Proof. intros E. rewrite run_bind, E. reflexivity. Qed.

Lemma run_bind_ret (a : A) (f : A -> M B) h :
  run (bind (ret a) f) h = run (f a) h.
Proof. reflexivity. Qed.

End RunLemmas.

Lemma run_load h r a : h !! r = Some a -> run (load r) h = (h, Ok a).
Proof. intros E. unfold load. cbn. rewrite E. reflexivity. Qed.

Lemma run_alloc h a : run (alloc a) h = (h ++ [a], Ok (length h)).
Proof. reflexivity. Qed.

Lemma run_len h r a :
  h !! r = Some a -> run (len r) h = (h, Ok (Z.of_nat (length (data a)))).
Proof.
  intros E. unfold len.
  rewrite (run_bind_ok _ _ _ _ _ (run_load _ _ _ E)). reflexivity.
Qed.

Lemma run_get_dtype h r a :
  h !! r = Some a -> run (get_dtype r) h = (h, Ok (arr_dtype a)).
Proof.
  intros E. unfold get_dtype.
  rewrite (run_bind_ok _ _ _ _ _ (run_load _ _ _ E)). reflexivity.
Qed.

Lemma run_ndarray_copy h r a :
  h !! r = Some a -> run (ndarray_copy r) h = (h ++ [a], Ok (length h)).
Proof.
  intros E. unfold ndarray_copy.
  rewrite (run_bind_ok _ _ _ _ _ (run_load _ _ _ E)). reflexivity.
Qed.

Lemma run_py_assert_true h (b : bool) :
  b = true -> run (py_assert b) h = (h, Ok tt).
Proof. intros ->. reflexivity. Qed.

Lemma run_py_assert_false h (b : bool) :
  b = false -> run (py_assert b) h = (h, Raise AssertionError).
Proof. intros ->. reflexivity. Qed.

(** ** Slices, reads and writes through them *)

Lemma slice_map_seq (s st c : Z) (g : nat -> nat) (m : nat) :
  Z.to_nat c = m ->
  (forall k : nat, Z.to_nat (s + Z.of_nat k * st) = g k) ->
  map (fun k => Z.to_nat (s + Z.of_nat k * st)) (seq 0 (Z.to_nat c))
  = map g (seq 0 m).
Proof.
  intros -> Hg. apply map_ext. exact Hg.
Qed.

Lemma seq_as_map (a n : nat) : seq a n = map (fun k => (a + k)%nat) (seq 0 n).
Proof.
  change (fun k => (a + k)%nat) with (Nat.add a).
  pose proof (fmap_add_seq a 0 n) as E. unfold fmap, list_fmap in E.
  rewrite Nat.add_0_r in E. symmetry. exact E.
Qed.

Lemma slice_indices_tail (n : nat) :
  slice_indices (Slice (Some 1) None None) n = Ok (seq 1 (n - 1)).
Proof.
  unfold slice_indices, slice_adjust. cbn -[Z.of_nat Z.div seq Z.to_nat Z.mul Z.add Z.sub].
  rewrite (seq_as_map 1). f_equal.
  destruct (Z.leb_spec (Z.of_nat n) 1) as [H|H].
  - rewrite Z.ltb_irrefl. replace (n - 1)%nat with 0%nat by lia. reflexivity.
  - destruct (Z.ltb_spec 1 (Z.of_nat n)); [|lia].
    apply slice_map_seq.
    + rewrite Z.div_1_r. lia.
    + intros k. lia.
Qed.

Lemma slice_indices_init (st : option Z) (n : nat) :
  st = None \/ st = Some 0 ->
  slice_indices (Slice st (Some (-1)) None) n = Ok (seq 0 (n - 1)).
Proof.
  intros Hst.
  assert (slice_adjust (Z.of_nat n) 1 st 0 = 0) as Est.
  { destruct Hst as [-> | ->]; [reflexivity|].
    unfold slice_adjust. cbn -[Z.of_nat].
    destruct (Z.leb_spec (Z.of_nat n) 0); lia. }
  unfold slice_indices.
  cbn -[Z.of_nat Z.div seq Z.to_nat Z.mul Z.add Z.sub slice_adjust].
  rewrite Est. unfold slice_adjust.
  cbn -[Z.of_nat Z.div seq Z.to_nat Z.mul Z.add Z.sub].
  rewrite (seq_as_map 0 (n - 1)). f_equal.
  destruct (Z.ltb_spec (-1 + Z.of_nat n) 0) as [H|H].
  - replace (n - 1)%nat with 0%nat by lia. reflexivity.
  - destruct (Z.leb_spec (Z.of_nat n) (-1 + Z.of_nat n)); [lia|].
    destruct (Z.ltb_spec 0 (-1 + Z.of_nat n)) as [H1|H1].
    + apply slice_map_seq.
      * rewrite Z.div_1_r. lia.
      * intros k. lia.
    + replace (n - 1)%nat with 0%nat by lia. reflexivity.
Qed.

Lemma slice_indices_even (k : nat) :
  slice_indices (Slice None (Some (-1)) (Some 2)) (2 * k)
  = Ok (map (fun j => (2 * j)%nat) (seq 0 k)).
Proof.
  unfold slice_indices, slice_adjust.
  cbn -[Z.of_nat Z.div seq Z.to_nat Z.mul Z.add Z.sub Nat.mul].
  f_equal.
  destruct (Z.ltb_spec (-1 + Z.of_nat (2 * k)) 0) as [H|H].
  - replace k with 0%nat by lia. reflexivity.
  - destruct (Z.leb_spec (Z.of_nat (2 * k)) (-1 + Z.of_nat (2 * k))); [lia|].
    destruct (Z.ltb_spec 0 (-1 + Z.of_nat (2 * k))) as [H1|H1]; [|lia].
    apply slice_map_seq.
    + replace (-1 + Z.of_nat (2 * k) - 0 - 1) with ((Z.of_nat k - 1) * 2) by lia.
      rewrite Z.div_mul by lia. lia.
    + intros j. lia.
Qed.

Lemma slice_indices_odd (k : nat) :
  slice_indices (Slice (Some 1) None (Some 2)) (2 * k)
  = Ok (map (fun j => (2 * j + 1)%nat) (seq 0 k)).
Proof.
  unfold slice_indices, slice_adjust.
  cbn -[Z.of_nat Z.div seq Z.to_nat Z.mul Z.add Z.sub Nat.mul].
  f_equal.
  destruct (Z.leb_spec (Z.of_nat (2 * k)) 1) as [H|H].
  - rewrite Z.ltb_irrefl. replace k with 0%nat by lia. reflexivity.
  - destruct (Z.ltb_spec 1 (Z.of_nat (2 * k))) as [H1|H1]; [|lia].
    apply slice_map_seq.
    + replace (Z.of_nat (2 * k) - 1 - 1) with ((Z.of_nat k - 1) * 2) by lia.
      rewrite Z.div_mul by lia. lia.
    + intros j. lia.
Qed.

Lemma gather_seq (l : list scalar) (a k : nat) :
  gather l (seq a k) = take k (drop a l).
Proof.
  unfold gather. revert a. induction k as [|k IH]; intros a; [reflexivity|].
  cbn [seq omap list_omap]. rewrite IH.
  destruct (l !! a) as [x|] eqn:E.
  - rewrite (drop_S l x a E). reflexivity.
  - apply lookup_ge_None in E.
    rewrite !drop_ge by lia. rewrite !take_nil. reflexivity.
Qed.

Lemma scatter_nil_vals l idx : scatter l idx [] = l.
Proof. unfold scatter. destruct idx; reflexivity. Qed.

Lemma scatter_cons l i idx v vals :
  scatter l (i :: idx) (v :: vals) = scatter (<[i := v]> l) idx vals.
Proof. reflexivity. Qed.

Lemma scatter_length l idx vals : length (scatter l idx vals) = length l.
Proof.
  revert l vals. induction idx as [|i idx IH]; intros l vals; [reflexivity|].
  destruct vals as [|v vals]; [reflexivity|].
  rewrite scatter_cons, IH. apply length_insert.
Qed.

Lemma scatter_lookup_notin l idx vals (i : nat) :
  i ∉ idx -> scatter l idx vals !! i = l !! i.
Proof.
  revert l vals. induction idx as [|j idx IH]; intros l vals Hi; [reflexivity|].
  destruct vals as [|v vals]; [reflexivity|].
  rewrite scatter_cons. apply not_elem_of_cons in Hi as [Hij Hi].
  rewrite IH by exact Hi. apply list_lookup_insert_ne. congruence.
Qed.

Lemma scatter_lookup_in l idx vals (p i : nat) :
  NoDup idx -> length idx = length vals ->
  idx !! p = Some i -> (i < length l)%nat ->
  scatter l idx vals !! i = vals !! p.
Proof.
  revert l vals p.
  induction idx as [|j idx IH]; intros l vals p Hnd Hlen Hp Hi; [discriminate|].
  destruct vals as [|v vals]; [discriminate|].
  rewrite scatter_cons. apply NoDup_cons in Hnd as [Hj Hnd].
  destruct p as [|p]; cbn in Hp.
  - injection Hp as ->. rewrite scatter_lookup_notin by exact Hj.
    cbn. apply list_lookup_insert_eq. exact Hi.
  - cbn. apply IH; auto. rewrite length_insert. exact Hi.
Qed.

Lemma evens_odds_write (l u v : list scalar) (k : nat) :
  length l = (2 * k)%nat -> length u = k -> length v = k ->
  let r := scatter (scatter l (map (fun j => (2 * j)%nat) (seq 0 k)) u)
                   (map (fun j => (2 * j + 1)%nat) (seq 0 k)) v in
  length r = (2 * k)%nat /\
  forall i : nat, (i < k)%nat ->
    r !! (2 * i)%nat = u !! i /\ r !! (2 * i + 1)%nat = v !! i.
Proof.
  intros Hl Hu Hv r. subst r. split.
  { rewrite !scatter_length. exact Hl. }
  intros i Hi.
  assert (NoDup (map (fun j => (2 * j)%nat) (seq 0 k))) as Hnd0.
  { assert (Inj eq eq (fun j => (2 * j)%nat)) by (intros a b; lia).
    apply (NoDup_fmap_2 (fun j => (2 * j)%nat)), NoDup_seq. }
  assert (NoDup (map (fun j => (2 * j + 1)%nat) (seq 0 k))) as Hnd1.
  { assert (Inj eq eq (fun j => (2 * j + 1)%nat)) by (intros a b; lia).
    apply (NoDup_fmap_2 (fun j => (2 * j + 1)%nat)), NoDup_seq. }
  split.
  - rewrite scatter_lookup_notin.
    + apply scatter_lookup_in; auto.
      * rewrite length_map, length_seq. auto.
      * change (map ?f ?l) with (f <$> l).
        rewrite list_lookup_fmap, lookup_seq_lt by lia. reflexivity.
      * lia.
    + change (map ?f ?l) with (f <$> l).
      intros (j & Hj & _)%list_elem_of_fmap. lia.
  - apply scatter_lookup_in; auto.
    + rewrite length_map, length_seq. auto.
    + change (map ?f ?l) with (f <$> l).
      rewrite list_lookup_fmap, lookup_seq_lt by lia. reflexivity.
    + rewrite scatter_length. lia.
Qed.

(** ** Positions of the store *)

Lemma heap_lookup_old (h t : heap) (r : ref) a :
  h !! r = Some a -> (h ++ t) !! r = Some a.
Proof. apply lookup_app_l_Some. Qed.

Lemma heap_lookup_new (h t : heap) (j : nat) :
  (h ++ t) !! (length h + j)%nat = t !! j.
Proof. rewrite lookup_app_r by lia. f_equal. lia. Qed.

Lemma heap_insert_new (h t : heap) (j : nat) a :
  <[(length h + j)%nat := a]> (h ++ t) = h ++ <[j := a]> t.
Proof. apply insert_app_r. Qed.
Lemma heap_lookup_0 (h t : heap) a : (h ++ a :: t) !! length h = Some a.
Proof. apply list_lookup_middle. reflexivity. Qed.

Lemma heap_lookup_1 (h t : heap) a b :
  (h ++ a :: b :: t) !! S (length h) = Some b.
Proof.
  replace (S (length h)) with (length h + 1)%nat by lia.
  rewrite heap_lookup_new. reflexivity.
Qed.

Lemma heap_insert_0 (h t : heap) a x :
  <[length h := x]> (h ++ a :: t) = h ++ x :: t.
Proof.
  rewrite <- (Nat.add_0_r (length h)). rewrite heap_insert_new. reflexivity.
Qed.

Lemma heap_insert_1 (h t : heap) a b x :
  <[S (length h) := x]> (h ++ a :: b :: t) = h ++ a :: x :: t.
Proof.
  replace (S (length h)) with (length h + 1)%nat by lia.
  rewrite heap_insert_new. reflexivity.
Qed.

(** ** Runs of the numpy operations *)

Lemma run_asarray_Sc h s :
  run (asarray (Sc s)) h = (h, Ok (mk_ndarray (scalar_dtype s) [s])).
Proof. reflexivity. Qed.

Lemma run_asarray_Arr h r a :
  h !! r = Some a -> run (asarray (Arr r)) h = (h, Ok a).
Proof. apply run_load. Qed.

Lemma run_asarray_View h r sl a idx :
  h !! r = Some a -> slice_indices sl (length (data a)) = Ok idx ->
  run (asarray (View r sl)) h
  = (h, Ok (mk_ndarray (arr_dtype a) (gather (data a) idx))).
Proof.
  intros E Hs. cbn [asarray].
  rewrite (run_bind_ok _ _ _ _ _ (run_load _ _ _ E)).
  rewrite run_bind, run_lift, Hs. reflexivity.
Qed.

Lemma run_getitem h r a (i : Z) (j : nat) s :
  h !! r = Some a ->
  (if i <? 0 then i + Z.of_nat (length (data a)) else i) = Z.of_nat j ->
  data a !! j = Some s ->
  run (getitem r i) h = (h, Ok s).
Proof.
  intros E Hj Hs. unfold getitem.
  rewrite (run_bind_ok _ _ _ _ _ (run_load _ _ _ E)).
  rewrite Hj. apply lookup_lt_Some in Hs as Hlt.
  destruct (Z.leb_spec 0 (Z.of_nat j)); [|lia].
  destruct (Z.ltb_spec (Z.of_nat j) (Z.of_nat (length (data a)))); [|lia].
  cbn [andb]. rewrite Nat2Z.id, Hs. reflexivity.
Qed.

Lemma run_getitem_empty h r a (i : Z) :
  h !! r = Some a -> data a = [] ->
  run (getitem r i) h = (h, Raise IndexError).
Proof.
  intros E Hd. unfold getitem.
  rewrite (run_bind_ok _ _ _ _ _ (run_load _ _ _ E)).
  rewrite Hd. cbn [length Z.of_nat]. rewrite Z.add_0_r.
  destruct (i <? 0) eqn:Hi.
  - apply Z.ltb_lt in Hi. destruct (Z.leb_spec 0 i); [lia|]. reflexivity.
  - change (Z.of_nat 0) with 0. rewrite Hi, andb_false_r. reflexivity.
Qed.

Lemma run_numpy_append h u v a b :
  run (asarray u) h = (h, Ok a) -> run (asarray v) h = (h, Ok b) ->
  run (numpy_append u v) h
  = (h ++ [mk_ndarray (promote (arr_dtype a) (arr_dtype b))
             (map (astype (promote (arr_dtype a) (arr_dtype b)))
                  (data a ++ data b))],
     Ok (length h)).
Proof.
  intros Ha Hb. unfold numpy_append.
  rewrite (run_bind_ok _ _ _ _ _ Ha), (run_bind_ok _ _ _ _ _ Hb).
  reflexivity.
Qed.

Lemma broadcast_shape_same n : broadcast_shape n n = Ok n.
Proof. unfold broadcast_shape. rewrite Nat.eqb_refl. reflexivity. Qed.

Lemma broadcast_to_same n l : length l = n -> broadcast_to n l = Ok l.
Proof. intros <-. unfold broadcast_to. rewrite Nat.eqb_refl. reflexivity. Qed.

Lemma broadcast_shape_1_r n : (1 <= n)%nat -> broadcast_shape n 1 = Ok n.
Proof.
  intros Hn. unfold broadcast_shape.
  destruct (Nat.eqb_spec n 1) as [->|]; reflexivity.
Qed.

Lemma broadcast_to_singleton n s : broadcast_to n [s] = Ok (replicate n s).
Proof.
  unfold broadcast_to. cbn [length].
  destruct (Nat.eqb_spec 1 n) as [<-|]; reflexivity.
Qed.

Lemma run_arr_binop rd op h u v a b n da db :
  run (asarray u) h = (h, Ok a) -> run (asarray v) h = (h, Ok b) ->
  broadcast_shape (length (data a)) (length (data b)) = Ok n ->
  broadcast_to n (data a) = Ok da -> broadcast_to n (data b) = Ok db ->
  run (arr_binop rd op u v) h
  = (h ++ [mk_ndarray (rd (arr_dtype a) (arr_dtype b))
             (zip_with (op (rd (arr_dtype a) (arr_dtype b))) da db)],
     Ok (length h)).
Proof.
  intros Ha Hb Hn Hda Hdb. unfold arr_binop.
  rewrite (run_bind_ok _ _ _ _ _ Ha), (run_bind_ok _ _ _ _ _ Hb).
  rewrite run_bind, run_lift, Hn.
  rewrite run_bind, run_lift, Hda.
  rewrite run_bind, run_lift, Hdb.
  reflexivity.
Qed.

Lemma run_setitem h r sl v a b idx vals :
  run (asarray v) h = (h, Ok b) -> h !! r = Some a ->
  slice_indices sl (length (data a)) = Ok idx ->
  broadcast_to (length idx) (data b) = Ok vals ->
  run (setitem r sl v) h
  = (<[r := mk_ndarray (arr_dtype a)
             (scatter (data a) idx (map (astype (arr_dtype a)) vals))]> h,
     Ok tt).
Proof.
  intros Hb Ha Hs Hv. unfold setitem.
  rewrite (run_bind_ok _ _ _ _ _ Hb).
  rewrite (run_bind_ok _ _ _ _ _ (run_load _ _ _ Ha)).
  rewrite run_bind, run_lift, Hs.
  rewrite run_bind, run_lift, Hv.
  reflexivity.
Qed.

Lemma run_setitem_mismatch h r sl v a b idx :
  run (asarray v) h = (h, Ok b) -> h !! r = Some a ->
  slice_indices sl (length (data a)) = Ok idx ->
  length (data b) <> length idx -> length (data b) <> 1%nat ->
  run (setitem r sl v) h = (h, Raise ValueError).
Proof.
  intros Hb Ha Hs Hn H1. unfold setitem.
  rewrite (run_bind_ok _ _ _ _ _ Hb).
  rewrite (run_bind_ok _ _ _ _ _ (run_load _ _ _ Ha)).
  rewrite run_bind, run_lift, Hs.
  rewrite run_bind, run_lift.
  unfold broadcast_to.
  destruct (Nat.eqb_spec (length (data b)) (length idx)); [contradiction|].
  destruct (data b) as [|s [|s' t]]; try reflexivity.
  contradiction H1. reflexivity.
Qed.

Lemma run_numpy_empty uninit h (n : Z) d :
  0 <= n ->
  run (numpy_empty uninit n d) h
  = (h ++ [mk_ndarray d (map (fun i => astype d (uninit (length h) i))
                             (seq 0 (Z.to_nat n)))],
     Ok (length h)).
Proof.
  intros Hn. unfold numpy_empty.
  destruct (Z.ltb_spec n 0); [lia|]. reflexivity.
Qed.

Lemma broadcast_to_length n l vals :
  broadcast_to n l = Ok vals -> length vals = n.
Proof.
  unfold broadcast_to. destruct (Nat.eqb_spec (length l) n) as [E|_].
  - intros [= <-]. exact E.
  - destruct l as [|s [|s' t]]; try discriminate.
    intros [= <-]. apply length_replicate.
Qed.

Lemma run_stairs_broadcast uninit (h : heap) (e y : ref) ea ya (k : nat) vals :
  h !! e = Some ea -> h !! y = Some ya ->
  length (data ea) = S k -> (1 <= k)%nat ->
  broadcast_to k (data ya) = Ok vals ->
  exists rx ry,
    run (stairs uninit e y) h
    = (h ++ [rx; ry], Ok (length h, S (length h))) /\
    arr_dtype rx = arr_dtype ea /\ arr_dtype ry = arr_dtype ea /\
    length (data rx) = (2 * k)%nat /\ length (data ry) = (2 * k)%nat /\
    forall i : nat, (i < k)%nat ->
      data rx !! (2 * i)%nat = astype (arr_dtype ea) <$> data ea !! i /\
      data rx !! (2 * i + 1)%nat = astype (arr_dtype ea) <$> data ea !! S i /\
      data ry !! (2 * i)%nat = astype (arr_dtype ea) <$> vals !! i /\
      data ry !! (2 * i + 1)%nat = astype (arr_dtype ea) <$> vals !! i.
Proof.
  intros He Hy Hle Hk Hb.
  pose proof (broadcast_to_length _ _ _ Hb) as Hly.
  set (d := arr_dtype ea).
  set (j0 := map (fun i => astype d (uninit (length h) i)) (seq 0 (2 * k))).
  set (j1 := map (fun i => astype d (uninit (length (h ++ [mk_ndarray d j0])) i)) (seq 0 (2 * k))).
  set (ev := map (fun j => (2 * j)%nat) (seq 0 k)).
  set (od := map (fun j => (2 * j + 1)%nat) (seq 0 k)).
  set (u := map (astype d) (take k (data ea))).
  set (v := map (astype d) (drop 1 (data ea))).
  set (w := map (astype d) vals).
  exists (mk_ndarray d (scatter (scatter j0 ev u) od v)),
         (mk_ndarray d (scatter (scatter j1 ev w) od w)).
  assert (length j0 = (2 * k)%nat) as Hj0 by (subst j0; rewrite length_map, length_seq; reflexivity).
  assert (length j1 = (2 * k)%nat) as Hj1 by (subst j1; rewrite length_map, length_seq; reflexivity).
  assert (length u = k) as Hu by (subst u; rewrite length_map, length_take; lia).
  assert (length v = k) as Hv by (subst v; rewrite length_map, length_drop; lia).
  assert (length w = k) as Hw by (subst w; rewrite length_map; lia).
  assert (length ev = k) as Hev by (subst ev; rewrite length_map, length_seq; reflexivity).
  assert (length od = k) as Hod by (subst od; rewrite length_map, length_seq; reflexivity).
  destruct (evens_odds_write j0 u v k Hj0 Hu Hv) as [Lx Ex].
  destruct (evens_odds_write j1 w w k Hj1 Hw Hw) as [Ly Ey].
  fold ev od in Lx, Ex, Ly, Ey.
  split; [| split; [reflexivity | split; [reflexivity | split; [exact Lx | split; [exact Ly|]]]]].
  - unfold stairs.
    rewrite (run_bind_ok _ _ _ _ _ (run_len _ _ _ He)).
    rewrite (run_bind_ok _ _ h h tt) by (apply run_py_assert_true; lia).
    rewrite (run_bind_ok _ _ _ _ _ (run_get_dtype _ _ _ He)).
    replace ((Z.of_nat (length (data ea)) - 1) * 2) with (Z.of_nat (2 * k)) by lia.
    erewrite run_bind_ok by (apply run_numpy_empty; lia).
    rewrite Nat2Z.id. fold d j0.
    erewrite run_bind_ok by (apply run_get_dtype, heap_lookup_old, He).
    erewrite run_bind_ok by (apply run_numpy_empty; lia).
    rewrite Nat2Z.id. fold d j1.
    rewrite <- app_assoc. cbn [app].
    (* resx[:-1:2] = edges[:-1] *)
    erewrite run_bind_ok.
    2:{ eapply run_setitem.
        - apply run_asarray_View; [apply heap_lookup_old, He|].
          apply slice_indices_init. left. reflexivity.
        - apply heap_lookup_0.
        - cbn [data]. rewrite Hj0. apply slice_indices_even.
        - cbn [data]. apply broadcast_to_same.
          rewrite gather_seq, drop_0, length_take, length_map, length_seq. lia. }
    rewrite heap_insert_0. cbn [arr_dtype data].
    rewrite gather_seq, drop_0, Hle. replace (S k - 1)%nat with k by lia.
    fold u ev.
    (* resx[1::2] = edges[1:] *)
    erewrite run_bind_ok.
    2:{ eapply run_setitem.
        - apply run_asarray_View; [apply heap_lookup_old, He|].
          apply slice_indices_tail.
        - apply heap_lookup_0.
        - cbn [data]. rewrite scatter_length, Hj0. apply slice_indices_odd.
        - cbn [data]. apply broadcast_to_same.
          rewrite gather_seq, length_take, length_drop, length_map, length_seq. lia. }
    rewrite heap_insert_0. cbn [arr_dtype data].
    rewrite gather_seq, Hle. replace (S k - 1)%nat with k by lia.
    rewrite (take_ge (drop 1 (data ea))) by (rewrite length_drop; lia).
    fold v od.
    (* resy[:-1:2] = y *)
    erewrite run_bind_ok.
    2:{ eapply run_setitem.
        - apply run_asarray_Arr, heap_lookup_old, Hy.
        - rewrite length_app, Nat.add_1_r. apply heap_lookup_1.
        - cbn [data]. rewrite Hj1. apply slice_indices_even.
        - rewrite length_map, length_seq. exact Hb. }
    rewrite length_app, Nat.add_1_r, heap_insert_1. cbn [arr_dtype data].
    fold w ev.
    (* resy[1::2] = y *)
    erewrite run_bind_ok.
    2:{ eapply run_setitem.
        - apply run_asarray_Arr, heap_lookup_old, Hy.
        - apply heap_lookup_1.
        - cbn [data]. rewrite scatter_length, Hj1. apply slice_indices_odd.
        - rewrite length_map, length_seq. exact Hb. }
    rewrite heap_insert_1. cbn [arr_dtype data]. fold w od.
    erewrite run_bind_ok.
    2:{ apply run_len, heap_lookup_0. }
    erewrite run_bind_ok.
    2:{ apply run_len, heap_lookup_1. }
    cbn [data]. rewrite Lx, Ly.
    rewrite (run_bind_ok _ _ _ _ tt) by (apply run_py_assert_true; lia).
    rewrite run_ret. repeat f_equal; lia.
  - intros i Hi. cbn [data]. 
    destruct (Ex i Hi) as [-> ->]. destruct (Ey i Hi) as [-> ->].
    subst u v w. rewrite !list_lookup_fmap.
    rewrite lookup_take_lt by lia. rewrite lookup_drop.
    repeat split; reflexivity.
Qed.

Lemma run_stairs uninit (h : heap) (e y : ref) ea ya (k : nat) :
  h !! e = Some ea -> h !! y = Some ya ->
  length (data ea) = S k -> (1 <= k)%nat -> length (data ya) = k ->
  exists rx ry,
    run (stairs uninit e y) h
    = (h ++ [rx; ry], Ok (length h, S (length h))) /\
    arr_dtype rx = arr_dtype ea /\ arr_dtype ry = arr_dtype ea /\
    length (data rx) = (2 * k)%nat /\ length (data ry) = (2 * k)%nat /\
    forall i : nat, (i < k)%nat ->
      data rx !! (2 * i)%nat = astype (arr_dtype ea) <$> data ea !! i /\
      data rx !! (2 * i + 1)%nat = astype (arr_dtype ea) <$> data ea !! S i /\
      data ry !! (2 * i)%nat = astype (arr_dtype ea) <$> data ya !! i /\
      data ry !! (2 * i + 1)%nat = astype (arr_dtype ea) <$> data ya !! i.
Proof.
  intros He Hy Hle Hk Hly.
  apply (run_stairs_broadcast uninit h e y ea ya k (data ya)); auto.
  apply broadcast_to_same, Hly.
Qed.

(** ** Well-formed arrays *)

Lemma wrap64_in_range z : in_int64 z = true -> wrap64 z = z.
Proof.
  unfold in_int64, wrap64. intros [H1 H2]%andb_true_iff.
  apply Z.leb_le in H1. apply Z.ltb_lt in H2.
  rewrite Z.mod_small by lia. lia.
Qed.

Lemma wrap64_range z : in_int64 (wrap64 z) = true.
Proof.
  unfold in_int64, wrap64. apply andb_true_iff.
  pose proof (Z.mod_pos_bound (z + 2 ^ 63) (2 ^ 64) ltac:(lia)).
  split; [apply Z.leb_le | apply Z.ltb_lt]; lia.
Qed.

Lemma astype_wf d s : has_dtype d s = true -> astype d s = s.
Proof.
  destruct d, s; cbn; try discriminate; try reflexivity.
  intros H. rewrite wrap64_in_range by exact H. reflexivity.
Qed.

Lemma astype_has_dtype d s : has_dtype d (astype d s) = true.
Proof. destruct d, s; cbn; auto using wrap64_range. 
  unfold float2int64. destruct (Prim2SF f); try reflexivity.
  match goal with |- context [if ?c then _ else _] => destruct c eqn:E end; [exact E | reflexivity].
Qed.

Lemma has_dtype_scalar_dtype d s : has_dtype d s = true -> scalar_dtype s = d.
Proof. destruct d, s; cbn; congruence. Qed.

Lemma promote_same d : promote d d = d.
Proof. destruct d; reflexivity. Qed.

Lemma map_astype_wf d l :
  forallb (has_dtype d) l = true -> map (astype d) l = l.
Proof.
  induction l as [|s l IH]; cbn; [reflexivity|].
  intros [H1 H2]%andb_true_iff. rewrite astype_wf, IH; auto.
Qed.

Lemma wf_lookup a (i : nat) s :
  wf_ndarray a = true -> data a !! i = Some s -> has_dtype (arr_dtype a) s = true.
Proof.
  unfold wf_ndarray. intros H E. rewrite forallb_forall in H. apply H.
  apply list_elem_of_In. eapply list_elem_of_lookup_2. exact E.
Qed.

Lemma has_dtype_sub d a b :
  has_dtype d a = true -> has_dtype d b = true ->
  has_dtype d (scalar_sub a b) = true.
Proof.
  destruct d, a, b; cbn; try discriminate; auto using wrap64_range.
Qed.

Lemma has_dtype_sub_int d a z :
  has_dtype d a = true -> has_dtype d (scalar_sub a (I z)) = true.
Proof.
  destruct d, a; cbn; try discriminate; auto using wrap64_range.
Qed.

Lemma has_dtype_add d a b :
  has_dtype d a = true -> has_dtype d b = true ->
  has_dtype d (scalar_add a b) = true.
Proof.
  destruct d, a, b; cbn; try discriminate; auto using wrap64_range.
Qed.

Lemma has_dtype_add_int d a z :
  has_dtype d a = true -> has_dtype d (scalar_add a (I z)) = true.
Proof.
  destruct d, a; cbn; try discriminate; auto using wrap64_range.
Qed.

Lemma left_edge_dtype xa x0 l :
  wf_ndarray xa = true -> data xa = x0 :: l ->
  has_dtype (arr_dtype xa)
    (scalar_sub x0 (match head l with
                    | Some x1 => scalar_sub x1 x0
                    | None => I 1
                    end)) = true.
Proof.
  intros Hwf Hd.
  assert (has_dtype (arr_dtype xa) x0 = true) as H0.
  { apply (wf_lookup xa 0); auto. rewrite Hd. reflexivity. }
  destruct l as [|x1 l]; cbn [head].
  - apply has_dtype_sub_int, H0.
  - apply has_dtype_sub; [exact H0|]. apply has_dtype_sub; [|exact H0].
    apply (wf_lookup xa 1); auto. rewrite Hd. reflexivity.
Qed.

Lemma right_edge_dtype xa xl l :
  wf_ndarray xa = true -> data xa = l ++ [xl] ->
  has_dtype (arr_dtype xa)
    (scalar_add xl (match last l with
                    | Some xp => scalar_sub xl xp
                    | None => I 1
                    end)) = true.
Proof.
  intros Hwf Hd.
  assert (has_dtype (arr_dtype xa) xl = true) as H0.
  { apply (wf_lookup xa (length l)); auto.
    rewrite Hd. apply list_lookup_middle. reflexivity. }
  destruct (last l) as [xp|] eqn:E.
  - apply has_dtype_add; [exact H0|]. apply has_dtype_sub; [exact H0|].
    apply last_Some in E as [l' ->].
    apply (wf_lookup xa (length l')); auto.
    rewrite Hd, <- app_assoc. apply list_lookup_middle. reflexivity.
  - apply has_dtype_add_int, H0.
Qed.

Lemma forallb_lookup (P : scalar -> bool) (l : list scalar) :
  (forall (i : nat) s, l !! i = Some s -> P s = true) -> forallb P l = true.
Proof.
  intros H. apply forallb_forall. intros s Hs%list_elem_of_In.
  apply list_elem_of_lookup_1 in Hs as [i Hi]. eauto.
Qed.

(** ** Runs of [_computeEdges] *)

Lemma run_computeEdges_left (h : heap) (x : ref) xa x0 l :
  h !! x = Some xa -> wf_ndarray xa = true -> data xa = x0 :: l ->
  run (_computeEdges x (PyStr "left")) h
  = (h ++ [xa;
           mk_ndarray (arr_dtype xa)
             (scalar_sub x0 (match head l with
                             | Some x1 => scalar_sub x1 x0
                             | None => I 1
                             end) :: data xa)],
     Ok (S (length h))).
Proof.
  intros Hx Hwf Hd.
  set (width := match head l with Some x1 => scalar_sub x1 x0 | None => I 1 end).
  pose proof (left_edge_dtype xa x0 l Hwf Hd) as Hs. fold width in Hs.
  rewrite _computeEdges_equation_1.
  destruct (decide (PyStr "left" = PyStr "left")) as [_|]; [|congruence].
  destruct (decide (PyStr "left" = PyStr "center")) as [|_]; [discriminate|].
  destruct (decide (PyStr "left" = PyStr "right")) as [|_]; [discriminate|].
  rewrite (run_bind_ok _ _ _ _ _ (run_ndarray_copy _ _ _ Hx)).
  assert ((h ++ [xa]) !! x = Some xa) as Hx1 by (apply heap_lookup_old, Hx).
  erewrite (run_bind_ok (bind (len x) _)).
  2:{ rewrite (run_bind_ok _ _ _ _ _ (run_len _ _ _ Hx1)).
      erewrite (run_bind_ok _ _ _ (h ++ [xa]) width).
      2:{ rewrite Hd. subst width. destruct l as [|x1 l]; cbn [head].
          - reflexivity.
          - cbn [length]. destruct (Z.ltb_spec 1 (Z.of_nat (S (S (length l))))); [|lia].
            rewrite (run_bind_ok _ _ _ _ _ (run_getitem _ _ _ 1 1%nat x1 Hx1 eq_refl ltac:(rewrite Hd; reflexivity))).
            rewrite (run_bind_ok _ _ _ _ _ (run_getitem _ _ _ 0 0%nat x0 Hx1 eq_refl ltac:(rewrite Hd; reflexivity))).
            reflexivity. }
      rewrite (run_bind_ok _ _ _ _ _ (run_getitem _ _ _ 0 0%nat x0 Hx1 eq_refl ltac:(rewrite Hd; reflexivity))).
      apply run_numpy_append.
      - apply run_asarray_Sc.
      - apply run_asarray_Arr, heap_lookup_0. }
  rewrite !run_bind, !run_ret. cbn [arr_dtype data].
  rewrite (has_dtype_scalar_dtype _ _ Hs), promote_same.
  rewrite map_astype_wf.
  2:{ cbn. rewrite Hs. exact Hwf. }
  rewrite <- app_assoc, length_app, Nat.add_1_r. reflexivity.
Qed.

Lemma run_computeEdges_right (h : heap) (x : ref) xa xl l :
  h !! x = Some xa -> wf_ndarray xa = true -> data xa = l ++ [xl] ->
  run (_computeEdges x (PyStr "right")) h
  = (h ++ [xa;
           mk_ndarray (arr_dtype xa)
             (data xa ++ [scalar_add xl (match last l with
                                         | Some xp => scalar_sub xl xp
                                         | None => I 1
                                         end)])],
     Ok (S (length h))).
Proof.
  intros Hx Hwf Hd.
  set (width := match last l with Some xp => scalar_sub xl xp | None => I 1 end).
  assert (data xa !! length l = Some xl) as Hl.
  { rewrite Hd. apply list_lookup_middle. reflexivity. }
  assert (length (data xa) = S (length l)) as Hn.
  { rewrite Hd, length_app. cbn. lia. }
  pose proof (right_edge_dtype xa xl l Hwf Hd) as Hs. fold width in Hs.
  rewrite _computeEdges_equation_1.
  destruct (decide (PyStr "right" = PyStr "left")) as [|_]; [discriminate|].
  destruct (decide (PyStr "right" = PyStr "center")) as [|_]; [discriminate|].
  destruct (decide (PyStr "right" = PyStr "right")) as [_|]; [|congruence].
  rewrite (run_bind_ok _ _ _ _ _ (run_ndarray_copy _ _ _ Hx)).
  assert ((h ++ [xa]) !! x = Some xa) as Hx1 by (apply heap_lookup_old, Hx).
  rewrite !run_bind_ret.
  erewrite (run_bind_ok (bind (len x) _)).
  2:{ rewrite (run_bind_ok _ _ _ _ _ (run_len _ _ _ Hx1)).
      erewrite (run_bind_ok _ _ _ (h ++ [xa]) width).
      2:{ rewrite Hn. subst width. destruct (last l) as [xp|] eqn:E.
          - apply last_Some in E as [l' ->].
            assert (length (data xa) = S (S (length l'))) as Hn'.
            { rewrite Hn, length_app. cbn [length]. lia. }
            rewrite length_app, Nat.add_1_r.
            destruct (Z.ltb_spec 1 (Z.of_nat (S (S (length l'))))); [|lia].
            erewrite run_bind_ok.
            2:{ apply (run_getitem _ _ _ (-1) (S (length l')) xl Hx1).
                - cbn [Z.ltb Z.compare]. lia.
                - rewrite <- Hl, length_app, Nat.add_1_r. reflexivity. }
            erewrite run_bind_ok.
            2:{ apply (run_getitem _ _ _ (-2) (length l') xp Hx1).
                - cbn [Z.ltb Z.compare]. lia.
                - rewrite Hd, <- app_assoc. apply list_lookup_middle. reflexivity. }
            reflexivity.
          - apply last_None in E as ->. reflexivity. }
      erewrite run_bind_ok.
      2:{ apply (run_getitem _ _ _ (-1) (length l) xl Hx1); [|exact Hl].
          cbn [Z.ltb Z.compare]. lia. }
      apply run_numpy_append.
      - apply run_asarray_Arr, heap_lookup_0.
      - apply run_asarray_Sc. }
  rewrite run_ret. cbn [arr_dtype data].
  rewrite (has_dtype_scalar_dtype _ _ Hs), promote_same.
  rewrite map_astype_wf.
  2:{ rewrite forallb_app. cbn. rewrite Hs. unfold wf_ndarray in Hwf. rewrite Hwf. reflexivity. }
  rewrite <- app_assoc, length_app, Nat.add_1_r. reflexivity.
Qed.

Lemma promote_float_r d : promote d float64 = float64.
Proof. destruct d; reflexivity. Qed.

Lemma scalar_sub_astype_float a f :
  scalar_sub (astype float64 a) (astype float64 (F f)) = scalar_sub a (F f).
Proof. destruct a; reflexivity. Qed.

Lemma run_computeEdges_center (h : heap) (x : ref) xa xl l :
  h !! x = Some xa -> wf_ndarray xa = true -> data xa = l ++ [xl] ->
  let n := length (data xa) in
  let r := data xa ++ [scalar_add xl (match last l with
                                      | Some xp => scalar_sub xl xp
                                      | None => I 1
                                      end)] in
  exists t w0 w res,
    run (_computeEdges x (PyStr "center")) h
    = (h ++ [xa; xa; mk_ndarray (arr_dtype xa) r; t; w0;
             mk_ndarray float64 w; mk_ndarray float64 res],
       Ok (length h + 6)%nat) /\
    length r = S n /\ length w = S n /\ length res = S n /\
    (forall (i : nat) ri rk, (i < n)%nat ->
       r !! i = Some ri -> r !! S i = Some rk ->
       w !! i = Some (scalar_truediv (scalar_sub rk ri) (F 2))) /\
    w !! n = w !! (n - 1)%nat /\
    (forall (i : nat) ri wi,
       r !! i = Some ri -> w !! i = Some wi ->
       res !! i = Some (scalar_sub ri wi)).
Proof.
  intros Hx Hwf Hd n r.
  set (d := arr_dtype xa).
  assert (length r = S n) as Hr by (subst r n; rewrite length_app; cbn; lia).
  assert (1 <= n)%nat as Hn1 by (subst n; rewrite Hd, length_app; cbn; lia).
  assert (forallb (has_dtype d) r = true) as Hwr.
  { subst r. rewrite forallb_app.
    pose proof (right_edge_dtype xa xl l Hwf Hd) as Hs.
    unfold wf_ndarray in Hwf. fold d in Hwf, Hs.
    rewrite Hwf. cbn. rewrite Hs. reflexivity. }
  set (td := zip_with (fun p q => scalar_sub (astype (promote d d) p) (astype (promote d d) q))
               (take n (drop 1 r)) (take n (drop 0 r))).
  set (wd := zip_with (fun p q => scalar_truediv p q) td (replicate n (F 2))).
  assert (length td = n) as Htd.
  { subst td. rewrite length_zip_with, !length_take, !length_drop. lia. }
  assert (length wd = n) as Hwd.
  { subst wd. rewrite length_zip_with, length_replicate. lia. }
  assert (forall i : nat, (i < n)%nat -> exists rj rk,
            r !! i = Some rj /\ r !! S i = Some rk /\
            wd !! i = Some (scalar_truediv (scalar_sub rk rj) (F 2))) as Hwi.
  { intros i Hi.
    destruct (lookup_lt_is_Some_2 r i ltac:(lia)) as [rj Hj].
    destruct (lookup_lt_is_Some_2 r (S i) ltac:(lia)) as [rk Hk].
    exists rj, rk. split; [exact Hj|]. split; [exact Hk|].
    subst wd td. rewrite !lookup_zip_with.
    rewrite !lookup_take_lt by lia. rewrite !lookup_drop.
    cbn [Nat.add]. rewrite Hj, Hk. cbn.
    rewrite lookup_replicate_2 by lia. cbn.
    rewrite promote_same.
    rewrite !astype_wf; [reflexivity | |].
    - rewrite forallb_forall in Hwr. apply Hwr, list_elem_of_In.
      eapply list_elem_of_lookup_2, Hj.
    - rewrite forallb_forall in Hwr. apply Hwr, list_elem_of_In.
      eapply list_elem_of_lookup_2, Hk. }
  destruct (Hwi (n - 1)%nat ltac:(lia)) as (rp & rn & Hrp & Hrn & Hwl).
  replace (S (n - 1)) with n in Hrn by lia.
  set (wl := scalar_truediv (scalar_sub rn rp) (F 2)) in *.
  set (wd' := map (astype (promote float64 (scalar_dtype wl))) (wd ++ [wl])).
  exists (mk_ndarray (promote d d) td), (mk_ndarray float64 wd), wd',
    (zip_with (fun p q => scalar_sub (astype float64 p) (astype float64 q)) r wd').
  assert (length wd' = S n) as Hwd'.
  { subst wd'. rewrite length_map, length_app. cbn. lia. }
  split; [|split; [exact Hr | split; [exact Hwd' | split; [|split; [|split]]]]].
  - rewrite _computeEdges_equation_1.
    destruct (decide (PyStr "center" = PyStr "left")) as [|_]; [discriminate|].
    destruct (decide (PyStr "center" = PyStr "center")) as [_|]; [|congruence].
    destruct (decide (PyStr "center" = PyStr "right")) as [|_]; [discriminate|].
    rewrite (run_bind_ok _ _ _ _ _ (run_ndarray_copy _ _ _ Hx)).
    rewrite run_bind_ret.
    erewrite (run_bind_ok (bind (_computeEdges _ _) _)).
    2:{ erewrite run_bind_ok.
        2:{ apply (run_computeEdges_right _ _ xa xl l); [apply heap_lookup_0 | exact Hwf | exact Hd]. }
        fold r d.
        set (h2 := (h ++ [xa]) ++ [xa; mk_ndarray d r]).
        assert (h2 !! S (length (h ++ [xa])) = Some (mk_ndarray d r)) as He.
        { subst h2. apply heap_lookup_1. }
        erewrite run_bind_ok.
        2:{ eapply run_arr_binop.
            - apply run_asarray_View; [exact He | apply slice_indices_tail].
            - apply run_asarray_View; [exact He | apply slice_indices_init; right; reflexivity].
            - cbn [data]. rewrite !gather_seq, !length_take, !length_drop, Hr.
              match goal with
              | |- broadcast_shape ?a ?b = _ =>
                  replace a with n by lia; replace b with n by lia
              end.
              apply broadcast_shape_same.
            - cbn [data]. apply broadcast_to_same.
              rewrite gather_seq, length_take, length_drop, Hr. lia.
            - cbn [data]. apply broadcast_to_same.
              rewrite gather_seq, length_take, length_drop, Hr. lia. }
        cbn [data arr_dtype]. rewrite !gather_seq, Hr.
        replace (S n - 1)%nat with n by lia. fold td.
        set (h3 := h2 ++ [mk_ndarray (promote d d) td]).
        erewrite run_bind_ok.
        2:{ eapply run_arr_binop.
            - apply run_asarray_Arr. subst h3. apply heap_lookup_0.
            - apply run_asarray_Sc.
            - cbn [data length]. rewrite Htd. apply broadcast_shape_1_r, Hn1.
            - cbn [data]. apply broadcast_to_same, Htd.
            - cbn [data]. apply broadcast_to_singleton. }
        cbn [data arr_dtype]. fold wd.
        set (h4 := h3 ++ [mk_ndarray float64 wd]).
        erewrite run_bind_ok.
        2:{ apply (run_getitem _ _ (mk_ndarray float64 wd) (-1) (n - 1)%nat wl).
            - subst h4. apply heap_lookup_0.
            - cbn [data Z.ltb Z.compare]. rewrite Hwd. lia.
            - exact Hwl. }
        erewrite run_bind_ok.
        2:{ apply run_numpy_append.
            - apply run_asarray_Arr. subst h4. apply heap_lookup_0.
            - apply run_asarray_Sc. }
        cbn [data arr_dtype]. fold wd'.
        set (h5 := h4 ++ [mk_ndarray (promote float64 (scalar_dtype wl)) wd']).
        eapply run_arr_binop.
        + apply run_asarray_Arr. subst h5 h4 h3. do 3 apply heap_lookup_old. exact He.
        + apply run_asarray_Arr. subst h5 h4. rewrite length_app, Nat.add_1_r.
          rewrite <- (app_assoc h3). apply heap_lookup_1.
        + cbn [data]. rewrite Hr, Hwd'. apply broadcast_shape_same.
        + cbn [data]. apply broadcast_to_same, Hr.
        + cbn [data]. apply broadcast_to_same, Hwd'. }
    rewrite run_bind_ret, run_ret. cbn [arr_dtype].
    rewrite promote_float_r.
    rewrite <- !app_assoc. cbn [app]. rewrite !length_app. cbn [length].
    rewrite !promote_float_r. reflexivity.
  - rewrite length_zip_with, Hr, Hwd'. lia.
  - intros i ri rk Hi Hri Hrk.
    destruct (Hwi i Hi) as (rj' & rk' & Hj & Hk & Hw).
    rewrite Hj in Hri. rewrite Hk in Hrk.
    injection Hri as <-. injection Hrk as <-.
    subst wd'. change (map ?f ?l) with (f <$> l). rewrite list_lookup_fmap.
    rewrite lookup_app_l by lia. rewrite Hw. reflexivity.
  - subst wd'. change (map ?f ?l) with (f <$> l). rewrite !list_lookup_fmap.
    rewrite lookup_app_r by lia. rewrite lookup_app_l by lia.
    rewrite Hwd, Nat.sub_diag, Hwl. reflexivity.
  - intros i ri wi Hri Hwi'.
    rewrite lookup_zip_with, Hri, Hwi'. cbn [mbind option_bind].
    subst wd'. change (map ?f ?l) with (f <$> l) in Hwi'.
    rewrite list_lookup_fmap in Hwi'.
    destruct ((wd ++ [wl]) !! i) as [s|]; [|discriminate].
    injection Hwi' as <-. destruct ri, s; reflexivity.
Qed.

(** ** Runs of [_getHistogramValue] *)

(** [in] and [==] see the value of an object, [is] the object. *)
Lemma py_in_decide (o : pyobj) (l : list pyobj) :
  py_in o l = bool_decide (value o ∈ value <$> l).
Proof.
  induction l as [|a l IH].
  - symmetry. apply bool_decide_eq_false_2, not_elem_of_nil.
  - change (py_in o (a :: l)) with (py_eq o a || py_in o l).
    rewrite fmap_cons, IH. unfold py_eq.
    destruct (decide (value o = value a)) as [E|E].
    + rewrite (bool_decide_eq_true_2 _ E). cbn. symmetry.
      apply bool_decide_eq_true_2. rewrite E. left.
    + rewrite (bool_decide_eq_false_2 _ E). cbn.
      apply bool_decide_ext. rewrite elem_of_cons. tauto.
Qed.

Lemma py_in_modes (m : pyobj) :
  py_in m [PyStr "left"; PyStr "right"; PyStr "center"]
  = bool_decide (value m ∈ modes).
Proof. rewrite py_in_decide. reflexivity. Qed.

Lemma modes_value (m : pyobj) : m ∈ modes -> value m ∈ modes.
Proof.
  unfold modes. rewrite !elem_of_cons, elem_of_nil.
  intros [-> | [-> | [-> | []]]]; cbn; tauto.
Qed.

(** A str equal to a mode is the literal or another object of its text. *)
Lemma value_modes (m : pyobj) :
  value m ∈ modes ->
  m ∈ modes \/
  m = PyStrNew "left" \/ m = PyStrNew "right" \/ m = PyStrNew "center".
Proof.
  unfold modes. rewrite !elem_of_cons, elem_of_nil.
  destruct m as [| s | z | s]; cbn; intros [E | [E | [E | []]]];
    try discriminate; injection E as ->; tauto.
Qed.

Lemma new_not_modes (s : string) : PyStrNew s ∉ modes.
Proof.
  unfold modes. rewrite !not_elem_of_cons.
  repeat split; try discriminate. apply not_elem_of_nil.
Qed.

Lemma getHistogramValue_unfold uninit x y m :
  _getHistogramValue uninit x y m
  = (py_assert (bool_decide (value m ∈ modes)) ;;;
     lx <- len x ;;
     ly <- len y ;;
     edges <- (if lx =? ly + 1 then ret x else _computeEdges x m) ;;
     stairs uninit edges y).
Proof. unfold _getHistogramValue. rewrite py_in_modes. reflexivity. Qed.

Lemma run_getHistogramValue_supplied uninit (h : heap) (x y : ref) xa ya m :
  h !! x = Some xa -> h !! y = Some ya ->
  length (data xa) = S (length (data ya)) -> value m ∈ modes ->
  run (_getHistogramValue uninit x y m) h = run (stairs uninit x y) h.
Proof.
  intros Hx Hy Hl Hm. rewrite getHistogramValue_unfold.
  rewrite (run_bind_ok _ _ h h tt).
  2:{ apply run_py_assert_true, bool_decide_eq_true_2, Hm. }
  rewrite (run_bind_ok _ _ _ _ _ (run_len _ _ _ Hx)).
  rewrite (run_bind_ok _ _ _ _ _ (run_len _ _ _ Hy)).
  rewrite Hl.
  destruct (Z.eqb_spec (Z.of_nat (S (length (data ya))))
              (Z.of_nat (length (data ya)) + 1)); [|lia].
  rewrite run_bind_ret. reflexivity.
Qed.

Lemma run_getHistogramValue_computed uninit (h h1 : heap) (x y e : ref) xa ya m :
  h !! x = Some xa -> h !! y = Some ya ->
  length (data xa) <> S (length (data ya)) -> value m ∈ modes ->
  run (_computeEdges x m) h = (h1, Ok e) ->
  run (_getHistogramValue uninit x y m) h = run (stairs uninit e y) h1.
Proof.
  intros Hx Hy Hl Hm He. rewrite getHistogramValue_unfold.
  rewrite (run_bind_ok _ _ h h tt).
  2:{ apply run_py_assert_true, bool_decide_eq_true_2, Hm. }
  rewrite (run_bind_ok _ _ _ _ _ (run_len _ _ _ Hx)).
  rewrite (run_bind_ok _ _ _ _ _ (run_len _ _ _ Hy)).
  destruct (Z.eqb_spec (Z.of_nat (length (data xa)))
              (Z.of_nat (length (data ya)) + 1)); [lia|].
  rewrite (run_bind_ok _ _ _ _ _ He). reflexivity.
Qed.

Lemma run_stairs_short uninit (h : heap) (e y : ref) ea :
  h !! e = Some ea -> (length (data ea) <= 1)%nat ->
  run (stairs uninit e y) h = (h, Raise AssertionError).
Proof.
  intros He Hl. unfold stairs.
  rewrite (run_bind_ok _ _ _ _ _ (run_len _ _ _ He)).
  apply run_bind_raise, run_py_assert_false.
  apply Z.ltb_ge. lia.
Qed.

Lemma run_stairs_mismatch uninit (h : heap) (e y : ref) ea ya (k : nat) :
  h !! e = Some ea -> h !! y = Some ya ->
  length (data ea) = S k -> (1 <= k)%nat ->
  length (data ya) <> k -> length (data ya) <> 1%nat ->
  exists h', run (stairs uninit e y) h = (h', Raise ValueError).
Proof.
  intros He Hy Hle Hk Hne Hn1.
  set (d := arr_dtype ea).
  set (j0 := map (fun i => astype d (uninit (length h) i)) (seq 0 (2 * k))).
  set (j1 := map (fun i => astype d (uninit (length (h ++ [mk_ndarray d j0])) i))
               (seq 0 (2 * k))).
  assert (length j0 = (2 * k)%nat) as Hj0
    by (subst j0; rewrite length_map, length_seq; reflexivity).
  assert (length j1 = (2 * k)%nat) as Hj1
    by (subst j1; rewrite length_map, length_seq; reflexivity).
  eexists. unfold stairs.
  rewrite (run_bind_ok _ _ _ _ _ (run_len _ _ _ He)).
  rewrite (run_bind_ok _ _ h h tt) by (apply run_py_assert_true; lia).
  rewrite (run_bind_ok _ _ _ _ _ (run_get_dtype _ _ _ He)).
  replace ((Z.of_nat (length (data ea)) - 1) * 2) with (Z.of_nat (2 * k)) by lia.
  erewrite run_bind_ok by (apply run_numpy_empty; lia).
  rewrite Nat2Z.id. fold d j0.
  erewrite run_bind_ok by (apply run_get_dtype, heap_lookup_old, He).
  erewrite run_bind_ok by (apply run_numpy_empty; lia).
  rewrite Nat2Z.id. fold d j1.
  rewrite <- app_assoc. cbn [app].
  erewrite run_bind_ok.
  2:{ eapply run_setitem.
      - apply run_asarray_View; [apply heap_lookup_old, He|].
        apply slice_indices_init. left. reflexivity.
      - apply heap_lookup_0.
      - cbn [data]. rewrite Hj0. apply slice_indices_even.
      - cbn [data]. apply broadcast_to_same.
        rewrite gather_seq, drop_0, length_take, length_map, length_seq. lia. }
  rewrite heap_insert_0. cbn [arr_dtype data].
  erewrite run_bind_ok.
  2:{ eapply run_setitem.
      - apply run_asarray_View; [apply heap_lookup_old, He|].
        apply slice_indices_tail.
      - apply heap_lookup_0.
      - cbn [data]. rewrite scatter_length, Hj0. apply slice_indices_odd.
      - cbn [data]. apply broadcast_to_same.
        rewrite gather_seq, length_take, length_drop, length_map, length_seq. lia. }
  rewrite heap_insert_0. cbn [arr_dtype data].
  apply run_bind_raise.
  eapply run_setitem_mismatch.
  - apply run_asarray_Arr, heap_lookup_old, Hy.
  - rewrite length_app, Nat.add_1_r. apply heap_lookup_1.
  - cbn [data]. rewrite Hj1. apply slice_indices_even.
  - rewrite length_map, length_seq. exact Hne.
  - exact Hn1.
Qed.

Lemma run_computeEdges_empty_left (h : heap) (x : ref) xa :
  h !! x = Some xa -> data xa = [] ->
  run (_computeEdges x (PyStr "left")) h = (h ++ [xa], Raise IndexError).
Proof.
  intros Hx Hd.
  assert ((h ++ [xa]) !! x = Some xa) as Hx1 by (apply heap_lookup_old, Hx).
  rewrite _computeEdges_equation_1.
  destruct (decide (PyStr "left" = PyStr "left")) as [_|]; [|congruence].
  rewrite (run_bind_ok _ _ _ _ _ (run_ndarray_copy _ _ _ Hx)).
  apply run_bind_raise.
  rewrite (run_bind_ok _ _ _ _ _ (run_len _ _ _ Hx1)).
  rewrite Hd. change (1 <? Z.of_nat (length (@nil scalar))) with false. cbv iota.
  rewrite run_bind_ret.
  apply run_bind_raise. apply (run_getitem_empty _ _ xa); assumption.
Qed.

Lemma run_computeEdges_empty_right (h : heap) (x : ref) xa :
  h !! x = Some xa -> data xa = [] ->
  run (_computeEdges x (PyStr "right")) h = (h ++ [xa], Raise IndexError).
Proof.
  intros Hx Hd.
  assert ((h ++ [xa]) !! x = Some xa) as Hx1 by (apply heap_lookup_old, Hx).
  rewrite _computeEdges_equation_1.
  destruct (decide (PyStr "right" = PyStr "left")) as [|_]; [discriminate|].
  destruct (decide (PyStr "right" = PyStr "center")) as [|_]; [discriminate|].
  destruct (decide (PyStr "right" = PyStr "right")) as [_|]; [|congruence].
  rewrite (run_bind_ok _ _ _ _ _ (run_ndarray_copy _ _ _ Hx)).
  rewrite !run_bind_ret.
  apply run_bind_raise.
  rewrite (run_bind_ok _ _ _ _ _ (run_len _ _ _ Hx1)).
  rewrite Hd. change (1 <? Z.of_nat (length (@nil scalar))) with false. cbv iota.
  rewrite run_bind_ret.
  apply run_bind_raise. apply (run_getitem_empty _ _ xa); assumption.
Qed.

Lemma run_computeEdges_empty_center (h : heap) (x : ref) xa :
  h !! x = Some xa -> data xa = [] ->
  run (_computeEdges x (PyStr "center")) h = (h ++ [xa; xa], Raise IndexError).
Proof.
  intros Hx Hd.
  rewrite _computeEdges_equation_1.
  destruct (decide (PyStr "center" = PyStr "left")) as [|_]; [discriminate|].
  destruct (decide (PyStr "center" = PyStr "center")) as [_|]; [|congruence].
  rewrite (run_bind_ok _ _ _ _ _ (run_ndarray_copy _ _ _ Hx)).
  rewrite !run_bind_ret.
  apply run_bind_raise. apply run_bind_raise.
  rewrite (run_computeEdges_empty_right (h ++ [xa]) (length h) xa);
    [| apply heap_lookup_0 | exact Hd].
  rewrite <- app_assoc. reflexivity.
Qed.

Lemma run_computeEdges_empty (h : heap) (x : ref) xa m :
  h !! x = Some xa -> data xa = [] -> m ∈ modes ->
  exists h', run (_computeEdges x m) h = (h', Raise IndexError).
Proof.
  intros Hx Hd Hm.
  unfold modes in Hm. rewrite !elem_of_cons, elem_of_nil in Hm.
  destruct Hm as [-> | [-> | [-> | []]]]; eexists.
  - apply (run_computeEdges_empty_left h x xa); assumption.
  - apply (run_computeEdges_empty_right h x xa); assumption.
  - apply (run_computeEdges_empty_center h x xa); assumption.
Qed.

(** What [_computeEdges] returns on a non-empty array. *)
Lemma run_computeEdges_nonempty (h : heap) (x : ref) xa m :
  h !! x = Some xa -> wf_ndarray xa = true -> data xa <> [] -> m ∈ modes ->
  exists t e ea,
    run (_computeEdges x m) h = (h ++ t, Ok e) /\
    (h ++ t) !! e = Some ea /\
    length (data ea) = S (length (data xa)) /\
    arr_dtype ea = (if decide (m = PyStr "center") then float64 else arr_dtype xa).
Proof.
  intros Hx Hwf Hne Hm.
  unfold modes in Hm. rewrite !elem_of_cons, elem_of_nil in Hm.
  destruct Hm as [-> | [-> | [-> | []]]].
  - destruct (data xa) as [|x0 l] eqn:Hd; [contradiction|].
    eexists _, _, _. split; [apply (run_computeEdges_left h x xa x0 l Hx Hwf Hd)|].
    split; [apply heap_lookup_1|].
    split; [cbn [data length]; rewrite Hd; reflexivity | reflexivity].
  - destruct (data xa) as [|xl l _] eqn:Hd using rev_ind; [contradiction|].
    eexists _, _, _. split; [apply (run_computeEdges_right h x xa xl l Hx Hwf Hd)|].
    split; [apply heap_lookup_1|]. split; [|reflexivity].
    cbn [data]. rewrite Hd, !length_app. cbn. lia.
  - destruct (data xa) as [|xl l _] eqn:Hd using rev_ind; [contradiction|].
    destruct (run_computeEdges_center h x xa xl l Hx Hwf Hd)
      as (t & w0 & w & res & Hrun & Hr & Hw & Hres & _).
    eexists _, _, _. split; [exact Hrun|].
    split; [rewrite heap_lookup_new; reflexivity|].
    split; [|reflexivity]. cbn [data]. rewrite Hres, Hd. reflexivity.
Qed.

(** The edges [_computeEdges] returns are a well-formed array. *)
Lemma run_computeEdges_wf (h h' : heap) (x e : ref) xa ea m :
  h !! x = Some xa -> wf_ndarray xa = true -> data xa <> [] -> m ∈ modes ->
  run (_computeEdges x m) h = (h', Ok e) -> h' !! e = Some ea ->
  wf_ndarray ea = true.
Proof.
  intros Hx Hwf Hne Hm Hrun He.
  unfold modes in Hm. rewrite !elem_of_cons, elem_of_nil in Hm.
  destruct Hm as [-> | [-> | [-> | []]]].
  - destruct (data xa) as [|x0 l] eqn:Hd; [contradiction|].
    rewrite (run_computeEdges_left h x xa x0 l Hx Hwf Hd) in Hrun.
    injection Hrun as <- <-. rewrite heap_lookup_1 in He. injection He as <-.
    unfold wf_ndarray. cbn [arr_dtype data forallb].
    rewrite (left_edge_dtype xa x0 l Hwf Hd). exact Hwf.
  - destruct (data xa) as [|xl l _] eqn:Hd using rev_ind; [contradiction|].
    rewrite (run_computeEdges_right h x xa xl l Hx Hwf Hd) in Hrun.
    injection Hrun as <- <-. rewrite heap_lookup_1 in He. injection He as <-.
    unfold wf_ndarray. cbn [arr_dtype data]. rewrite forallb_app.
    unfold wf_ndarray in Hwf. rewrite Hwf. cbn [forallb andb].
    rewrite (right_edge_dtype xa xl l Hwf Hd). reflexivity.
  - destruct (data xa) as [|xl l _] eqn:Hd using rev_ind; [contradiction|].
    destruct (run_computeEdges_center h x xa xl l Hx Hwf Hd)
      as (t & w0 & w & res & Hc & Hr & Hw & Hres & Hgap & Hdup & Hsub).
    rewrite Hc in Hrun. injection Hrun as <- <-.
    rewrite heap_lookup_new in He. injection He as <-.
    unfold wf_ndarray. cbn [arr_dtype data].
    apply forallb_lookup. intros i s Hi.
    apply lookup_lt_Some in Hi as Hlt. rewrite Hres in Hlt.
    set (r := data xa ++ _) in *. set (n := length (data xa)) in *.
    destruct (lookup_lt_is_Some_2 r i ltac:(lia)) as [ri Hri].
    assert (exists f, w !! i = Some (F f)) as [f Hf].
    { assert (forall j : nat, (j < n)%nat -> exists f, w !! j = Some (F f)) as Hlow.
      { intros j Hj.
        destruct (lookup_lt_is_Some_2 r j ltac:(lia)) as [rj Hrj].
        destruct (lookup_lt_is_Some_2 r (S j) ltac:(lia)) as [rk Hrk].
        rewrite (Hgap j rj rk Hj Hrj Hrk). eexists. reflexivity. }
      destruct (decide (i = n)) as [->|Hin].
      - rewrite Hdup. apply Hlow. subst n. rewrite Hd, length_app. cbn. lia.
      - apply Hlow. lia. }
    rewrite (Hsub i ri (F f) Hri Hf) in Hi. injection Hi as <-.
    destruct ri; reflexivity.
Qed.

Lemma run_getHistogramValue_computed_raise uninit (h h1 : heap) (x y : ref)
    xa ya m err :
  h !! x = Some xa -> h !! y = Some ya ->
  length (data xa) <> S (length (data ya)) -> value m ∈ modes ->
  run (_computeEdges x m) h = (h1, Raise err) ->
  run (_getHistogramValue uninit x y m) h = (h1, Raise err).
Proof.
  intros Hx Hy Hl Hm He. rewrite getHistogramValue_unfold.
  rewrite (run_bind_ok _ _ h h tt).
  2:{ apply run_py_assert_true, bool_decide_eq_true_2, Hm. }
  rewrite (run_bind_ok _ _ _ _ _ (run_len _ _ _ Hx)).
  rewrite (run_bind_ok _ _ _ _ _ (run_len _ _ _ Hy)).
  destruct (Z.eqb_spec (Z.of_nat (length (data xa)))
              (Z.of_nat (length (data ya)) + 1)); [lia|].
  apply run_bind_raise, He.
Qed.

(** The result on every valid input: the edges are [x] itself or the
    array [_computeEdges] returns, and both results are laid out in pairs,
    their elements converted to the element type of the edges. The mode
    is equal to one of the three; when the edges are computed it is the
    literal. *)
Lemma run_getHistogramValue_returns uninit (h : heap) (x y : ref) xa ya m :
  h !! x = Some xa -> h !! y = Some ya -> wf_ndarray xa = true ->
  value m ∈ modes -> (1 <= length (data ya))%nat ->
  length (data xa) = S (length (data ya)) \/
  (length (data xa) = length (data ya) /\ m ∈ modes) ->
  let k := length (data ya) in
  exists t ea rx ry,
    run (_getHistogramValue uninit x y m) h
    = ((h ++ t) ++ [rx; ry], Ok (length (h ++ t), S (length (h ++ t)))) /\
    (length (data xa) = S k -> t = [] /\ ea = xa) /\
    (length (data xa) = k ->
     exists e, run (_computeEdges x m) h = (h ++ t, Ok e) /\
               (h ++ t) !! e = Some ea) /\
    arr_dtype ea = (if decide (length (data xa) = k /\ m = PyStr "center")
                    then float64 else arr_dtype xa) /\
    length (data ea) = S k /\
    arr_dtype rx = arr_dtype ea /\ arr_dtype ry = arr_dtype ea /\
    length (data rx) = (2 * k)%nat /\ length (data ry) = (2 * k)%nat /\
    forall i : nat, (i < k)%nat ->
      data rx !! (2 * i)%nat = astype (arr_dtype ea) <$> data ea !! i /\
      data rx !! (2 * i + 1)%nat = astype (arr_dtype ea) <$> data ea !! S i /\
      data ry !! (2 * i)%nat = astype (arr_dtype ea) <$> data ya !! i /\
      data ry !! (2 * i + 1)%nat = astype (arr_dtype ea) <$> data ya !! i.
Proof.
  intros Hx Hy Hwf Hv Hk Hlen k.
  destruct Hlen as [Hlen|[Hlen Hm]].
  - destruct (run_stairs uninit h x y xa ya k Hx Hy Hlen Hk eq_refl)
      as (rx & ry & Hrun & Hrest).
    exists [], xa, rx, ry. rewrite app_nil_r.
    split; [rewrite (run_getHistogramValue_supplied _ _ _ _ xa ya); auto|].
    split; [auto|].
    split; [intros E; fold k in Hlen; lia|].
    split; [|split; [exact Hlen | exact Hrest]].
    destruct (decide _) as [[E _]|_]; [fold k in Hlen; lia | reflexivity].
  - assert (data xa <> []) as Hne.
    { intros E. rewrite E in Hlen. cbn in Hlen. lia. }
    destruct (run_computeEdges_nonempty h x xa m Hx Hwf Hne Hm)
      as (t & e & ea & Hrun & He & Hle & Hdt).
    rewrite Hlen in Hle. fold k in Hle.
    destruct (run_stairs uninit (h ++ t) e y ea ya k He
                (heap_lookup_old _ _ _ _ Hy) Hle Hk eq_refl)
      as (rx & ry & Hst & Hrest).
    exists t, ea, rx, ry.
    split.
    { rewrite (run_getHistogramValue_computed _ _ _ _ _ _ xa ya _ Hx Hy ltac:(lia) Hv Hrun).
      exact Hst. }
    split; [intros E; fold k in Hlen; lia|].
    split; [intros _; exists e; auto|].
    split; [|split; [exact Hle | exact Hrest]].
    rewrite Hdt. destruct (decide (m = PyStr "center")) as [->|Hc].
    + destruct (decide _) as [_|Hn]; [reflexivity|]. contradiction Hn. auto.
    + destruct (decide _) as [[_ E]|_]; [contradiction | reflexivity].
Qed.

Lemma run_getHistogramValue_valid uninit (h : heap) (x y : ref) xa ya m :
  h !! x = Some xa -> h !! y = Some ya -> wf_ndarray xa = true ->
  m ∈ modes -> (1 <= length (data ya))%nat ->
  length (data xa) = S (length (data ya)) \/
  length (data xa) = length (data ya) ->
  let k := length (data ya) in
  exists t ea rx ry,
    run (_getHistogramValue uninit x y m) h
    = ((h ++ t) ++ [rx; ry], Ok (length (h ++ t), S (length (h ++ t)))) /\
    (length (data xa) = S k -> t = [] /\ ea = xa) /\
    (length (data xa) = k ->
     exists e, run (_computeEdges x m) h = (h ++ t, Ok e) /\
               (h ++ t) !! e = Some ea) /\
    arr_dtype ea = (if decide (length (data xa) = k /\ m = PyStr "center")
                    then float64 else arr_dtype xa) /\
    length (data ea) = S k /\
    arr_dtype rx = arr_dtype ea /\ arr_dtype ry = arr_dtype ea /\
    length (data rx) = (2 * k)%nat /\ length (data ry) = (2 * k)%nat /\
    forall i : nat, (i < k)%nat ->
      data rx !! (2 * i)%nat = astype (arr_dtype ea) <$> data ea !! i /\
      data rx !! (2 * i + 1)%nat = astype (arr_dtype ea) <$> data ea !! S i /\
      data ry !! (2 * i)%nat = astype (arr_dtype ea) <$> data ya !! i /\
      data ry !! (2 * i + 1)%nat = astype (arr_dtype ea) <$> data ya !! i.
Proof.
  intros Hx Hy Hwf Hm Hk Hlen.
  apply (run_getHistogramValue_returns uninit h x y xa ya m Hx Hy Hwf
           (modes_value m Hm) Hk).
  destruct Hlen as [Hlen|Hlen]; [left | right]; auto.
Qed.

(** ** The frame of a call *)

Section Triples.

Context {A B : Type}.

Lemma triple_ret (P : heap -> Prop) (a : A) (Q : A -> heap -> Prop) E :
  (forall h, P h -> Q a h) -> triple P (ret a) Q E.
Proof. intros H h HP. cbn. auto. Qed.

Lemma triple_bind (P : heap -> Prop) (m : M A) (f : A -> M B)
    (Q : A -> heap -> Prop) (R : B -> heap -> Prop) E :
  triple P m Q E -> (forall a, triple (Q a) (f a) R E) ->
  triple P (bind m f) R E.
Proof.
  intros Hm Hf h HP. rewrite run_bind. specialize (Hm h HP).
  destruct (run m h) as [h' [a|e]]; [apply Hf, Hm | exact Hm].
Qed.

Lemma triple_conseq (P P' : heap -> Prop) (m : M A)
    (Q Q' : A -> heap -> Prop) (E E' : heap -> Prop) :
  triple P' m Q' E' ->
  (forall h, P h -> P' h) -> (forall a h, Q' a h -> Q a h) ->
  (forall h, E' h -> E h) ->
  triple P m Q E.
Proof.
  intros Hm HP HQ HE h Hh. specialize (Hm h (HP h Hh)).
  destruct (run m h) as [h' [a|e]]; auto.
Qed.

Lemma triple_readonly (P : heap -> Prop) (m : M A) :
  readonly m -> triple P m (fun _ => P) P.
Proof.
  intros Hm h HP. specialize (Hm h).
  destruct (run m h) as [h' [a|e]]; cbn in Hm; subst h'; exact HP.
Qed.

Lemma readonly_ret (a : A) : readonly (ret a).
Proof. intros h. reflexivity. Qed.

Lemma readonly_raise (e : exn) : readonly (raise e : M A).
Proof. intros h. reflexivity. Qed.

Lemma readonly_lift (r : result A) : readonly (lift r).
Proof. intros h. reflexivity. Qed.

Lemma readonly_bind (m : M A) (f : A -> M B) :
  readonly m -> (forall a, readonly (f a)) -> readonly (bind m f).
Proof.
  intros Hm Hf h. rewrite run_bind. specialize (Hm h).
  destruct (run m h) as [h' [a|e]]; cbn in Hm; subst h'; [apply Hf | reflexivity].
Qed.

End Triples.

Lemma readonly_load r : readonly (load r).
Proof. intros h. unfold load. cbn. destruct (h !! r); reflexivity. Qed.

Lemma readonly_py_assert b : readonly (py_assert b).
Proof. destruct b; intros h; reflexivity. Qed.

Lemma readonly_len r : readonly (len r).
Proof. apply readonly_bind; [apply readonly_load | intros a; apply readonly_ret]. Qed.

Lemma readonly_get_dtype r : readonly (get_dtype r).
Proof. apply readonly_bind; [apply readonly_load | intros a; apply readonly_ret]. Qed.

Lemma readonly_getitem r i : readonly (getitem r i).
Proof.
  apply readonly_bind; [apply readonly_load|]. intros a. cbv beta zeta.
  destruct (_ && _); [|apply readonly_raise].
  destruct (_ !! _); [apply readonly_ret | apply readonly_raise].
Qed.

Lemma readonly_asarray v : readonly (asarray v).
Proof.
  destruct v as [s|r|r sl]; cbn [asarray].
  - apply readonly_ret.
  - apply readonly_load.
  - apply readonly_bind; [apply readonly_load|]. intros a.
    apply readonly_bind; [apply readonly_lift|]. intros idx. apply readonly_ret.
Qed.

Create HintDb frame.

#[local] Hint Resolve readonly_ret readonly_raise readonly_lift readonly_load
  readonly_py_assert readonly_len readonly_get_dtype readonly_getitem
  readonly_asarray : frame.

Lemma allocates_alloc a : allocates (alloc a).
Proof. intros h. cbn. eauto. Qed.

Lemma allocates_bind {A} (m : M A) (f : A -> M ref) :
  readonly m -> (forall a, allocates (f a)) -> allocates (bind m f).
Proof.
  intros Hm Hf h. rewrite run_bind. specialize (Hm h).
  destruct (run m h) as [h' [a|e]]; cbn in Hm; subst h'; [apply Hf | reflexivity].
Qed.

Lemma allocates_ndarray_copy r : allocates (ndarray_copy r).
Proof.
  apply allocates_bind; [apply readonly_load | intros a; apply allocates_alloc].
Qed.

Lemma allocates_numpy_append u v : allocates (numpy_append u v).
Proof.
  apply allocates_bind; [apply readonly_asarray|]. intros a.
  apply allocates_bind; [apply readonly_asarray|]. intros b.
  apply allocates_alloc.
Qed.

Lemma allocates_arr_binop rd op u v : allocates (arr_binop rd op u v).
Proof.
  apply allocates_bind; [apply readonly_asarray|]. intros a.
  apply allocates_bind; [apply readonly_asarray|]. intros b.
  apply allocates_bind; [apply readonly_lift|]. intros n.
  apply allocates_bind; [apply readonly_lift|]. intros da.
  apply allocates_bind; [apply readonly_lift|]. intros db.
  apply allocates_alloc.
Qed.

Lemma allocates_arr_sub u v : allocates (arr_sub u v).
Proof. apply allocates_arr_binop. Qed.

Lemma allocates_arr_truediv u v : allocates (arr_truediv u v).
Proof. apply allocates_arr_binop. Qed.

Lemma allocates_numpy_empty uninit n d : allocates (numpy_empty uninit n d).
Proof.
  intros h. unfold numpy_empty. destruct (n <? 0); cbn; eauto.
Qed.

Lemma stores_at_store r a : stores_at r (store r a).
Proof. intros h. cbn. eauto. Qed.

Lemma stores_at_bind {A B} r (m : M A) (f : A -> M B) :
  readonly m -> (forall a, stores_at r (f a)) -> stores_at r (bind m f).
Proof.
  intros Hm Hf h. rewrite run_bind. specialize (Hm h).
  destruct (run m h) as [h' [a|e]]; cbn in Hm; subst h'; [apply Hf | reflexivity].
Qed.

Lemma stores_at_setitem r sl v : stores_at r (setitem r sl v).
Proof.
  apply stores_at_bind; [apply readonly_asarray|]. intros b.
  apply stores_at_bind; [apply readonly_load|]. intros a.
  apply stores_at_bind; [apply readonly_lift|]. intros idx.
  apply stores_at_bind; [apply readonly_lift|]. intros vals.
  apply stores_at_store.
Qed.

Lemma frame_refl h : frame h [] h.
Proof. split; [reflexivity | constructor]. Qed.

Lemma frame_weaken h0 F F' h : F' ⊆ F -> frame h0 F h -> frame h0 F' h.
Proof.
  intros Hsub [Hp HF]. split; [exact Hp|].
  rewrite Forall_forall in *. intros r Hr. apply HF, Hsub, Hr.
Qed.

Lemma frame_nil h0 F h : frame h0 F h -> frame h0 [] h.
Proof. intros [Hp _]. split; [exact Hp | constructor]. Qed.

Lemma frame_alloc h0 F h a :
  frame h0 F h -> frame h0 (length h :: F) (h ++ [a]) /\ length h ∉ F.
Proof.
  intros [Hp HF]. pose proof (prefix_length _ _ Hp) as Hl.
  split; [split|].
  - etransitivity; [exact Hp | apply prefix_app_r; reflexivity].
  - rewrite length_app. cbn [length]. constructor; [lia|].
    eapply Forall_impl; [exact HF|]. cbn. intros r Hr. lia.
  - intros Hin. rewrite Forall_forall in HF. specialize (HF _ Hin). lia.
Qed.

Lemma frame_store h0 F h r a :
  r ∈ F -> frame h0 F h -> frame h0 F (<[r := a]> h).
Proof.
  intros Hin [Hp HF].
  assert (length h0 <= r)%nat as Hr.
  { rewrite Forall_forall in HF. specialize (HF _ Hin). lia. }
  split.
  - destruct Hp as [t ->]. rewrite insert_app_r_alt by exact Hr.
    apply prefix_app_r. reflexivity.
  - rewrite length_insert. exact HF.
Qed.

Lemma triple_allocates h0 F (m : M ref) :
  allocates m ->
  triple (frame h0 F) m (fun r h => frame h0 (r :: F) h /\ r ∉ F) (frame h0 F).
Proof.
  intros Hm h HP. specialize (Hm h).
  destruct (run m h) as [h' [r|e]].
  - destruct Hm as [-> [a ->]]. apply frame_alloc, HP.
  - subst h'. exact HP.
Qed.

Lemma triple_stores_at {A} h0 F r (m : M A) :
  stores_at r m -> r ∈ F ->
  triple (frame h0 F) m (fun _ => frame h0 F) (frame h0 F).
Proof.
  intros Hm Hin h HP. specialize (Hm h).
  destruct (run m h) as [h' [x|e]].
  - destruct Hm as [a ->]. apply frame_store; assumption.
  - subst h'. exact HP.
Qed.

(** A read followed by the rest, under the same invariant. *)
Lemma triple_read {A B} h0 F (m : M A) (f : A -> M B) (R : B -> heap -> Prop) :
  readonly m ->
  (forall a, triple (frame h0 F) (f a) R (frame h0 [])) ->
  triple (frame h0 F) (bind m f) R (frame h0 []).
Proof.
  intros Hm Hf. eapply triple_bind; [|exact Hf].
  apply (triple_conseq _ (frame h0 F) _ _ (fun _ => frame h0 F) _ (frame h0 F)).
  - apply triple_readonly, Hm.
  - auto.
  - auto.
  - intros h. apply frame_nil.
Qed.

(** An allocation followed by the rest; the new reference joins the fresh
    ones and differs from them. *)
Lemma triple_new {B} h0 F (m : M ref) (f : ref -> M B) (R : B -> heap -> Prop) :
  allocates m ->
  (forall r, r ∉ F -> triple (frame h0 (r :: F)) (f r) R (frame h0 [])) ->
  triple (frame h0 F) (bind m f) R (frame h0 []).
Proof.
  intros Hm Hf.
  apply (triple_bind _ _ _ (fun r h => frame h0 (r :: F) h /\ r ∉ F)).
  - apply (triple_conseq _ (frame h0 F) _ _
             (fun r h => frame h0 (r :: F) h /\ r ∉ F) _ (frame h0 F)).
    + apply triple_allocates, Hm.
    + auto.
    + auto.
    + intros h. apply frame_nil.
  - intros r h [Hfr Hnin]. apply (Hf r Hnin h Hfr).
Qed.

(** A write to a fresh array followed by the rest. *)
Lemma triple_write {A B} h0 F r (m : M A) (f : A -> M B) (R : B -> heap -> Prop) :
  stores_at r m -> r ∈ F ->
  (forall a, triple (frame h0 F) (f a) R (frame h0 [])) ->
  triple (frame h0 F) (bind m f) R (frame h0 []).
Proof.
  intros Hm Hin Hf. eapply triple_bind; [|exact Hf].
  apply (triple_conseq _ (frame h0 F) _ _ (fun _ => frame h0 F) _ (frame h0 F)).
  - apply (triple_stores_at h0 F r); assumption.
  - auto.
  - auto.
  - intros h. apply frame_nil.
Qed.

Lemma triple_new_last h0 F (m : M ref) :
  allocates m ->
  triple (frame h0 F) m (fun r => frame h0 [r]) (frame h0 []).
Proof.
  intros Hm.
  apply (triple_conseq _ (frame h0 F) _ _
           (fun r h => frame h0 (r :: F) h /\ r ∉ F) _ (frame h0 F)).
  - apply triple_allocates, Hm.
  - auto.
  - intros r h [Hfr _]. revert Hfr. apply frame_weaken.
    intros z Hz%list_elem_of_singleton. subst z. left.
  - intros h. apply frame_nil.
Qed.

Ltac frame_step :=
  first
    [ apply triple_new_last; solve [auto with frame]
    | apply triple_read; [solve [auto 10 with frame] | intros ?] ].

Lemma readonly_width_left x n :
  readonly (if 1 <? n
            then x1 <- getitem x 1 ;; x0 <- getitem x 0 ;; ret (scalar_sub x1 x0)
            else ret (I 1)).
Proof.
  destruct (1 <? n); [|apply readonly_ret].
  apply readonly_bind; [apply readonly_getitem|]. intros x1.
  apply readonly_bind; [apply readonly_getitem|]. intros x0.
  apply readonly_ret.
Qed.

Lemma readonly_width_right x n :
  readonly (if 1 <? n
            then xl <- getitem x (-1) ;; xp <- getitem x (-2) ;;
                 ret (scalar_sub xl xp)
            else ret (I 1)).
Proof.
  destruct (1 <? n); [|apply readonly_ret].
  apply readonly_bind; [apply readonly_getitem|]. intros x1.
  apply readonly_bind; [apply readonly_getitem|]. intros x0.
  apply readonly_ret.
Qed.

#[local] Hint Resolve readonly_width_left readonly_width_right
  allocates_alloc allocates_ndarray_copy allocates_numpy_append
  allocates_arr_binop allocates_arr_sub allocates_arr_truediv
  allocates_numpy_empty : frame.

Lemma triple_ret_edges h0 F (e : ref) :
  e ∈ F -> triple (frame h0 F) (ret e) (fun r => frame h0 [r]) (frame h0 []).
Proof.
  intros Hin. apply triple_ret. intros h. apply frame_weaken.
  intros z Hz%list_elem_of_singleton. subst z. exact Hin.
Qed.

(** The edges of a mode other than center: no recursive call. *)
Lemma triple_computeEdges_flat h0 (x : ref) m :
  m <> PyStr "center" ->
  triple (frame h0 []) (_computeEdges x m)
         (fun e => frame h0 [e]) (frame h0 []).
Proof.
  intros Hc. rewrite _computeEdges_equation_1.
  apply triple_new; [solve [auto with frame]|]. intros e0 _.
  apply (triple_bind _ _ _ (fun e => frame h0 [e])).
  { destruct (decide (m = PyStr "left")) as [_|_]; [|apply triple_ret_edges; left].
    do 3 frame_step. frame_step. }
  intros e1.
  destruct (decide (m = PyStr "center")) as [|_]; [contradiction|].
  apply (triple_bind _ _ _ (fun e => frame h0 [e])).
  { apply triple_ret_edges. left. }
  intros e2.
  apply (triple_bind _ _ _ (fun e => frame h0 [e])).
  { destruct (decide (m = PyStr "right")) as [_|_]; [|apply triple_ret_edges; left].
    do 3 frame_step. frame_step. }
  intros e3. apply triple_ret_edges. left.
Qed.

Lemma triple_computeEdges h0 (x : ref) m :
  triple (frame h0 []) (_computeEdges x m)
         (fun e => frame h0 [e]) (frame h0 []).
Proof.
  destruct (decide (m = PyStr "center")) as [->|Hc];
    [|apply triple_computeEdges_flat, Hc].
  rewrite _computeEdges_equation_1.
  apply triple_new; [solve [auto with frame]|]. intros e0 _.
  destruct (decide (PyStr "center" = PyStr "left")) as [|_]; [discriminate|].
  destruct (decide (PyStr "center" = PyStr "center")) as [_|]; [|congruence].
  destruct (decide (PyStr "center" = PyStr "right")) as [|_]; [discriminate|].
  apply (triple_bind _ _ _ (fun e => frame h0 [e])).
  { apply triple_ret_edges. left. }
  intros e1.
  apply (triple_bind _ _ _ (fun e => frame h0 [e])).
  { apply (triple_bind _ _ _ (fun e => frame h0 [e])).
    - apply (triple_conseq _ (frame h0 []) _ _
               (fun e => frame h0 [e]) _ (frame h0 [])).
      + apply (triple_computeEdges_flat h0 e1 (PyStr "right")). discriminate.
      + intros h. apply frame_nil.
      + auto.
      + auto.
    - intros e.
      apply triple_new; [solve [auto with frame]|]. intros t _.
      apply triple_new; [solve [auto with frame]|]. intros w _.
      frame_step.
      apply triple_new; [solve [auto with frame]|]. intros w' _.
      frame_step. }
  intros e2.
  apply (triple_bind _ _ _ (fun e => frame h0 [e])).
  { apply triple_ret_edges. left. }
  intros e3. apply triple_ret_edges. left.
Qed.

(** The frame of [_getHistogramValue]. *)
Lemma triple_getHistogramValue uninit h0 (x y : ref) m :
  triple (frame h0 []) (_getHistogramValue uninit x y m)
         (fun r h => frame h0 [r.1; r.2] h /\ r.1 <> r.2) (frame h0 []).
Proof.
  unfold _getHistogramValue.
  do 3 frame_step.
  apply (triple_bind _ _ _ (fun _ => frame h0 [])).
  { destruct (_ =? _).
    - apply triple_ret. auto.
    - apply (triple_conseq _ (frame h0 []) _ _
               (fun e => frame h0 [e]) _ (frame h0 [])).
      + apply triple_computeEdges.
      + auto.
      + intros e h. apply frame_nil.
      + auto. }
  intros edges.
  do 3 frame_step.
  apply triple_new; [solve [auto with frame]|]. intros resx _.
  frame_step.
  apply triple_new; [solve [auto with frame]|]. intros resy Hne.
  apply (triple_write _ _ resx); [apply stores_at_setitem | right; left |]. intros _.
  apply (triple_write _ _ resx); [apply stores_at_setitem | right; left |]. intros _.
  apply (triple_write _ _ resy); [apply stores_at_setitem | left |]. intros _.
  apply (triple_write _ _ resy); [apply stores_at_setitem | left |]. intros _.
  do 3 frame_step.
  apply triple_ret. intros h Hfr. cbn [fst snd]. split.
  - revert Hfr. apply frame_weaken. intros z Hz.
    rewrite !elem_of_cons in *. tauto.
  - intros ->. apply Hne. left.
Qed.

(** * Lemmas for the further properties *)

(** ** Staircases and integer bins *)

Lemma pairs_eq (l1 l2 : list scalar) (k : nat) :
  length l1 = (2 * k)%nat -> length l2 = (2 * k)%nat ->
  (forall i : nat, (i < k)%nat ->
     l1 !! (2 * i)%nat = l2 !! (2 * i)%nat /\
     l1 !! (2 * i + 1)%nat = l2 !! (2 * i + 1)%nat) ->
  l1 = l2.
Proof.
  intros H1 H2 Hp. apply list_eq. intros j.
  destruct (decide (j < 2 * k)%nat) as [Hj|Hj].
  - destruct (Nat.Even_or_Odd j) as [[i ->]|[i ->]].
    + apply (Hp i). lia.
    + apply (Hp i). lia.
  - rewrite !lookup_ge_None_2 by lia. reflexivity.
Qed.

Lemma wrap64_small z : - 2 ^ 63 <= z < 2 ^ 63 -> wrap64 z = z.
Proof.
  intros Hz. apply wrap64_in_range. unfold in_int64.
  apply andb_true_iff. split; [apply Z.leb_le | apply Z.ltb_lt]; lia.
Qed.

Lemma wf_int_array zs :
  Forall (fun z => - 2 ^ 61 < z < 2 ^ 61) zs -> wf_ndarray (int_array zs) = true.
Proof.
  intros Hb. unfold wf_ndarray, int_array. cbn [arr_dtype data].
  apply forallb_forall. intros s Hs. apply in_map_iff in Hs as (z & <- & Hz).
  rewrite Forall_forall in Hb. apply list_elem_of_In in Hz.
  specialize (Hb z Hz). cbn. unfold in_int64.
  apply andb_true_iff. split; [apply Z.leb_le | apply Z.ltb_lt]; lia.
Qed.

(** ** Slices stay in range *)

Lemma slice_adjust_up (len step : Z) v dflt :
  0 <= len -> 0 < step -> 0 <= dflt <= len ->
  0 <= slice_adjust len step v dflt <= len.
Proof.
  intros Hl Hs Hd. unfold slice_adjust. destruct v as [i|]; [|lia].
  repeat (match goal with |- context [?a <? ?b] => destruct (Z.ltb_spec a b) end
          || match goal with |- context [?a <=? ?b] => destruct (Z.leb_spec a b) end);
    lia.
Qed.

Lemma slice_adjust_down (len step : Z) v dflt :
  0 <= len -> step < 0 -> -1 <= dflt <= len - 1 ->
  -1 <= slice_adjust len step v dflt <= len - 1.
Proof.
  intros Hl Hs Hd. unfold slice_adjust. destruct v as [i|]; [|lia].
  repeat (match goal with |- context [?a <? ?b] => destruct (Z.ltb_spec a b) end
          || match goal with |- context [?a <=? ?b] => destruct (Z.leb_spec a b) end);
    lia.
Qed.

Lemma slice_indices_bound sl (n : nat) idx :
  slice_indices sl n = Ok idx ->
  Forall (fun i => (i < n)%nat) idx /\ (length idx <= n)%nat.
Proof.
  unfold slice_indices.
  set (step := default 1 (slice_step sl)).
  destruct (Z.eqb_spec step 0) as [|Hs0]; [discriminate|].
  destruct (Z.ltb_spec step 0) as [Hneg|Hpos].
  - set (start := slice_adjust _ _ (slice_start sl) _).
    set (stop := slice_adjust _ _ (slice_stop sl) _).
    assert (-1 <= start <= Z.of_nat n - 1) by (apply slice_adjust_down; lia).
    assert (-1 <= stop <= Z.of_nat n - 1) by (apply slice_adjust_down; lia).
    destruct (Z.ltb_spec stop start) as [Hlt|Hge];
      intros [= <-]; [|split; [constructor|cbn; lia]].
    set (q := (start - stop - 1) / - step).
    assert (0 <= q) by (apply Z.div_pos; lia).
    assert (- step * q <= start - stop - 1) by (apply Z.mul_div_le; lia).
    assert (q <= start - stop - 1).
    { apply Z.div_le_upper_bound; [lia|]. nia. }
    split.
    + apply Forall_forall. intros i Hi.
      apply list_elem_of_fmap in Hi as (k & -> & Hk).
      apply elem_of_seq in Hk. nia.
    + rewrite length_map, length_seq. lia.
  - set (start := slice_adjust _ _ (slice_start sl) _).
    set (stop := slice_adjust _ _ (slice_stop sl) _).
    assert (0 <= start <= Z.of_nat n) by (apply slice_adjust_up; lia).
    assert (0 <= stop <= Z.of_nat n) by (apply slice_adjust_up; lia).
    destruct (Z.ltb_spec start stop) as [Hlt|Hge];
      intros [= <-]; [|split; [constructor|cbn; lia]].
    set (q := (stop - start - 1) / step).
    assert (0 <= q) by (apply Z.div_pos; lia).
    assert (step * q <= stop - start - 1) by (apply Z.mul_div_le; lia).
    assert (q <= stop - start - 1).
    { apply Z.div_le_upper_bound; [lia|]. nia. }
    split.
    + apply Forall_forall. intros i Hi.
      apply list_elem_of_fmap in Hi as (k & -> & Hk).
      apply elem_of_seq in Hk. nia.
    + rewrite length_map, length_seq. lia.
Qed.

Lemma comprehension_ok {A B} (f : A -> result B) (P : A -> Prop) l :
  (forall a, P a -> exists b, f a = Ok b) -> Forall P l ->
  exists bs, comprehension f l = Ok bs /\ length bs = length l.
Proof.
  intros Hf. induction 1 as [|a l Ha _ (bs & Hbs & Hlen)]; cbn.
  - exists []. split; reflexivity.
  - destruct (Hf a Ha) as (b & ->). rewrite Hbs. exists (b :: bs).
    split; [reflexivity|]. cbn. now rewrite Hlen.
Qed.

Lemma getitem_index_in (i : nat) :
  (i < 5)%nat -> exists v, getitem_index (Z.of_nat i) = Ok v.
Proof.
  intros Hi. do 5 (destruct i as [|i]; [eexists; reflexivity|]). lia.
Qed.

(** ** The setters of [Curve] *)

Lemma py_str_int_not_style (z : Z) : py_str (PyInt z) ∉ line_styles.
Proof.
  unfold line_styles, py_str, NilZero.string_of_int, Z.to_int.
  rewrite !elem_of_cons, elem_of_nil.
  destruct z as [|p|p]; cbn; [| |];
    try destruct (Pos.to_uint p); cbn;
    intros H; repeat destruct H as [H|H]; try discriminate; exact H.
Qed.

Lemma value_str_of (o : pyobj) : value (str_of o) = PyStr (py_str o).
Proof. destruct o; reflexivity. Qed.

Lemma str_of_not_None (o : pyobj) : str_of o <> PyNone.
Proof. destruct o; discriminate. Qed.

Lemma py_in_histogram_types (o : pyobj) :
  py_in o [PyStr "left"; PyStr "right"; PyStr "center"; PyNone]
  = bool_decide (value o ∈ histogram_types).
Proof. rewrite py_in_decide. reflexivity. Qed.

Section CurveLemmas.

Context {World Color ColorSpec : Type}.
Context `{!Inherited World Color ColorSpec} `{!EqDecision Color}.

Local Abbreviation Curve := (Curve World Color).

Lemma setLineStyle_spec (style : pyobj) (c : Curve) :
  setLineStyle style c
  = if bool_decide (py_str style ∈ line_styles)
    then Ok (if bool_decide (PyStr (py_str style) = value (_linestyle c))
             then c
             else mkCurve (_updated (inherited c)) (_linewidth c)
                          (str_of style) (_histogram c)
                          (_highlightColor c) (_highlighted c))
    else Raise AssertionError.
Proof.
  unfold setLineStyle. rewrite py_in_decide, value_str_of.
  assert (bool_decide (PyStr (py_str style)
                         ∈ value <$> [PyStr ""; PyStr " "; PyStr "-";
                                      PyStr "--"; PyStr "-."; PyStr ":";
                                      PyNone])
          = bool_decide (py_str style ∈ line_styles)) as ->.
  { apply bool_decide_ext. unfold line_styles. cbn [fmap list_fmap value].
    rewrite !elem_of_cons, !elem_of_nil.
    split; intros Hx.
    - repeat destruct Hx as [Hx|Hx]; try discriminate; try tauto;
        injection Hx as ->; tauto.
    - repeat destruct Hx as [Hx|Hx]; try tauto; rewrite Hx; tauto. }
  destruct (decide (str_of style = PyNone)) as [E|_];
    [destruct (str_of_not_None style E)|].
  unfold py_eq. rewrite value_str_of.
  destruct (bool_decide (PyStr (py_str style) = value (_linestyle c)));
    reflexivity.
Qed.

Lemma setHistogramType_spec (histogram : pyobj) (c : Curve) :
  setHistogramType histogram c
  = if bool_decide (value histogram ∈ histogram_types)
    then Ok (if bool_decide (value histogram = value (_histogram c))
             then c
             else
               let w := _updated (inherited c) in
               let w := if isVisible w
                        then (if hasPlot w then _invalidateDataRange w else w)
                        else w in
               mkCurve w (_linewidth c) (_linestyle c) histogram
                       (_highlightColor c) (_highlighted c))
    else Raise AssertionError.
Proof.
  unfold setHistogramType. rewrite py_in_histogram_types. unfold py_eq.
  destruct (bool_decide (value histogram = value (_histogram c)));
    reflexivity.
Qed.

Lemma curve_invariant_perform k (c c' : Curve) :
  curve_invariant c -> perform k c = Ok c' -> curve_invariant c'.
Proof.
  intros [Hs Hh]. destruct k; cbn [perform].
  - rewrite setLineStyle_spec. case_bool_decide as Hin; [|discriminate].
    intros [= <-]. case_bool_decide; [split; assumption|].
    split; [|assumption]. exists (py_str style).
    split; [assumption | apply value_str_of].
  - intros [= <-]. unfold setLineWidth. destruct (negb _); split; assumption.
  - intros [= <-]. unfold setHighlighted. destruct (negb _); split; assumption.
  - unfold setHighlightedColor. destruct (Colors_rgba color); [|discriminate].
    intros [= <-]. destruct (decide _); split; assumption.
  - rewrite setHistogramType_spec. case_bool_decide as Hin; [|discriminate].
    intros [= <-]. case_bool_decide; split; assumption.
  - intros [= <-]. split; assumption.
Qed.

End CurveLemmas.

(** A mode that is none of the three literals, be it equal to one of them,
    passes the three [is] tests: the copy of [x] is returned. *)
Lemma run_computeEdges_other (h : heap) (x : ref) xa m :
  h !! x = Some xa -> m ∉ modes ->
  run (_computeEdges x m) h = (h ++ [xa], Ok (length h)).
Proof.
  intros Hx Hm. unfold modes in Hm.
  rewrite !not_elem_of_cons in Hm. destruct Hm as (Hl & Hr & Hc & _).
  rewrite _computeEdges_equation_1.
  destruct (decide (m = PyStr "left")) as [|_]; [contradiction|].
  destruct (decide (m = PyStr "center")) as [|_]; [contradiction|].
  destruct (decide (m = PyStr "right")) as [|_]; [contradiction|].
  rewrite (run_bind_ok _ _ _ _ _ (run_ndarray_copy _ _ _ Hx)).
  reflexivity.
Qed.

(** With a mode equal to one of the three that is not the literal, and as
    many positions as heights, the edges are the copy of [x]: one bin too
    few for the heights. *)
Lemma run_getHistogramValue_not_literal uninit (h : heap) (x y : ref)
    xa ya m :
  h !! x = Some xa -> h !! y = Some ya ->
  value m ∈ modes -> m ∉ modes ->
  length (data xa) = length (data ya) -> (1 <= length (data ya))%nat ->
  exists h',
    run (_getHistogramValue uninit x y m) h
    = (h', Raise (if decide (length (data ya) = 1%nat)
                  then AssertionError else ValueError)).
Proof.
  intros Hx Hy Hv Hm Hlen Hk.
  pose proof (run_computeEdges_other h x xa m Hx Hm) as Hrun.
  rewrite (run_getHistogramValue_computed _ _ _ _ _ _ xa ya _ Hx Hy
             ltac:(lia) Hv Hrun).
  assert ((h ++ [xa]) !! length h = Some xa) as He
    by (apply list_lookup_middle; reflexivity).
  destruct (decide (length (data ya) = 1%nat)) as [E|E].
  - exists (h ++ [xa]). apply (run_stairs_short _ _ _ _ xa); [exact He | lia].
  - destruct (run_stairs_mismatch uninit (h ++ [xa]) (length h) y xa ya
                (length (data xa) - 1)
                He (heap_lookup_old _ _ _ _ Hy)) as [h' Hst];
      [lia | lia | lia | exact E |].
    exists h'. exact Hst.
Qed.

(** * The claims *)

(** C1 (the code departs from the claim). The claim has [resy] hold [y[i]]
    at positions [2i] and [2i+1] on every valid input. [resy] is allocated
    with the element type of the edges, so with integer edges and
    fractional heights the stored values are the truncated ones: for
    x = [0, 1] (int64), y = [0.5, 1.5] and mode 'left' the edges are
    [-1, 0, 1] and the call returns resx = [-1, 0, 0, 1] and
    resy = [0, 0, 1, 1], not [0.5, 0.5, 1.5, 1.5]. *)
Theorem getHistogramValue_truncates_heights uninit :
  run (_getHistogramValue uninit 0%nat 1%nat (PyStr "left"))
      [int_array [0; 1]; float_array [0.5; 1.5]%float]
  = ([int_array [0; 1]; float_array [0.5; 1.5]%float;
      int_array [0; 1]; int_array [-1; 0; 1];
      int_array [-1; 0; 0; 1]; int_array [0; 0; 1; 1]],
     Ok (4%nat, 5%nat)).
Proof. vm_compute. reflexivity. Qed.

(** C2. When [len(x) == len(y) + 1] the call runs the stair-step expansion
    on [x] itself: no edges are computed (the store grows by the two
    results only, and [resx] is read from [x]), the outcome is the same for
    the three modes (for every str equal to one of them, the literal or
    another object), and for x = [0, 1, 2, 3], y = [1, 2, 3] it is
    resx = [0, 1, 1, 2, 2, 3], resy = [1, 1, 2, 2, 3, 3]. *)
Theorem getHistogramValue_edges_supplied uninit (h : heap) (x y : ref)
    xa ya m :
  h !! x = Some xa -> h !! y = Some ya ->
  length (data xa) = S (length (data ya)) -> value m ∈ modes ->
  run (_getHistogramValue uninit x y m) h = run (stairs uninit x y) h /\
  (forall m', value m' ∈ modes ->
     run (_getHistogramValue uninit x y m') h
     = run (_getHistogramValue uninit x y m) h) /\
  ((1 <= length (data ya))%nat ->
   exists rx ry,
     run (_getHistogramValue uninit x y m) h
     = (h ++ [rx; ry], Ok (length h, S (length h))) /\
     forall i : nat, (i < length (data ya))%nat ->
       data rx !! (2 * i)%nat = astype (arr_dtype xa) <$> data xa !! i /\
       data rx !! (2 * i + 1)%nat = astype (arr_dtype xa) <$> data xa !! S i) /\
  (forall mm, value mm ∈ modes ->
     run (_getHistogramValue uninit 0%nat 1%nat mm)
         [int_array [0; 1; 2; 3]; int_array [1; 2; 3]]
     = ([int_array [0; 1; 2; 3]; int_array [1; 2; 3];
         int_array [0; 1; 1; 2; 2; 3]; int_array [1; 1; 2; 2; 3; 3]],
        Ok (2%nat, 3%nat))).
Proof.
  intros Hx Hy Hlen Hm.
  pose proof (run_getHistogramValue_supplied uninit h x y xa ya) as Hs.
  split; [apply Hs; assumption|].
  split; [intros m' Hm'; rewrite !Hs by assumption; reflexivity|].
  split.
  - intros Hk.
    destruct (run_stairs uninit h x y xa ya _ Hx Hy Hlen Hk eq_refl)
      as (rx & ry & Hrun & _ & _ & _ & _ & Hpos).
    exists rx, ry. split; [rewrite Hs by assumption; exact Hrun|].
    intros i Hi. destruct (Hpos i Hi) as (H0 & H1 & _). auto.
  - intros mm Hmm.
    rewrite (run_getHistogramValue_supplied uninit
               [int_array [0; 1; 2; 3]; int_array [1; 2; 3]] 0%nat 1%nat
               (int_array [0; 1; 2; 3]) (int_array [1; 2; 3]) mm
               eq_refl eq_refl eq_refl Hmm).
    vm_compute. reflexivity.
Qed.

Lemma getHistogramValue_edges_supplied_witness :
  ([int_array [0; 1; 2; 3]; int_array [1; 2; 3]] !! 0%nat
   = Some (int_array [0; 1; 2; 3]) /\
   [int_array [0; 1; 2; 3]; int_array [1; 2; 3]] !! 1%nat
   = Some (int_array [1; 2; 3]) /\
   length (data (int_array [0; 1; 2; 3]))
   = S (length (data (int_array [1; 2; 3]))) /\
   value (PyStr "center") ∈ modes) /\
  run (_getHistogramValue (fun _ _ => I 0) 0%nat 1%nat (PyStr "center"))
      [int_array [0; 1; 2; 3]; int_array [1; 2; 3]]
  = run (stairs (fun _ _ => I 0) 0%nat 1%nat)
      [int_array [0; 1; 2; 3]; int_array [1; 2; 3]].
Proof.
  assert (value (PyStr "center") ∈ modes) as Hm
    by (unfold modes; do 2 right; left).
  split; [repeat split; [reflexivity .. | exact Hm]|].
  exact (proj1 (getHistogramValue_edges_supplied (fun _ _ => I 0)
                  [int_array [0; 1; 2; 3]; int_array [1; 2; 3]] 0%nat 1%nat
                  (int_array [0; 1; 2; 3]) (int_array [1; 2; 3])
                  (PyStr "center") eq_refl eq_refl eq_refl Hm)).
Defined.

(** C3 (amended). For x = [0, 1, 2], y = [5, 6] and mode 'right',
    [len(x) == len(y) + 1], so [x] is the edge sequence and no edge is
    computed: the call returns resx = [0, 1, 1, 2], resy = [5, 5, 6, 6]. *)
Theorem getHistogramValue_scenario2 uninit :
  run (_getHistogramValue uninit 0%nat 1%nat (PyStr "right"))
      [int_array [0; 1; 2]; int_array [5; 6]]
  = ([int_array [0; 1; 2]; int_array [5; 6];
      int_array [0; 1; 1; 2]; int_array [5; 5; 6; 6]],
     Ok (2%nat, 3%nat)).
Proof. vm_compute. reflexivity. Qed.

Lemma getHistogramValue_scenario2_counterexample :
  exists h' rx ry ax,
    run (_getHistogramValue (fun _ _ => I 0) 0%nat 1%nat (PyStr "right"))
        [int_array [0; 1; 2]; int_array [5; 6]] = (h', Ok (rx, ry)) /\
    h' !! rx = Some ax /\
    ax <> int_array [0; 1; 1; 2; 2; 3] /\
    int_array [0; 1; 2; 3] ∉ h'.
Proof.
  eexists _, _, _, _. split; [vm_compute; reflexivity|].
  split; [reflexivity|]. split; [discriminate|].
  rewrite !not_elem_of_cons. repeat split; try discriminate.
  apply not_elem_of_nil.
Qed.

(** C4 (the code departs from the claim). For [x] of length [n >= 1] and
    the literal ['left'], [_computeEdges] returns a new array: [x] with
    [x[0] - width] put in front, where [width] is [x[1] - x[0]] when [x]
    has a second element and 1 otherwise; it has [n + 1] elements. The
    function tests [histogramType is 'left']: given a str equal to
    ['left'] that is another object, it returns a copy of [x], with [n]
    elements and no edge in front. *)
Theorem computeEdges_left (h : heap) (x : ref) xa x0 l :
  h !! x = Some xa -> wf_ndarray xa = true -> data xa = x0 :: l ->
  let n := length (data xa) in
  let width := match head l with
               | Some x1 => scalar_sub x1 x0
               | None => I 1
               end in
  let edges := mk_ndarray (arr_dtype xa) (scalar_sub x0 width :: data xa) in
  (run (_computeEdges x (PyStr "left")) h
   = (h ++ [xa; edges], Ok (S (length h))) /\
   (h ++ [xa; edges]) !! S (length h) = Some edges /\
   length (data edges) = S n) /\
  (value (PyStrNew "left") = PyStr "left" /\
   run (_computeEdges x (PyStrNew "left")) h = (h ++ [xa], Ok (length h)) /\
   (h ++ [xa]) !! length h = Some xa).
Proof.
  intros Hx Hwf Hd n width edges. split; [split; [|split]|split; [|split]].
  - apply run_computeEdges_left; assumption.
  - apply heap_lookup_1.
  - reflexivity.
  - reflexivity.
  - apply run_computeEdges_other; [exact Hx | apply new_not_modes].
  - apply list_lookup_middle. reflexivity.
Qed.

Lemma computeEdges_left_witness :
  ([int_array [0; 2; 4; 6]] !! 0%nat = Some (int_array [0; 2; 4; 6]) /\
   wf_ndarray (int_array [0; 2; 4; 6]) = true /\
   data (int_array [0; 2; 4; 6]) = I 0 :: [I 2; I 4; I 6]) /\
  run (_computeEdges 0%nat (PyStr "left")) [int_array [0; 2; 4; 6]]
  = ([int_array [0; 2; 4; 6]; int_array [0; 2; 4; 6];
      int_array [-2; 0; 2; 4; 6]], Ok 2%nat) /\
  run (_computeEdges 0%nat (PyStrNew "left")) [int_array [0; 2; 4; 6]]
  = ([int_array [0; 2; 4; 6]; int_array [0; 2; 4; 6]], Ok 1%nat).
Proof.
  split; [repeat split; reflexivity|].
  destruct (computeEdges_left [int_array [0; 2; 4; 6]] 0%nat
              (int_array [0; 2; 4; 6]) (I 0) [I 2; I 4; I 6]
              eq_refl eq_refl eq_refl) as [[Hlit _] [_ [Hnew _]]].
  split; [exact Hlit | exact Hnew].
Defined.

(** C5 (the code departs from the claim). For [x] of length [n >= 1] and
    the literal ['right'], [_computeEdges] returns a new array: [x]
    followed by [x[n-1] + width], where [width] is [x[n-1] - x[n-2]] when
    [n > 1] and 1 when [n = 1]; it has [n + 1] elements. The function
    tests [histogramType is 'right']: given a str equal to ['right'] that
    is another object, it returns a copy of [x], with [n] elements and no
    edge behind. *)
Theorem computeEdges_right (h : heap) (x : ref) xa xl l :
  h !! x = Some xa -> wf_ndarray xa = true -> data xa = l ++ [xl] ->
  let n := length (data xa) in
  let width := match last l with
               | Some xp => scalar_sub xl xp
               | None => I 1
               end in
  let edges := mk_ndarray (arr_dtype xa) (data xa ++ [scalar_add xl width]) in
  (run (_computeEdges x (PyStr "right")) h
   = (h ++ [xa; edges], Ok (S (length h))) /\
   (h ++ [xa; edges]) !! S (length h) = Some edges /\
   length (data edges) = S n) /\
  (value (PyStrNew "right") = PyStr "right" /\
   run (_computeEdges x (PyStrNew "right")) h = (h ++ [xa], Ok (length h)) /\
   (h ++ [xa]) !! length h = Some xa).
Proof.
  intros Hx Hwf Hd n width edges. split; [split; [|split]|split; [|split]].
  - apply run_computeEdges_right; assumption.
  - apply heap_lookup_1.
  - subst edges n. cbn [data]. rewrite length_app. cbn. lia.
  - reflexivity.
  - apply run_computeEdges_other; [exact Hx | apply new_not_modes].
  - apply list_lookup_middle. reflexivity.
Qed.

Lemma computeEdges_right_witness :
  ([float_array [0; 0.5; 2]%float] !! 0%nat
   = Some (float_array [0; 0.5; 2]%float) /\
   wf_ndarray (float_array [0; 0.5; 2]%float) = true /\
   data (float_array [0; 0.5; 2]%float) = [F 0; F 0.5%float] ++ [F 2]) /\
  run (_computeEdges 0%nat (PyStr "right")) [float_array [0; 0.5; 2]%float]
  = ([float_array [0; 0.5; 2]%float; float_array [0; 0.5; 2]%float;
      float_array [0; 0.5; 2; 3.5]%float], Ok 2%nat) /\
  run (_computeEdges 0%nat (PyStrNew "right")) [float_array [0; 0.5; 2]%float]
  = ([float_array [0; 0.5; 2]%float; float_array [0; 0.5; 2]%float],
     Ok 1%nat).
Proof.
  split; [repeat split; reflexivity|].
  destruct (computeEdges_right [float_array [0; 0.5; 2]%float] 0%nat
              (float_array [0; 0.5; 2]%float) (F 2) [F 0; F 0.5%float]
              eq_refl eq_refl eq_refl) as [[Hlit _] [_ [Hnew _]]].
  split; [exact Hlit | exact Hnew].
Defined.

(** C6 (the code departs from the claim). For [x] of length [n >= 1] and
    the literal ['center'], [_computeEdges] returns [r - w] element by
    element, a float64 array of [n + 1] elements, where [r] is what
    [_computeEdges(x, 'right')] returns and [w[i]] is half the gap
    [r[i+1] - r[i]] for [i < n] (the difference taken in the element type
    of [x], the division by 2 in float64), the last half-gap being
    repeated ([w[n] = w[n-1]]). For x = [0, 1, 3] this is
    [-0.5, 0, 2, 4]. The function tests [histogramType is 'center']:
    given a str equal to ['center'] that is another object, it returns a
    copy of [x]. *)
Theorem computeEdges_center (h : heap) (x : ref) xa xl l :
  h !! x = Some xa -> wf_ndarray xa = true -> data xa = l ++ [xl] ->
  let n := length (data xa) in
  (exists hr er r hc ec (w : list float) res,
     run (_computeEdges x (PyStr "right")) h = (hr, Ok er) /\
     hr !! er = Some r /\
     run (_computeEdges x (PyStr "center")) h = (hc, Ok ec) /\
     hc !! ec = Some res /\
     arr_dtype res = float64 /\
     length (data r) = S n /\ length w = S n /\ length (data res) = S n /\
     (forall (i : nat) ri rk, (i < n)%nat ->
        data r !! i = Some ri -> data r !! S i = Some rk ->
        w !! i = Some (match ri, rk with
                       | I a, I b => Z2float (wrap64 (b - a)) / 2
                       | _, _ => (to_float rk - to_float ri) / 2
                       end)%float) /\
     w !! n = w !! (n - 1)%nat /\
     (forall (i : nat) ri wi,
        data r !! i = Some ri -> w !! i = Some wi ->
        data res !! i = Some (F (to_float ri - wi)%float))) /\
  (value (PyStrNew "center") = PyStr "center" /\
   run (_computeEdges x (PyStrNew "center")) h = (h ++ [xa], Ok (length h)) /\
   (h ++ [xa]) !! length h = Some xa).
Proof.
  intros Hx Hwf Hd n.
  split.
  2:{ split; [reflexivity|]. split.
      - apply run_computeEdges_other; [exact Hx | apply new_not_modes].
      - apply list_lookup_middle. reflexivity. }
  destruct (run_computeEdges_center h x xa xl l Hx Hwf Hd)
    as (t & w0 & w & res & Hrun & Hr & Hw & Hres & Hgap & Hdup & Hsub).
  pose proof (run_computeEdges_right h x xa xl l Hx Hwf Hd) as Hright.
  set (r := data xa ++ _) in *. fold n in Hr, Hw, Hres, Hgap, Hdup.
  assert (1 <= n)%nat as Hn1 by (subst n; rewrite Hd, length_app; cbn; lia).
  assert (forall j : nat, (j < n)%nat ->
            exists rj rk, r !! j = Some rj /\ r !! S j = Some rk /\
              w !! j = Some (scalar_truediv (scalar_sub rk rj) (F 2))) as Hlow.
  { intros j Hj.
    destruct (lookup_lt_is_Some_2 r j ltac:(lia)) as [rj Hrj].
    destruct (lookup_lt_is_Some_2 r (S j) ltac:(lia)) as [rk Hrk].
    exists rj, rk. split; [exact Hrj|]. split; [exact Hrk|].
    apply Hgap; assumption. }
  assert (forall (i : nat) s, w !! i = Some s -> s = F (to_float s)) as HwF.
  { intros i s Hi. apply lookup_lt_Some in Hi as Hlt.
    assert (exists j : nat, (j < n)%nat /\ w !! j = Some s) as (j & Hj & Hjs).
    { destruct (decide (i = n)) as [->|Hin].
      - exists (n - 1)%nat. split; [lia|]. rewrite <- Hdup. exact Hi.
      - exists i. split; [lia | exact Hi]. }
    destruct (Hlow j Hj) as (rj & rk & _ & _ & Hwj).
    rewrite Hwj in Hjs. injection Hjs as <-. reflexivity. }
  eexists _, _, _, _, _, (map to_float w), (mk_ndarray float64 res).
  split; [exact Hright|].
  split; [apply heap_lookup_1|].
  split; [exact Hrun|].
  split; [rewrite heap_lookup_new; reflexivity|].
  split; [reflexivity|].
  cbn [data]. split; [exact Hr|]. split; [rewrite length_map; exact Hw|].
  split; [exact Hres|].
  change (map to_float w) with (to_float <$> w).
  split; [|split].
  - intros i ri rk Hi Hri Hrk. rewrite list_lookup_fmap.
    rewrite (Hgap i ri rk Hi Hri Hrk). cbn [fmap option_fmap option_map].
    f_equal. destruct ri, rk; reflexivity.
  - rewrite !list_lookup_fmap, Hdup. reflexivity.
  - intros i ri wi Hri Hwi. rewrite list_lookup_fmap in Hwi.
    destruct (w !! i) as [s|] eqn:Hs; [|discriminate].
    injection Hwi as <-. rewrite (Hsub i ri s Hri Hs).
    rewrite (HwF i s Hs) at 1. destruct ri; reflexivity.
Qed.

Lemma computeEdges_center_witness :
  ([int_array [0; 1; 3]] !! 0%nat = Some (int_array [0; 1; 3]) /\
   wf_ndarray (int_array [0; 1; 3]) = true /\
   data (int_array [0; 1; 3]) = [I 0; I 1] ++ [I 3]) /\
  (exists hc ec,
     run (_computeEdges 0%nat (PyStr "center")) [int_array [0; 1; 3]]
     = (hc, Ok ec) /\
     hc !! ec = Some (float_array [-0.5; 0; 2; 4]%float)) /\
  run (_computeEdges 0%nat (PyStrNew "center")) [int_array [0; 1; 3]]
  = ([int_array [0; 1; 3]; int_array [0; 1; 3]], Ok 1%nat).
Proof.
  split; [repeat split; reflexivity|].
  destruct (computeEdges_center [int_array [0; 1; 3]] 0%nat
              (int_array [0; 1; 3]) (I 3) [I 0; I 1] eq_refl eq_refl eq_refl)
    as [(hr & er & r & hc & ec & w & res & _ & _ & Hrun & Hres & _)
        [_ [Hnew _]]].
  split; [|exact Hnew].
  exists hc, ec. split; [exact Hrun|].
  vm_compute in Hrun. injection Hrun as <- <-.
  vm_compute in Hres. injection Hres as <-. reflexivity.
Defined.

(** C7. A mode that is equal to none of 'left', 'center', 'right' and is
    not [None] fails the first assertion: the call raises
    [AssertionError], returns nothing and leaves the store as it was (no
    buffer has been allocated). *)
Theorem getHistogramValue_invalid_mode uninit (h : heap) (x y : ref)
    (m : pyobj) :
  value m <> PyStr "left" -> value m <> PyStr "center" ->
  value m <> PyStr "right" -> m <> PyNone ->
  run (_getHistogramValue uninit x y m) h = (h, Raise AssertionError).
Proof.
  intros Hl Hc Hr _. rewrite getHistogramValue_unfold.
  apply run_bind_raise, run_py_assert_false, bool_decide_eq_false_2.
  unfold modes. rewrite !elem_of_cons, elem_of_nil. tauto.
Qed.

Lemma getHistogramValue_invalid_mode_witness :
  (value (PyStr "top") <> PyStr "left" /\
   value (PyStr "top") <> PyStr "center" /\
   value (PyStr "top") <> PyStr "right" /\ PyStr "top" <> PyNone) /\
  run (_getHistogramValue (fun _ _ => I 0) 0%nat 1%nat (PyStr "top"))
      [int_array [0; 1; 2]; int_array [5; 6; 7]]
  = ([int_array [0; 1; 2]; int_array [5; 6; 7]], Raise AssertionError).
Proof.
  split; [repeat split; discriminate|].
  apply getHistogramValue_invalid_mode; discriminate.
Defined.

(** C8 (amended). The call raises [AssertionError], [IndexError] or
    [ValueError] and returns no geometry when the edge sequence would have
    fewer than 2 elements ([x] empty, or [x] of length 1 supplied as edges
    for an empty [y]), and on every mismatch of lengths other than
    [len(x) == len(y) + 1] in which [y] has neither one element per bin
    nor exactly one element; this for every mode, valid or not, literal
    or not. *)
Theorem getHistogramValue_degenerate uninit (h : heap) (x y : ref) xa ya m :
  h !! x = Some xa -> h !! y = Some ya -> wf_ndarray xa = true ->
  data xa = [] \/
  (length (data xa) = 1%nat /\ length (data ya) = 0%nat) \/
  (length (data xa) <> S (length (data ya)) /\
   length (data ya) <> length (data xa) /\
   length (data ya) <> 1%nat) ->
  exists h' err,
    run (_getHistogramValue uninit x y m) h = (h', Raise err) /\
    (err = AssertionError \/ err = IndexError \/ err = ValueError).
Proof.
  intros Hx Hy Hwf Hcase.
  destruct (decide (value m ∈ modes)) as [Hv|Hv].
  2:{ exists h, AssertionError. split; [|auto].
      rewrite getHistogramValue_unfold.
      apply run_bind_raise, run_py_assert_false, bool_decide_eq_false_2, Hv. }
  destruct (decide (length (data xa) = S (length (data ya)))) as [Hsup|Hsup].
  { (* the edges are [x] *)
    destruct Hcase as [Hd | [[Hlx Hly] | (Hne1 & _)]];
      [rewrite Hd in Hsup; discriminate | | contradiction].
    exists h, AssertionError. split; [|auto].
    rewrite (run_getHistogramValue_supplied _ _ _ _ xa ya) by auto.
    apply (run_stairs_short _ _ _ _ xa); [exact Hx | lia]. }
  destruct (decide (m ∈ modes)) as [Hm|Hm].
  - (* the edges are computed *)
    assert (data xa = [] ->
            exists h' err,
              run (_getHistogramValue uninit x y m) h = (h', Raise err) /\
              (err = AssertionError \/ err = IndexError \/ err = ValueError))
      as Hempty.
    { intros Hd.
      destruct (run_computeEdges_empty h x xa m Hx Hd Hm) as [h' Hrun].
      exists h', IndexError. split; [|auto].
      apply (run_getHistogramValue_computed_raise _ _ _ _ _ xa ya); auto. }
    destruct Hcase as [Hd | [[Hlx Hly] | (Hne1 & Hne2 & Hne3)]].
    + apply Hempty, Hd.
    + lia.
    + destruct (data xa) as [|x0 l] eqn:Hd; [apply Hempty; reflexivity|].
      assert (data xa <> []) as Hnn by (rewrite Hd; discriminate).
      destruct (run_computeEdges_nonempty h x xa m Hx Hwf Hnn Hm)
        as (t & e & ea & Hrun & He & Hle & _).
      rewrite Hd in Hle.
      destruct (run_stairs_mismatch uninit (h ++ t) e y ea ya
                  (length (x0 :: l))
                  He (heap_lookup_old _ _ _ _ Hy) Hle) as [h' Hst];
        [cbn; lia | auto | auto |].
      exists h', ValueError. split; [|auto].
      rewrite (run_getHistogramValue_computed _ _ _ _ _ _ xa ya _ Hx Hy
                 ltac:(rewrite Hd; exact Hsup) Hv Hrun).
      exact Hst.
  - (* no [is] test holds: the edges are a copy of [x] *)
    pose proof (run_computeEdges_other h x xa m Hx Hm) as Hrun.
    rewrite (run_getHistogramValue_computed _ _ _ _ _ _ xa ya _ Hx Hy
               Hsup Hv Hrun).
    assert ((h ++ [xa]) !! length h = Some xa) as He
      by (apply list_lookup_middle; reflexivity).
    destruct (decide (length (data xa) <= 1)%nat) as [Hshort|Hlong].
    + exists (h ++ [xa]), AssertionError. split; [|auto].
      apply (run_stairs_short _ _ _ _ xa); assumption.
    + destruct Hcase as [Hd | [[Hlx Hly] | (Hne1 & Hne2 & Hne3)]];
        [rewrite Hd in Hlong; cbn in Hlong; lia | lia |].
      destruct (run_stairs_mismatch uninit (h ++ [xa]) (length h) y xa ya
                  (length (data xa) - 1)
                  He (heap_lookup_old _ _ _ _ Hy)) as [h' Hst];
        [lia | lia | lia | exact Hne3 |].
      exists h', ValueError. split; [exact Hst | auto].
Qed.

Lemma getHistogramValue_degenerate_witness :
  ([int_array [0; 1; 2]; int_array [5; 6; 7; 8; 9]] !! 0%nat
   = Some (int_array [0; 1; 2]) /\
   [int_array [0; 1; 2]; int_array [5; 6; 7; 8; 9]] !! 1%nat
   = Some (int_array [5; 6; 7; 8; 9]) /\
   wf_ndarray (int_array [0; 1; 2]) = true /\
   (data (int_array [0; 1; 2]) = [] \/
    (length (data (int_array [0; 1; 2])) = 1%nat /\
     length (data (int_array [5; 6; 7; 8; 9])) = 0%nat) \/
    (length (data (int_array [0; 1; 2]))
     <> S (length (data (int_array [5; 6; 7; 8; 9]))) /\
     length (data (int_array [5; 6; 7; 8; 9]))
     <> length (data (int_array [0; 1; 2])) /\
     length (data (int_array [5; 6; 7; 8; 9])) <> 1%nat))) /\
  exists h' err,
    run (_getHistogramValue (fun _ _ => I 0) 0%nat 1%nat (PyStr "right"))
        [int_array [0; 1; 2]; int_array [5; 6; 7; 8; 9]]
    = (h', Raise err) /\
    (err = AssertionError \/ err = IndexError \/ err = ValueError).
Proof.
  assert (data (int_array [0; 1; 2]) = [] \/
    (length (data (int_array [0; 1; 2])) = 1%nat /\
     length (data (int_array [5; 6; 7; 8; 9])) = 0%nat) \/
    (length (data (int_array [0; 1; 2]))
     <> S (length (data (int_array [5; 6; 7; 8; 9]))) /\
     length (data (int_array [5; 6; 7; 8; 9]))
     <> length (data (int_array [0; 1; 2])) /\
     length (data (int_array [5; 6; 7; 8; 9])) <> 1%nat)) as Hcase.
  { right. right. repeat split; discriminate. }
  split; [repeat split; [reflexivity .. | exact Hcase]|].
  exact (getHistogramValue_degenerate (fun _ _ => I 0)
           [int_array [0; 1; 2]; int_array [5; 6; 7; 8; 9]] 0%nat 1%nat
           (int_array [0; 1; 2]) (int_array [5; 6; 7; 8; 9]) (PyStr "right")
           eq_refl eq_refl eq_refl Hcase).
Defined.

Lemma getHistogramValue_degenerate_counterexample :
  (length (data (int_array [0; 1; 2])) <> S (length (data (int_array [5]))) /\
   length (data (int_array [5])) <> length (data (int_array [0; 1; 2]))) /\
  run (_getHistogramValue (fun _ _ => I 0) 0%nat 1%nat (PyStr "right"))
      [int_array [0; 1; 2]; int_array [5]]
  = ([int_array [0; 1; 2]; int_array [5]; int_array [0; 1; 2];
      int_array [0; 1; 2; 3]; int_array [0; 1; 1; 2; 2; 3];
      int_array [5; 5; 5; 5; 5; 5]],
     Ok (4%nat, 5%nat)).
Proof.
  split; [split; discriminate|]. vm_compute. reflexivity.
Qed.

(** C9. Neither function changes an array that was in the store before the
    call: whatever the outcome, every reference of the initial store (so [x]
    and [y]) still names the same contents afterwards. What they return are
    references allocated during the call, hence different from every input,
    and the two results of [_getHistogramValue] are different arrays. *)
Theorem calls_keep_inputs uninit (h : heap) (x y : ref) (m : pyobj) :
  let edges_run := run (_computeEdges x m) h in
  let stairs_run := run (_getHistogramValue uninit x y m) h in
  (forall (r : ref) a, h !! r = Some a -> edges_run.1 !! r = Some a) /\
  (forall e, edges_run.2 = Ok e ->
     (length h <= e < length edges_run.1)%nat) /\
  (forall (r : ref) a, h !! r = Some a -> stairs_run.1 !! r = Some a) /\
  (forall rx ry, stairs_run.2 = Ok (rx, ry) ->
     (length h <= rx < length stairs_run.1)%nat /\
     (length h <= ry < length stairs_run.1)%nat /\ rx <> ry).
Proof.
  intros edges_run stairs_run.
  pose proof (triple_computeEdges h x m h (frame_refl h)) as He.
  pose proof (triple_getHistogramValue uninit h x y m h (frame_refl h)) as Hs.
  fold edges_run in He. fold stairs_run in Hs.
  destruct edges_run as [he re], stairs_run as [hs rs]. cbn [fst snd].
  assert (forall h' : heap, h `prefix_of` h' ->
            forall (r : ref) a, h !! r = Some a -> h' !! r = Some a) as Hold.
  { intros h' [t ->] r a Hr. apply heap_lookup_old, Hr. }
  split; [|split; [|split]].
  - apply Hold. destruct re; apply He.
  - intros e ->. destruct He as [_ HF]. apply Forall_cons_1 in HF. apply HF.
  - apply Hold. destruct rs; apply Hs.
  - intros rx ry ->. destruct Hs as [[_ HF] Hne]. cbn [fst snd] in *.
    apply Forall_cons_1 in HF as [Hx HF]. apply Forall_cons_1 in HF as [Hy _].
    auto.
Qed.

(** C10 (amended). Both results are allocated with the element type of the
    edge array and every [y[i]] is converted to it on the way into [resy].
    For [x] of element type int64 or float64, the edge array has the
    element type of [x], except when the edges are computed for the
    literal ['center'], where it is float64. So fractional heights are
    truncated exactly when the edge array is int64 ([x] is int64 and is
    supplied as edges, or the edges are computed for ['left'] or
    ['right']); in center mode with [len(x) == len(y)] they are stored
    unchanged. The mode is equal to one of the three, and is the literal
    when the edges are computed. *)
Theorem getHistogramValue_result_dtype uninit (h : heap) (x y : ref)
    xa ya m :
  h !! x = Some xa -> h !! y = Some ya -> wf_ndarray xa = true ->
  value m ∈ modes -> (1 <= length (data ya))%nat ->
  length (data xa) = S (length (data ya)) \/
  (length (data xa) = length (data ya) /\ m ∈ modes) ->
  let d := if decide (length (data xa) = length (data ya) /\
                      m = PyStr "center")
           then float64 else arr_dtype xa in
  exists h' rx ry ax ay,
    run (_getHistogramValue uninit x y m) h = (h', Ok (rx, ry)) /\
    h' !! rx = Some ax /\ h' !! ry = Some ay /\
    arr_dtype ax = d /\ arr_dtype ay = d /\
    (forall (i : nat) yi, data ya !! i = Some yi ->
       data ay !! (2 * i)%nat = Some (astype d yi) /\
       data ay !! (2 * i + 1)%nat = Some (astype d yi)) /\
    (d = int64 -> forall (i : nat) f, data ya !! i = Some (F f) ->
       data ay !! (2 * i)%nat = Some (I (float2int64 f)) /\
       data ay !! (2 * i + 1)%nat = Some (I (float2int64 f))) /\
    (d = float64 -> forall (i : nat) f, data ya !! i = Some (F f) ->
       data ay !! (2 * i)%nat = Some (F f) /\
       data ay !! (2 * i + 1)%nat = Some (F f)).
Proof.
  intros Hx Hy Hwf Hm Hk Hlen d.
  destruct (run_getHistogramValue_returns uninit h x y xa ya m
              Hx Hy Hwf Hm Hk Hlen)
    as (t & ea & rx & ry & Hrun & _ & _ & Hdt & _ & Hdx & Hdy & _ & _ & Hpos).
  fold d in Hdt. rewrite Hdt in Hdx, Hdy, Hpos.
  assert (forall (i : nat) yi, data ya !! i = Some yi ->
            data ry !! (2 * i)%nat = Some (astype d yi) /\
            data ry !! (2 * i + 1)%nat = Some (astype d yi)) as Hy'.
  { intros i yi Hi. apply lookup_lt_Some in Hi as Hlt.
    destruct (Hpos i Hlt) as (_ & _ & -> & ->). rewrite Hi. auto. }
  exists ((h ++ t) ++ [rx; ry]), (length (h ++ t)), (S (length (h ++ t))), rx, ry.
  split; [exact Hrun|].
  split; [apply heap_lookup_0|].
  split; [apply heap_lookup_1|].
  split; [exact Hdx|]. split; [exact Hdy|]. split; [exact Hy'|].
  split; intros Hd i f Hi; destruct (Hy' i _ Hi) as [-> ->];
    rewrite Hd; auto.
Qed.

Lemma getHistogramValue_result_dtype_witness :
  ([int_array [0; 1]; float_array [0.5; 1.5]%float] !! 0%nat
   = Some (int_array [0; 1]) /\
   [int_array [0; 1]; float_array [0.5; 1.5]%float] !! 1%nat
   = Some (float_array [0.5; 1.5]%float) /\
   wf_ndarray (int_array [0; 1]) = true /\
   value (PyStr "left") ∈ modes /\
   (1 <= length (data (float_array [0.5; 1.5]%float)))%nat /\
   (length (data (int_array [0; 1]))
    = S (length (data (float_array [0.5; 1.5]%float))) \/
    (length (data (int_array [0; 1]))
     = length (data (float_array [0.5; 1.5]%float)) /\
     PyStr "left" ∈ modes))) /\
  exists h' rx ry ax ay,
    run (_getHistogramValue (fun _ _ => I 0) 0%nat 1%nat (PyStr "left"))
        [int_array [0; 1]; float_array [0.5; 1.5]%float]
    = (h', Ok (rx, ry)) /\
    h' !! rx = Some ax /\ h' !! ry = Some ay /\
    arr_dtype ax = int64 /\ arr_dtype ay = int64 /\
    data ay = [I 0; I 0; I 1; I 1].
Proof.
  assert (PyStr "left" ∈ modes) as Hm by (unfold modes; left).
  assert (value (PyStr "left") ∈ modes) as Hv by exact Hm.
  assert (1 <= length (data (float_array [0.5; 1.5]%float)))%nat as Hk
    by (cbn; lia).
  assert (length (data (int_array [0; 1]))
          = S (length (data (float_array [0.5; 1.5]%float))) \/
          (length (data (int_array [0; 1]))
           = length (data (float_array [0.5; 1.5]%float)) /\
           PyStr "left" ∈ modes)) as Hlen
    by (right; split; [reflexivity | exact Hm]).
  split.
  { split; [reflexivity|]. split; [reflexivity|]. split; [reflexivity|].
    split; [exact Hv|]. split; [exact Hk | exact Hlen]. }
  destruct (getHistogramValue_result_dtype (fun _ _ => I 0)
              [int_array [0; 1]; float_array [0.5; 1.5]%float] 0%nat 1%nat
              (int_array [0; 1]) (float_array [0.5; 1.5]%float) (PyStr "left")
              eq_refl eq_refl eq_refl Hv Hk Hlen)
    as (h' & rx & ry & ax & ay & Hrun & Hax & Hay & Hdx & Hdy & _).
  exists h', rx, ry, ax, ay.
  repeat (split; [assumption|]).
  vm_compute in Hrun. injection Hrun as <- <- <-.
  vm_compute in Hay. injection Hay as <-. reflexivity.
Defined.

Lemma getHistogramValue_result_dtype_counterexample :
  arr_dtype (int_array [0; 1]) = int64 /\
  exists h' rx ry ay,
    run (_getHistogramValue (fun _ _ => I 0) 0%nat 1%nat (PyStr "center"))
        [int_array [0; 1]; float_array [0.5; 1.5]%float]
    = (h', Ok (rx, ry)) /\
    h' !! ry = Some ay /\
    ay = float_array [0.5; 0.5; 1.5; 1.5]%float /\
    ay <> int_array [0; 0; 1; 1].
Proof.
  split; [reflexivity|].
  eexists _, _, _, _. split; [vm_compute; reflexivity|].
  split; [reflexivity|]. split; [reflexivity | discriminate].
Qed.

(** * Further properties of [curve.py] *)

(** ** [_computeEdges] *)

(** X1. With a histogram type that is none of the literals ['left'],
    ['center'] and ['right'] (another value, or a str equal to one of them
    that is another object), [_computeEdges] returns a fresh copy of [x]
    as it is: no exception, no edge added. *)
Theorem computeEdges_unknown_mode (h : heap) (x : ref) xa m :
  h !! x = Some xa -> m ∉ modes ->
  run (_computeEdges x m) h = (h ++ [xa], Ok (length h)).
Proof. apply run_computeEdges_other. Qed.

Lemma computeEdges_unknown_mode_witness :
  ([int_array [4; 5]] !! 0%nat = Some (int_array [4; 5]) /\
   PyStr "middle" ∉ modes) /\
  run (_computeEdges 0%nat (PyStr "middle")) [int_array [4; 5]]
  = ([int_array [4; 5]; int_array [4; 5]], Ok 1%nat).
Proof.
  assert (PyStr "middle" ∉ modes) as Hm.
  { unfold modes. rewrite !not_elem_of_cons.
    repeat split; try discriminate. apply not_elem_of_nil. }
  split; [split; [reflexivity | exact Hm]|].
  exact (computeEdges_unknown_mode [int_array [4; 5]] 0%nat
           (int_array [4; 5]) (PyStr "middle") eq_refl Hm).
Defined.

(** X2. On an empty [x], [_computeEdges] raises [IndexError] for each of
    the three histogram types given as the literal, after [x] was copied
    (twice for ['center'], which calls itself on the copy with
    ['right']). *)
Theorem computeEdges_empty_input (h : heap) (x : ref) xa m :
  h !! x = Some xa -> data xa = [] -> m ∈ modes ->
  run (_computeEdges x m) h
  = (h ++ (if decide (m = PyStr "center") then [xa; xa] else [xa]),
     Raise IndexError).
Proof.
  intros Hx Hd Hm. unfold modes in Hm.
  rewrite !elem_of_cons, elem_of_nil in Hm.
  destruct Hm as [-> | [-> | [-> | []]]].
  - apply (run_computeEdges_empty_left h x xa); assumption.
  - apply (run_computeEdges_empty_right h x xa); assumption.
  - apply (run_computeEdges_empty_center h x xa); assumption.
Qed.

Lemma computeEdges_empty_input_witness :
  ([float_array []] !! 0%nat = Some (float_array []) /\
   data (float_array []) = [] /\ PyStr "center" ∈ modes) /\
  run (_computeEdges 0%nat (PyStr "center")) [float_array []]
  = ([float_array []; float_array []; float_array []], Raise IndexError).
Proof.
  assert (PyStr "center" ∈ modes) as Hm by (unfold modes; do 2 right; left).
  split; [repeat split; [reflexivity .. | exact Hm]|].
  exact (computeEdges_empty_input [float_array []] 0%nat (float_array [])
           (PyStr "center") eq_refl eq_refl Hm).
Defined.

(** X3. On a well-formed [x] that is not empty, [_computeEdges] returns,
    for each of the three histogram types given as the literal, a
    well-formed array with one element more than [x]: of [x]'s element
    type for ['left'] and ['right'], of float64 for ['center']. *)
Theorem computeEdges_result_array (h : heap) (x : ref) xa m :
  h !! x = Some xa -> wf_ndarray xa = true -> data xa <> [] -> m ∈ modes ->
  exists h' e ea,
    run (_computeEdges x m) h = (h', Ok e) /\
    h' !! e = Some ea /\
    wf_ndarray ea = true /\
    length (data ea) = S (length (data xa)) /\
    arr_dtype ea = (if decide (m = PyStr "center") then float64
                    else arr_dtype xa).
Proof.
  intros Hx Hwf Hne Hm.
  destruct (run_computeEdges_nonempty h x xa m Hx Hwf Hne Hm)
    as (t & e & ea & Hrun & He & Hlen & Hdt).
  exists (h ++ t), e, ea. split; [exact Hrun|]. split; [exact He|].
  split; [|split; assumption].
  apply (run_computeEdges_wf h (h ++ t) x e xa ea m); assumption.
Qed.

Lemma computeEdges_result_array_witness :
  ([int_array [0; 1; 3]] !! 0%nat = Some (int_array [0; 1; 3]) /\
   wf_ndarray (int_array [0; 1; 3]) = true /\
   data (int_array [0; 1; 3]) <> [] /\ PyStr "center" ∈ modes) /\
  exists h' e ea,
    run (_computeEdges 0%nat (PyStr "center")) [int_array [0; 1; 3]]
    = (h', Ok e) /\
    h' !! e = Some ea /\
    wf_ndarray ea = true /\
    length (data ea) = 4%nat /\
    arr_dtype ea = float64.
Proof.
  assert (PyStr "center" ∈ modes) as Hm by (unfold modes; do 2 right; left).
  assert (data (int_array [0; 1; 3]) <> []) as Hne by discriminate.
  split; [repeat split; [reflexivity .. | exact Hne | exact Hm]|].
  exact (computeEdges_result_array [int_array [0; 1; 3]] 0%nat
           (int_array [0; 1; 3]) (PyStr "center") eq_refl eq_refl Hne Hm).
Defined.

(** X4. Edges of integer bins keep their order: for strictly increasing
    int64 positions below 2^61 in absolute value, the edges
    [_computeEdges] returns for the literals ['left'] and ['right'] are
    int64 again and strictly increasing, and the added edge is the one of
    exact integer arithmetic: nothing wraps around. *)
Theorem computeEdges_integer_bins_increasing (h : heap) (x : ref) zs m :
  h !! x = Some (int_array zs) -> zs <> [] ->
  Forall (fun z => - 2 ^ 61 < z < 2 ^ 61) zs -> increasing zs ->
  m = PyStr "left" \/ m = PyStr "right" ->
  exists es,
    run (_computeEdges x m) h
    = (h ++ [int_array zs; int_array es], Ok (S (length h))) /\
    length es = S (length zs) /\ increasing es /\
    (m = PyStr "left" -> forall z0 l, zs = z0 :: l ->
       es = z0 - default 1 ((fun z1 => z1 - z0) <$> head l) :: zs) /\
    (m = PyStr "right" -> forall l zl, zs = l ++ [zl] ->
       es = zs ++ [zl + default 1 ((fun zp => zl - zp) <$> last l)]).
Proof.
  intros Hx Hne Hb Hinc Hm.
  pose proof (wf_int_array zs Hb) as Hwf.
  destruct Hm as [-> | ->].
  - destruct zs as [|z0 l]; [contradiction|].
    pose proof (run_computeEdges_left h x (int_array (z0 :: l)) (I z0)
                  (map I l) Hx Hwf eq_refl) as Hrun.
    apply Forall_cons_1 in Hb as [H0 Hb'].
    destruct l as [|z1 l].
    + exists [z0 - 1; z0]. split; [|split; [reflexivity|split; [|split]]].
      * rewrite Hrun. cbn [head map scalar_sub arr_dtype int_array data].
        rewrite wrap64_small by lia. reflexivity.
      * intros [|[|i]] a b Ha Hb0; cbn in Ha, Hb0; try discriminate.
        injection Ha as <-. injection Hb0 as <-. lia.
      * intros _ z0' l' E. injection E as <- <-. reflexivity.
      * discriminate.
    + apply Forall_cons_1 in Hb' as [H1 _].
      assert (z0 < z1) as Hlt by (apply (Hinc 0%nat); reflexivity).
      exists (z0 - (z1 - z0) :: z0 :: z1 :: l).
      split; [|split; [reflexivity|split; [|split]]].
      * rewrite Hrun. cbn [head map scalar_sub arr_dtype int_array data].
        rewrite (wrap64_small (z1 - z0)) by lia.
        rewrite wrap64_small by lia. reflexivity.
      * intros [|i] a b Ha Hb0.
        -- cbn in Ha, Hb0. injection Ha as <-. injection Hb0 as <-. lia.
        -- apply (Hinc i); assumption.
      * intros _ z0' l' E. injection E as <- <-. reflexivity.
      * discriminate.
  - destruct zs as [|zl l _] using rev_ind; [contradiction|].
    assert (data (int_array (l ++ [zl])) = map I l ++ [I zl]) as Hd.
    { unfold int_array. cbn [data]. rewrite map_app. reflexivity. }
    pose proof (run_computeEdges_right h x (int_array (l ++ [zl])) (I zl)
                  (map I l) Hx Hwf Hd) as Hrun.
    apply Forall_app in Hb as [Hb' Hl]. apply Forall_cons_1 in Hl as [Hl _].
    destruct l as [|zp l _] using rev_ind.
    + exists [zl; zl + 1]. split; [|split; [reflexivity|split; [|split]]].
      * rewrite Hrun. cbn [last map scalar_add arr_dtype int_array data app].
        rewrite wrap64_small by lia. reflexivity.
      * intros [|[|i]] a b Ha Hb0; cbn in Ha, Hb0; try discriminate.
        injection Ha as <-. injection Hb0 as <-. lia.
      * discriminate.
      * intros _ l' zl' E. apply (app_inj_tail []) in E as [<- <-].
        reflexivity.
    + apply Forall_app in Hb' as [_ Hp]. apply Forall_cons_1 in Hp as [Hp _].
      assert (zp < zl) as Hlt.
      { apply (Hinc (length l)).
        - rewrite <- app_assoc. apply list_lookup_middle. reflexivity.
        - rewrite lookup_app_r; rewrite length_app; cbn [length]; [|lia].
          replace (S (length l) - (length l + 1))%nat with 0%nat by lia.
          reflexivity. }
      exists ((l ++ [zp]) ++ [zl] ++ [zl + (zl - zp)]).
      split; [|split; [|split; [|split]]].
      * rewrite Hrun. rewrite map_app. cbn [map]. rewrite last_snoc.
        cbn [scalar_sub scalar_add arr_dtype int_array data].
        rewrite (wrap64_small (zl - zp)) by lia.
        rewrite wrap64_small by lia.
        unfold int_array. rewrite !map_app. cbn [map].
        rewrite <- !app_assoc. reflexivity.
      * rewrite !length_app. cbn [length]. lia.
      * intros i a b Ha Hb0. rewrite app_assoc in Ha, Hb0.
        assert (length ((l ++ [zp]) ++ [zl]) = S (S (length l))) as Hlen.
        { rewrite !length_app. cbn [length]. lia. }
        destruct (decide (S i < S (S (length l)))%nat) as [Hi|Hi].
        -- rewrite lookup_app_l in Ha by lia.
           rewrite lookup_app_l in Hb0 by lia.
           apply (Hinc i); assumption.
        -- apply lookup_lt_Some in Hb0 as Hlb.
           rewrite length_app, Hlen in Hlb. cbn [length] in Hlb.
           assert (i = S (length l)) as -> by lia.
           rewrite lookup_app_l in Ha by lia.
           rewrite lookup_app_r in Ha by (rewrite length_app; cbn [length]; lia).
           rewrite lookup_app_r in Hb0 by lia.
           rewrite length_app in Ha. rewrite Hlen in Hb0. cbn [length] in Ha.
           replace (S (length l) - (length l + 1))%nat with 0%nat in Ha by lia.
           rewrite Nat.sub_diag in Hb0.
           cbn in Ha, Hb0. injection Ha as <-. injection Hb0 as <-. lia.
      * discriminate.
      * intros _ l' zl' E. apply app_inj_tail in E as [<- <-].
        rewrite last_snoc, <- !app_assoc. reflexivity.
Qed.

Lemma computeEdges_integer_bins_increasing_witness :
  ([int_array [0; 2; 4]] !! 0%nat = Some (int_array [0; 2; 4]) /\
   [0; 2; 4] <> [] /\
   Forall (fun z => - 2 ^ 61 < z < 2 ^ 61) [0; 2; 4] /\
   increasing [0; 2; 4] /\
   (PyStr "left" = PyStr "left" \/ PyStr "left" = PyStr "right")) /\
  exists es,
    run (_computeEdges 0%nat (PyStr "left")) [int_array [0; 2; 4]]
    = ([int_array [0; 2; 4]; int_array [0; 2; 4]; int_array es], Ok 2%nat) /\
    length es = 4%nat /\ increasing es /\ es = [-2; 0; 2; 4].
Proof.
  assert ([0; 2; 4] <> []) as Hne by discriminate.
  assert (Forall (fun z => - 2 ^ 61 < z < 2 ^ 61) [0; 2; 4]) as Hb
    by (repeat constructor; lia).
  assert (increasing [0; 2; 4]) as Hinc.
  { intros [|[|[|i]]] a b Ha Hb'; cbn in Ha, Hb'; try discriminate;
      injection Ha as <-; injection Hb' as <-; lia. }
  split.
  { split; [reflexivity|]. split; [exact Hne|]. split; [exact Hb|].
    split; [exact Hinc | left; reflexivity]. }
  destruct (computeEdges_integer_bins_increasing [int_array [0; 2; 4]] 0%nat
              [0; 2; 4] (PyStr "left") eq_refl Hne Hb Hinc
              (or_introl eq_refl))
    as (es & Hrun & Hlen & Hes & Hleft & _).
  exists es. split; [exact Hrun|]. split; [exact Hlen|].
  split; [exact Hes|]. exact (Hleft eq_refl 0 [2; 4] eq_refl).
Defined.

(** ** [_getHistogramValue] *)

(** X5. The values of the stair-step curve. With [k >= 1] heights and [k]
    positions or [k + 1] edges, all well-formed, [_getHistogramValue]
    succeeds for each of the three histogram types given as the literal
    (the object the [is] tests of [_computeEdges] recognise); the returned
    x is
    the edges with every inner edge twice ([e0, e1, e1, e2, ...], the
    edges being [x] itself when there are [k + 1] of them and those of
    [_computeEdges] otherwise), and, when [y] has the element type of
    the edges, the returned y is every height twice. *)
Theorem getHistogramValue_values uninit (h : heap) (x y : ref) xa ya m :
  h !! x = Some xa -> h !! y = Some ya ->
  wf_ndarray xa = true -> wf_ndarray ya = true ->
  m ∈ modes -> (1 <= length (data ya))%nat ->
  length (data xa) = S (length (data ya)) \/
  length (data xa) = length (data ya) ->
  let k := length (data ya) in
  exists h' rx ry ax ay ea,
    run (_getHistogramValue uninit x y m) h = (h', Ok (rx, ry)) /\
    h' !! rx = Some ax /\ h' !! ry = Some ay /\
    (length (data xa) = S k -> ea = xa) /\
    (length (data xa) = k ->
     exists he e, run (_computeEdges x m) h = (he, Ok e) /\
                  he !! e = Some ea) /\
    length (data ea) = S k /\
    length (data ax) = (2 * k)%nat /\ length (data ay) = (2 * k)%nat /\
    (forall i : nat, (i < k)%nat ->
       data ax !! (2 * i)%nat = data ea !! i /\
       data ax !! (2 * i + 1)%nat = data ea !! S i) /\
    (arr_dtype ya = arr_dtype ea ->
     forall i : nat, (i < k)%nat ->
       data ay !! (2 * i)%nat = data ya !! i /\
       data ay !! (2 * i + 1)%nat = data ya !! i).
Proof.
  intros Hx Hy Hwfx Hwfy Hm Hk Hlen k.
  destruct (run_getHistogramValue_valid uninit h x y xa ya m
              Hx Hy Hwfx Hm Hk Hlen)
    as (t & ea & rx & ry & Hrun & Hsup & Hcomp & _ & Hle & _ & _ & Hlx & Hly & Hpos).
  assert (wf_ndarray ea = true) as Hwfe.
  { destruct Hlen as [Hlen|Hlen].
    - destruct (Hsup Hlen) as [_ ->]. exact Hwfx.
    - destruct (Hcomp Hlen) as (e & Hce & He).
      apply (run_computeEdges_wf h (h ++ t) x e xa ea m); auto.
      intros E. rewrite E in Hlen. cbn in Hlen. lia. }
  assert (forall a (i : nat) s, wf_ndarray a = true -> data a !! i = Some s ->
            arr_dtype a = arr_dtype ea ->
            astype (arr_dtype ea) <$> data a !! i = data a !! i) as Hid.
  { intros a i s Hwa Hi Hdt. rewrite Hi. cbn. f_equal.
    apply astype_wf. rewrite <- Hdt. apply (wf_lookup a i); assumption. }
  exists ((h ++ t) ++ [rx; ry]), (length (h ++ t)), (S (length (h ++ t))),
    rx, ry, ea.
  split; [exact Hrun|].
  split; [apply heap_lookup_0|].
  split; [apply heap_lookup_1|].
  split; [intros E; apply Hsup, E|].
  split; [intros E; destruct (Hcomp E) as (e & ? & ?); eauto|].
  split; [exact Hle|]. split; [exact Hlx|]. split; [exact Hly|].
  split.
  - intros i Hi. destruct (Hpos i Hi) as (-> & -> & _).
    destruct (lookup_lt_is_Some_2 (data ea) i ltac:(lia)) as [s0 H0].
    destruct (lookup_lt_is_Some_2 (data ea) (S i) ltac:(lia)) as [s1 H1].
    rewrite (Hid ea i s0), (Hid ea (S i) s1); auto.
  - intros Hdt i Hi. destruct (Hpos i Hi) as (_ & _ & -> & ->).
    destruct (lookup_lt_is_Some_2 (data ya) i ltac:(lia)) as [s Hs].
    rewrite (Hid ya i s); auto.
Qed.

Lemma getHistogramValue_values_witness :
  ([int_array [0; 1]; float_array [0.5; 1.5]%float] !! 0%nat
   = Some (int_array [0; 1]) /\
   [int_array [0; 1]; float_array [0.5; 1.5]%float] !! 1%nat
   = Some (float_array [0.5; 1.5]%float) /\
   wf_ndarray (int_array [0; 1]) = true /\
   wf_ndarray (float_array [0.5; 1.5]%float) = true /\
   PyStr "center" ∈ modes /\
   (1 <= length (data (float_array [0.5; 1.5]%float)))%nat /\
   (length (data (int_array [0; 1]))
    = S (length (data (float_array [0.5; 1.5]%float))) \/
    length (data (int_array [0; 1]))
    = length (data (float_array [0.5; 1.5]%float)))) /\
  exists h' rx ry ax ay,
    run (_getHistogramValue (fun _ _ => I 0) 0%nat 1%nat (PyStr "center"))
        [int_array [0; 1]; float_array [0.5; 1.5]%float]
    = (h', Ok (rx, ry)) /\
    h' !! rx = Some ax /\ h' !! ry = Some ay /\
    ax = float_array [-0.5; 0.5; 0.5; 1.5]%float /\
    ay = float_array [0.5; 0.5; 1.5; 1.5]%float.
Proof.
  assert (PyStr "center" ∈ modes) as Hm by (unfold modes; do 2 right; left).
  assert (1 <= length (data (float_array [0.5; 1.5]%float)))%nat as Hk
    by (cbn; lia).
  assert (length (data (int_array [0; 1]))
          = S (length (data (float_array [0.5; 1.5]%float))) \/
          length (data (int_array [0; 1]))
          = length (data (float_array [0.5; 1.5]%float))) as Hlen
    by (right; reflexivity).
  split; [repeat split; [reflexivity .. | exact Hm | exact Hk | exact Hlen]|].
  destruct (getHistogramValue_values (fun _ _ => I 0)
              [int_array [0; 1]; float_array [0.5; 1.5]%float] 0%nat 1%nat
              (int_array [0; 1]) (float_array [0.5; 1.5]%float)
              (PyStr "center") eq_refl eq_refl eq_refl eq_refl Hm Hk Hlen)
    as (h' & rx & ry & ax & ay & ea & Hrun & Hax & Hay & _).
  exists h', rx, ry, ax, ay.
  repeat (split; [assumption|]).
  vm_compute in Hrun. injection Hrun as <- <- <-.
  vm_compute in Hax. injection Hax as <-.
  vm_compute in Hay. injection Hay as <-.
  split; reflexivity.
Defined.

(** X6. The shape of the stair-step curve, whatever the element types.
    Under the conditions of X5 on [x] and on the histogram type (one of
    the three literals), and for any [y] of [k] elements, the two returned
    arrays have the same element type and [2 * k] elements
    each; the returned y is constant on each step (positions [2 * i] and
    [2 * i + 1]) and the returned x is continuous from one step to the
    next (positions [2 * i + 1] and [2 * i + 2]). *)
Theorem getHistogramValue_staircase uninit (h : heap) (x y : ref) xa ya m :
  h !! x = Some xa -> h !! y = Some ya -> wf_ndarray xa = true ->
  m ∈ modes -> (1 <= length (data ya))%nat ->
  length (data xa) = S (length (data ya)) \/
  length (data xa) = length (data ya) ->
  let k := length (data ya) in
  exists h' rx ry ax ay,
    run (_getHistogramValue uninit x y m) h = (h', Ok (rx, ry)) /\
    h' !! rx = Some ax /\ h' !! ry = Some ay /\
    arr_dtype ax = arr_dtype ay /\
    length (data ax) = (2 * k)%nat /\ length (data ay) = (2 * k)%nat /\
    (forall i : nat, (i < k)%nat ->
       data ay !! (2 * i + 1)%nat = data ay !! (2 * i)%nat /\
       is_Some (data ay !! (2 * i)%nat)) /\
    (forall i : nat, (S i < k)%nat ->
       data ax !! (2 * i + 2)%nat = data ax !! (2 * i + 1)%nat /\
       is_Some (data ax !! (2 * i + 1)%nat)).
Proof.
  intros Hx Hy Hwf Hm Hk Hlen k.
  destruct (run_getHistogramValue_valid uninit h x y xa ya m
              Hx Hy Hwf Hm Hk Hlen)
    as (t & ea & rx & ry & Hrun & _ & _ & _ & Hle & Hdx & Hdy & Hlx & Hly & Hpos).
  exists ((h ++ t) ++ [rx; ry]), (length (h ++ t)), (S (length (h ++ t))), rx, ry.
  split; [exact Hrun|].
  split; [apply heap_lookup_0|].
  split; [apply heap_lookup_1|].
  split; [congruence|]. split; [exact Hlx|]. split; [exact Hly|].
  split.
  - intros i Hi. destruct (Hpos i Hi) as (_ & _ & H0 & H1).
    split; [congruence|]. apply lookup_lt_is_Some_2. fold k in Hly. lia.
  - intros i Hi. destruct (Hpos i ltac:(lia)) as (_ & H1 & _).
    destruct (Hpos (S i) Hi) as (H0 & _).
    replace (2 * S i)%nat with (2 * i + 2)%nat in H0 by lia.
    split; [congruence|]. apply lookup_lt_is_Some_2. fold k in Hlx. lia.
Qed.

Lemma getHistogramValue_staircase_witness :
  ([int_array [0; 1]; float_array [0.5; 1.5]%float] !! 0%nat
   = Some (int_array [0; 1]) /\
   [int_array [0; 1]; float_array [0.5; 1.5]%float] !! 1%nat
   = Some (float_array [0.5; 1.5]%float) /\
   wf_ndarray (int_array [0; 1]) = true /\
   PyStr "left" ∈ modes /\
   (1 <= length (data (float_array [0.5; 1.5]%float)))%nat /\
   (length (data (int_array [0; 1]))
    = S (length (data (float_array [0.5; 1.5]%float))) \/
    length (data (int_array [0; 1]))
    = length (data (float_array [0.5; 1.5]%float)))) /\
  exists h' rx ry ax ay,
    run (_getHistogramValue (fun _ _ => I 0) 0%nat 1%nat (PyStr "left"))
        [int_array [0; 1]; float_array [0.5; 1.5]%float]
    = (h', Ok (rx, ry)) /\
    h' !! rx = Some ax /\ h' !! ry = Some ay /\
    arr_dtype ax = arr_dtype ay /\
    length (data ax) = 4%nat /\ length (data ay) = 4%nat /\
    (forall i : nat, (i < 2)%nat ->
       data ay !! (2 * i + 1)%nat = data ay !! (2 * i)%nat /\
       is_Some (data ay !! (2 * i)%nat)) /\
    (forall i : nat, (S i < 2)%nat ->
       data ax !! (2 * i + 2)%nat = data ax !! (2 * i + 1)%nat /\
       is_Some (data ax !! (2 * i + 1)%nat)).
Proof.
  assert (PyStr "left" ∈ modes) as Hm by (unfold modes; left).
  assert (1 <= length (data (float_array [0.5; 1.5]%float)))%nat as Hk
    by (cbn; lia).
  assert (length (data (int_array [0; 1]))
          = S (length (data (float_array [0.5; 1.5]%float))) \/
          length (data (int_array [0; 1]))
          = length (data (float_array [0.5; 1.5]%float))) as Hlen
    by (right; reflexivity).
  split; [repeat split; [reflexivity .. | exact Hm | exact Hk | exact Hlen]|].
  exact (getHistogramValue_staircase (fun _ _ => I 0)
           [int_array [0; 1]; float_array [0.5; 1.5]%float] 0%nat 1%nat
           (int_array [0; 1]) (float_array [0.5; 1.5]%float) (PyStr "left")
           eq_refl eq_refl eq_refl Hm Hk Hlen).
Defined.

(** X7. Nothing of what [numpy.empty] leaves in the two result arrays
    survives a call that returns: under the conditions of X6 (the
    histogram type is one of the three literals, [k >= 1] heights, [k]
    positions or [k + 1] edges) the whole run, store and result, is the
    same whatever the uninitialised memory holds. *)
Theorem getHistogramValue_ignores_uninitialised u1 u2 (h : heap) (x y : ref)
    xa ya m :
  h !! x = Some xa -> h !! y = Some ya -> wf_ndarray xa = true ->
  m ∈ modes -> (1 <= length (data ya))%nat ->
  length (data xa) = S (length (data ya)) \/
  length (data xa) = length (data ya) ->
  run (_getHistogramValue u1 x y m) h = run (_getHistogramValue u2 x y m) h.
Proof.
  intros Hx Hy Hwf Hm Hk Hlen.
  destruct (run_getHistogramValue_valid u1 h x y xa ya m Hx Hy Hwf Hm Hk Hlen)
    as (t1 & ea1 & rx1 & ry1 & Hrun1 & Hs1 & Hc1 & _ & _ & Hdx1 & Hdy1
        & Hlx1 & Hly1 & Hp1).
  destruct (run_getHistogramValue_valid u2 h x y xa ya m Hx Hy Hwf Hm Hk Hlen)
    as (t2 & ea2 & rx2 & ry2 & Hrun2 & Hs2 & Hc2 & _ & _ & Hdx2 & Hdy2
        & Hlx2 & Hly2 & Hp2).
  assert (t1 = t2 /\ ea1 = ea2) as [-> ->].
  { destruct Hlen as [Hlen|Hlen].
    - destruct (Hs1 Hlen) as [-> ->]. destruct (Hs2 Hlen) as [-> ->]. auto.
    - destruct (Hc1 Hlen) as (e1 & Hr1 & He1).
      destruct (Hc2 Hlen) as (e2 & Hr2 & He2).
      rewrite Hr1 in Hr2. injection Hr2 as Ht <-.
      apply app_inv_head in Ht. subst t2. split; [reflexivity|].
      rewrite He1 in He2. injection He2 as <-. reflexivity. }
  rewrite Hrun1, Hrun2.
  assert (rx1 = rx2) as ->.
  { destruct rx1 as [d1 l1], rx2 as [d2 l2]. cbn [arr_dtype data] in *.
    f_equal; [congruence|].
    apply (pairs_eq l1 l2 (length (data ya))); auto.
    intros i Hi. destruct (Hp1 i Hi) as (-> & -> & _).
    destruct (Hp2 i Hi) as (-> & -> & _). auto. }
  assert (ry1 = ry2) as ->.
  { destruct ry1 as [d1 l1], ry2 as [d2 l2]. cbn [arr_dtype data] in *.
    f_equal; [congruence|].
    apply (pairs_eq l1 l2 (length (data ya))); auto.
    intros i Hi. destruct (Hp1 i Hi) as (_ & _ & -> & ->).
    destruct (Hp2 i Hi) as (_ & _ & -> & ->). auto. }
  reflexivity.
Qed.

Lemma getHistogramValue_ignores_uninitialised_witness :
  ([int_array [0; 1]; float_array [0.5; 1.5]%float] !! 0%nat
   = Some (int_array [0; 1]) /\
   [int_array [0; 1]; float_array [0.5; 1.5]%float] !! 1%nat
   = Some (float_array [0.5; 1.5]%float) /\
   wf_ndarray (int_array [0; 1]) = true /\
   PyStr "right" ∈ modes /\
   (1 <= length (data (float_array [0.5; 1.5]%float)))%nat /\
   (length (data (int_array [0; 1]))
    = S (length (data (float_array [0.5; 1.5]%float))) \/
    length (data (int_array [0; 1]))
    = length (data (float_array [0.5; 1.5]%float)))) /\
  run (_getHistogramValue (fun _ _ => I 0) 0%nat 1%nat (PyStr "right"))
      [int_array [0; 1]; float_array [0.5; 1.5]%float]
  = run (_getHistogramValue (fun r i => F (Z2float (Z.of_nat (r + i))))
           0%nat 1%nat (PyStr "right"))
      [int_array [0; 1]; float_array [0.5; 1.5]%float].
Proof.
  assert (PyStr "right" ∈ modes) as Hm by (unfold modes; right; left).
  assert (1 <= length (data (float_array [0.5; 1.5]%float)))%nat as Hk
    by (cbn; lia).
  assert (length (data (int_array [0; 1]))
          = S (length (data (float_array [0.5; 1.5]%float))) \/
          length (data (int_array [0; 1]))
          = length (data (float_array [0.5; 1.5]%float))) as Hlen
    by (right; reflexivity).
  split; [repeat split; [reflexivity .. | exact Hm | exact Hk | exact Hlen]|].
  exact (getHistogramValue_ignores_uninitialised (fun _ _ => I 0)
           (fun r i => F (Z2float (Z.of_nat (r + i))))
           [int_array [0; 1]; float_array [0.5; 1.5]%float] 0%nat 1%nat
           (int_array [0; 1]) (float_array [0.5; 1.5]%float) (PyStr "right")
           eq_refl eq_refl eq_refl Hm Hk Hlen).
Defined.

(** X8. A single height is broadcast. With a one-element [y], an [x] of
    [n >= 3] positions and one of the three literals as histogram type,
    [_getHistogramValue] raises nothing: it computes [n + 1] edges and
    returns [2 * n] x values and [2 * n] copies of the height, converted
    to the element type of the result. *)
Theorem getHistogramValue_broadcasts_single_height uninit (h : heap)
    (x y : ref) xa ya y0 m :
  h !! x = Some xa -> h !! y = Some ya -> wf_ndarray xa = true ->
  m ∈ modes -> data ya = [y0] -> (3 <= length (data xa))%nat ->
  let n := length (data xa) in
  exists h' rx ry ax ay,
    run (_getHistogramValue uninit x y m) h = (h', Ok (rx, ry)) /\
    h' !! rx = Some ax /\ h' !! ry = Some ay /\
    length (data ax) = (2 * n)%nat /\
    data ay = replicate (2 * n) (astype (arr_dtype ay) y0).
Proof.
  intros Hx Hy Hwf Hm Hy0 Hn n.
  assert (data xa <> []) as Hne.
  { intros E. rewrite E in Hn. cbn in Hn. lia. }
  destruct (run_computeEdges_nonempty h x xa m Hx Hwf Hne Hm)
    as (t & e & ea & Hrun & He & Hle & _).
  fold n in Hle.
  destruct (run_stairs_broadcast uninit (h ++ t) e y ea ya n (replicate n y0)
              He (heap_lookup_old _ _ _ _ Hy) Hle ltac:(lia))
    as (rx & ry & Hst & _ & Hdy & Hlx & Hly & Hpos).
  { rewrite Hy0. apply broadcast_to_singleton. }
  exists ((h ++ t) ++ [rx; ry]), (length (h ++ t)), (S (length (h ++ t))), rx, ry.
  split.
  { rewrite (run_getHistogramValue_computed _ _ _ _ _ _ xa ya _ Hx Hy
               ltac:(rewrite Hy0; cbn; lia) (modes_value m Hm) Hrun).
    exact Hst. }
  split; [apply heap_lookup_0|].
  split; [apply heap_lookup_1|].
  split; [exact Hlx|].
  apply (pairs_eq _ _ n); [exact Hly | apply length_replicate |].
  intros i Hi. destruct (Hpos i Hi) as (_ & _ & -> & ->).
  rewrite !lookup_replicate_2 by lia. rewrite Hdy. auto.
Qed.

Lemma getHistogramValue_broadcasts_single_height_witness :
  ([int_array [0; 1; 2]; int_array [5]] !! 0%nat = Some (int_array [0; 1; 2]) /\
   [int_array [0; 1; 2]; int_array [5]] !! 1%nat = Some (int_array [5]) /\
   wf_ndarray (int_array [0; 1; 2]) = true /\
   PyStr "right" ∈ modes /\
   data (int_array [5]) = [I 5] /\
   (3 <= length (data (int_array [0; 1; 2]%Z)))%nat) /\
  exists h' rx ry ax ay,
    run (_getHistogramValue (fun _ _ => I 0) 0%nat 1%nat (PyStr "right"))
        [int_array [0; 1; 2]; int_array [5]]
    = (h', Ok (rx, ry)) /\
    h' !! rx = Some ax /\ h' !! ry = Some ay /\
    length (data ax) = 6%nat /\
    data ay = replicate 6 (astype (arr_dtype ay) (I 5)).
Proof.
  assert (PyStr "right" ∈ modes) as Hm by (unfold modes; right; left).
  assert (3 <= length (data (int_array [0; 1; 2]%Z)))%nat as Hn by (cbn; lia).
  split.
  { split; [reflexivity|]. split; [reflexivity|]. split; [reflexivity|].
    split; [exact Hm|]. split; [reflexivity | exact Hn]. }
  exact (getHistogramValue_broadcasts_single_height (fun _ _ => I 0)
           [int_array [0; 1; 2]; int_array [5]] 0%nat 1%nat
           (int_array [0; 1; 2]) (int_array [5]) (I 5) (PyStr "right")
           eq_refl eq_refl eq_refl Hm eq_refl Hn).
Defined.

(** X20. A histogram type that is equal to one of the three modes without
    being the literal (a str built at run time) passes the assertion of
    [_getHistogramValue], which compares with [in], and gets no edge from
    [_computeEdges], which compares with [is]: with as many positions as
    heights, [k >= 2], the call raises [ValueError] when it writes the
    [k] heights into the [k - 1] bins of the copy of [x]; with [k = 1] it
    raises [AssertionError]. Nothing is returned. *)
Theorem getHistogramValue_equal_mode_raises uninit (h : heap) (x y : ref)
    xa ya m :
  h !! x = Some xa -> h !! y = Some ya ->
  value m ∈ modes -> m ∉ modes ->
  length (data xa) = length (data ya) -> (1 <= length (data ya))%nat ->
  exists h',
    run (_getHistogramValue uninit x y m) h
    = (h', Raise (if decide (length (data ya) = 1%nat)
                  then AssertionError else ValueError)).
Proof. apply run_getHistogramValue_not_literal. Qed.

Lemma getHistogramValue_equal_mode_raises_witness :
  ([int_array [0; 1; 2]; int_array [5; 6; 7]] !! 0%nat
   = Some (int_array [0; 1; 2]) /\
   [int_array [0; 1; 2]; int_array [5; 6; 7]] !! 1%nat
   = Some (int_array [5; 6; 7]) /\
   value (PyStrNew "right") ∈ modes /\ (PyStrNew "right" ∉ modes) /\
   length (data (int_array [0; 1; 2])) = length (data (int_array [5; 6; 7])) /\
   (1 <= length (data (int_array [5; 6; 7]%Z)))%nat) /\
  exists h',
    run (_getHistogramValue (fun _ _ => I 0) 0%nat 1%nat (PyStrNew "right"))
        [int_array [0; 1; 2]; int_array [5; 6; 7]]
    = (h', Raise ValueError).
Proof.
  assert (value (PyStrNew "right") ∈ modes) as Hv
    by (unfold modes; right; left).
  pose proof (new_not_modes "right") as Hm.
  assert (1 <= length (data (int_array [5; 6; 7]%Z)))%nat as Hk by (cbn; lia).
  split.
  { split; [reflexivity|]. split; [reflexivity|]. split; [exact Hv|].
    split; [exact Hm|]. split; [reflexivity | exact Hk]. }
  exact (getHistogramValue_equal_mode_raises (fun _ _ => I 0)
           [int_array [0; 1; 2]; int_array [5; 6; 7]] 0%nat 1%nat
           (int_array [0; 1; 2]) (int_array [5; 6; 7]) (PyStrNew "right")
           eq_refl eq_refl Hv Hm eq_refl Hk).
Defined.

(** ** The setters and getters of [Curve] *)

Section CurveProperties.

Context {World Color ColorSpec : Type}.
Context `{!Inherited World Color ColorSpec} `{!EqDecision Color}.

Local Abbreviation Curve := (Curve World Color).

(** X9. [setLineStyle] accepts exactly the arguments whose [str] is one of
    the six strings [''], [' '], ['-'], ['--'], ['-.'], [':'], and then
    [getLineStyle] returns a str of that text; for any other argument it
    raises [AssertionError]. This includes [None], although it is listed
    in the assertion ([str(None)] is ['None'], so the default style is
    never restored), and every integer. *)
Theorem setLineStyle_accepts (style : pyobj) (c : Curve) :
  (py_str style ∈ line_styles ->
   exists c', setLineStyle style c = Ok c' /\
              value (getLineStyle c') = PyStr (py_str style)) /\
  (py_str style ∉ line_styles ->
   setLineStyle style c = Raise AssertionError) /\
  setLineStyle PyNone c = Raise AssertionError /\
  (forall z, setLineStyle (PyInt z) c = Raise AssertionError).
Proof.
  assert (py_str style ∉ line_styles ->
          setLineStyle style c = Raise AssertionError) as Hout.
  { intros Hin.
    rewrite setLineStyle_spec, bool_decide_eq_false_2 by assumption.
    reflexivity. }
  split; [|split; [exact Hout|split]].
  - intros Hin. rewrite setLineStyle_spec, bool_decide_eq_true_2 by assumption.
    eexists. split; [reflexivity|].
    case_bool_decide as E; [symmetry; exact E | apply value_str_of].
  - reflexivity.
  - intros z. rewrite setLineStyle_spec, bool_decide_eq_false_2;
      [reflexivity | apply py_str_int_not_style].
Qed.

(** X10. [setHistogramType] accepts exactly the arguments equal to
    ['left'], ['right'], ['center'] or [None]; [getHistogramType] then
    returns a value equal to the argument (the argument itself when the
    type changed, whichever str object it is), and a call with a type
    equal to the one the curve already has changes nothing. Any other
    argument raises [AssertionError]. *)
Theorem setHistogramType_accepts (histogram : pyobj) (c : Curve) :
  (value histogram ∈ histogram_types ->
   exists c', setHistogramType histogram c = Ok c' /\
              value (getHistogramType c') = value histogram /\
              (value histogram = value (getHistogramType c) -> c' = c) /\
              (value histogram <> value (getHistogramType c) ->
               getHistogramType c' = histogram)) /\
  (value histogram ∉ histogram_types ->
   setHistogramType histogram c = Raise AssertionError).
Proof.
  rewrite setHistogramType_spec. split; intros Hin.
  - rewrite bool_decide_eq_true_2 by assumption. eexists. split; [reflexivity|].
    unfold getHistogramType.
    case_bool_decide as E; cbn [_histogram].
    + split; [symmetry; exact E|]. split; [reflexivity|]. intros; contradiction.
    + split; [reflexivity|]. split; [intros; contradiction | reflexivity].
  - rewrite bool_decide_eq_false_2 by assumption. reflexivity.
Qed.

(** X11. Whatever setters are called on a new [Curve], with whatever
    arguments and whether they raise or not, [getLineStyle] returns a str
    equal to one of the six line styles (never [None]) and
    [getHistogramType] a value equal to one of ['left'], ['right'],
    ['center'], [None]. *)
Theorem curve_attributes_stay_valid (w : World) (ks : list (setter ColorSpec)) :
  curve_invariant (perform_all ks (Curve_init w)).
Proof.
  assert (curve_invariant (Curve_init w)) as Hinit.
  { split.
    - exists "-"%string. split; [|reflexivity]. unfold line_styles. do 2 right. left.
    - unfold histogram_types. cbn. do 3 right. left. }
  revert Hinit. generalize (Curve_init w). unfold perform_all.
  induction ks as [|k ks IH]; intros c Hc; [exact Hc|].
  cbn [foldl]. apply IH.
  destruct (perform k c) as [c'|] eqn:Hk; [|exact Hc].
  exact (curve_invariant_perform k c c' Hc Hk).
Qed.

(** X12. A setter called a second time with the same argument changes
    nothing: no attribute, no second notification ([_updated]), no second
    invalidation of the data range. This holds for [setLineStyle],
    [setHighlighted], [setHighlightedColor], [setHistogramType], and for
    [setLineWidth] on a width that is not NaN. *)
Theorem setter_twice_is_once (k : setter ColorSpec) (c c1 : Curve) :
  repeatable k -> perform k c = Ok c1 -> perform k c1 = Ok c1.
Proof.
  destruct k; cbn [perform repeatable]; intros Hr.
  - rewrite !setLineStyle_spec. case_bool_decide; [|discriminate].
    intros [= <-]. f_equal.
    destruct (bool_decide (PyStr (py_str style) = value (_linestyle c)))
      eqn:E; cbn [_linestyle].
    + rewrite E. reflexivity.
    + rewrite value_str_of, bool_decide_eq_true_2 by reflexivity.
      reflexivity.
  - intros [= <-]. f_equal. unfold setLineWidth.
    unfold is_nan in Hr. apply negb_false_iff in Hr.
    destruct (PrimFloat.eqb width (_linewidth c)) eqn:E; cbn.
    + now rewrite E.
    + now rewrite Hr.
  - intros [= <-]. f_equal. unfold setHighlighted.
    destruct highlighted, (_highlighted c) eqn:E; cbn; rewrite ?E; reflexivity.
  - unfold setHighlightedColor. destruct (Colors_rgba color) as [col|]; [|discriminate].
    intros [= <-]. f_equal.
    destruct (decide (col <> _highlightColor c)) as [|Heq]; cbn.
    + destruct (decide _) as [Hd|]; [contradiction Hd|]; reflexivity.
    + destruct (decide _) as [Hd|]; [contradiction|]; reflexivity.
  - rewrite !setHistogramType_spec. case_bool_decide; [|discriminate].
    intros [= <-]. f_equal.
    destruct (bool_decide (value histogram = value (_histogram c)))
      eqn:E; cbn [_histogram].
    + rewrite E. reflexivity.
    + rewrite bool_decide_eq_true_2 by reflexivity. reflexivity.
  - contradiction.
Qed.

(** X13. [getLineWidth] after [setLineWidth(width)], for a width that is
    not NaN, returns a float equal ([==]) to [width]; when the curve
    already had an equal width the call changes nothing (so the width
    [0.0] is kept when [-0.0] is set). *)
Theorem setLineWidth_round_trip (width : float) (c : Curve) :
  is_nan width = false ->
  PrimFloat.eqb width (getLineWidth (setLineWidth width c)) = true /\
  (PrimFloat.eqb width (getLineWidth c) = true -> setLineWidth width c = c).
Proof.
  intros Hr. unfold is_nan in Hr. apply negb_false_iff in Hr.
  unfold setLineWidth, getLineWidth.
  destruct (PrimFloat.eqb width (_linewidth c)) eqn:E; cbn; split; auto.
  discriminate.
Qed.

(** X14. After [setHighlightedColor(color)], with [Colors.rgba(color)]
    returning [col], [getHighlightedColor] returns [col], and so does
    [getCurrentColor] once the curve is highlighted. *)
Theorem highlight_colour_round_trip (color : ColorSpec) (col : Color)
    (c c' : Curve) :
  Colors_rgba color = Ok col -> setHighlightedColor color c = Ok c' ->
  getHighlightedColor c' = col /\
  getCurrentColor (setHighlighted true c') = col.
Proof.
  unfold setHighlightedColor. intros -> [= <-].
  set (c' := if decide (col <> _highlightColor c) then _ else c).
  assert (getHighlightedColor c' = col) as Hc.
  { subst c'. destruct (decide _) as [|Heq]; [reflexivity|].
    unfold getHighlightedColor.
    destruct (decide (col = _highlightColor c)); [congruence|contradiction]. }
  split; [exact Hc|]. clearbody c'.
  unfold getCurrentColor, setHighlighted, isHighlighted.
  destruct (_highlighted c') eqn:E; cbn; rewrite ?E; exact Hc.
Qed.

(** ** [Curve._addBackendRenderer] *)

(** X15. Without a histogram type (a type equal to none of the three
    modes), [_addBackendRenderer] allocates and changes no array and logs
    no warning: with an empty x it returns [None] without calling the
    backend, otherwise it passes the data and the error bars it got from
    [getData] to [backend.addCurve], with the current colour, the line
    style and the line width of the curve. *)
Theorem addBackendRenderer_plain uninit (c : Curve) (h : heap) (x y : ref) xa
    (xerror yerror xerrorData yerrorData : option ref) :
  h !! x = Some xa -> value (getHistogramType c) ∉ modes ->
  run (_addBackendRenderer uninit c x y xerror yerror xerrorData yerrorData) h
  = (h, Ok (if decide (data xa = [])
            then None
            else Some (mk_addCurve x y (getCurrentColor c) (getLineStyle c)
                         (getLineWidth c) xerror yerror (inherited c)),
            false)).
Proof.
  intros Hx Hm. unfold _addBackendRenderer.
  rewrite (run_bind_ok _ _ _ _ _ (run_len h x xa Hx)).
  destruct (decide (data xa = [])) as [E|E].
  - rewrite E. reflexivity.
  - destruct (Z.eqb_spec (Z.of_nat (length (data xa))) 0) as [E0|_].
    { destruct (data xa); [contradiction|cbn in E0; lia]. }
    rewrite py_in_modes, bool_decide_eq_false_2 by assumption.
    reflexivity.
Qed.

(** X16. With a histogram type equal to one of the three modes,
    [k >= 1] heights, and [k + 1] edges or [k] positions (the type being
    then one of the three literals, since [_computeEdges] is called),
    [_addBackendRenderer] calls [backend.addCurve] on two new arrays of
    [2 * k] elements each and without error bars; the arrays it got are
    unchanged, and the warning is logged exactly when the curve has x or y
    error data. *)
Theorem addBackendRenderer_histogram uninit (c : Curve) (h : heap) (x y : ref)
    xa ya (xerror yerror xerrorData yerrorData : option ref) :
  h !! x = Some xa -> h !! y = Some ya -> wf_ndarray xa = true ->
  value (getHistogramType c) ∈ modes -> (1 <= length (data ya))%nat ->
  length (data xa) = S (length (data ya)) \/
  (length (data xa) = length (data ya) /\ getHistogramType c ∈ modes) ->
  exists h' rx ry ax ay,
    run (_addBackendRenderer uninit c x y xerror yerror xerrorData yerrorData) h
    = (h', Ok (Some (mk_addCurve rx ry (getCurrentColor c) (getLineStyle c)
                       (getLineWidth c) None None (inherited c)),
               bool_decide (xerrorData <> None)
               || bool_decide (yerrorData <> None))) /\
    (forall r a, h !! r = Some a -> h' !! r = Some a) /\
    (length h <= rx)%nat /\ (length h <= ry)%nat /\ rx <> ry /\
    h' !! rx = Some ax /\ h' !! ry = Some ay /\
    length (data ax) = (2 * length (data ya))%nat /\
    length (data ay) = (2 * length (data ya))%nat.
Proof.
  intros Hx Hy Hwf Hm Hk Hlen.
  destruct (run_getHistogramValue_returns uninit h x y xa ya _
              Hx Hy Hwf Hm Hk Hlen)
    as (t & ea & ax & ay & Hrun & _ & _ & _ & _ & _ & _ & Hlx & Hly & _).
  exists ((h ++ t) ++ [ax; ay]), (length (h ++ t)), (S (length (h ++ t))), ax, ay.
  split.
  - unfold _addBackendRenderer.
    rewrite (run_bind_ok _ _ _ _ _ (run_len h x xa Hx)).
    destruct (Z.eqb_spec (Z.of_nat (length (data xa))) 0) as [E0|_];
      [destruct Hlen as [?|[? _]]; lia|].
    rewrite py_in_modes, bool_decide_eq_true_2 by assumption.
    rewrite run_bind.
    rewrite (run_bind_ok _ _ _ _ _ (run_len h x xa Hx)).
    rewrite (run_bind_ok _ _ _ _ _ (run_len h y ya Hy)).
    rewrite (run_bind_ok _ _ _ _ _ (run_len h y ya Hy)).
    rewrite (run_bind_ok (py_assert _) _ h h tt) by
      (apply run_py_assert_true, orb_true_iff;
       destruct Hlen as [?|[? _]]; [right|left]; apply Z.eqb_eq; lia).
    rewrite (run_bind_ok _ _ _ _ _ Hrun).
    reflexivity.
  - split; [intros r a Hr; rewrite <- app_assoc; apply heap_lookup_old, Hr|].
    split; [rewrite length_app; lia|].
    split; [rewrite length_app; lia|].
    split; [lia|].
    split; [apply heap_lookup_0|].
    split; [apply heap_lookup_1|].
    split; assumption.
Qed.

(** X17. With a histogram type equal to one of the three modes and a
    non-empty x, [_addBackendRenderer] raises [AssertionError], having
    allocated nothing, when the number of x values is neither the number
    of heights nor one more, and also when there is no height at all (one
    x value then passes the assertion of the method and fails that of
    [_getHistogramValue]). *)
Theorem addBackendRenderer_histogram_rejects uninit (c : Curve) (h : heap)
    (x y : ref) xa ya (xerror yerror xerrorData yerrorData : option ref) :
  h !! x = Some xa -> h !! y = Some ya ->
  value (getHistogramType c) ∈ modes -> data xa <> [] ->
  (length (data xa) <> length (data ya) /\
   length (data xa) <> S (length (data ya))) \/ data ya = [] ->
  run (_addBackendRenderer uninit c x y xerror yerror xerrorData yerrorData) h
  = (h, Raise AssertionError).
Proof.
  intros Hx Hy Hm Hne Hbad.
  unfold _addBackendRenderer.
  rewrite (run_bind_ok _ _ _ _ _ (run_len h x xa Hx)).
  destruct (Z.eqb_spec (Z.of_nat (length (data xa))) 0) as [E0|_].
  { destruct (data xa); [contradiction|cbn in E0; lia]. }
  rewrite py_in_modes, bool_decide_eq_true_2 by assumption.
  rewrite run_bind.
  rewrite (run_bind_ok _ _ _ _ _ (run_len h x xa Hx)).
  rewrite (run_bind_ok _ _ _ _ _ (run_len h y ya Hy)).
  rewrite (run_bind_ok _ _ _ _ _ (run_len h y ya Hy)).
  destruct (decide (length (data xa) = length (data ya)
                    \/ length (data xa) = S (length (data ya)))) as [Hok|Hno].
  - assert (data ya = []) as Ey by (destruct Hbad as [[? ?]|?]; [lia|assumption]).
    assert (length (data xa) = S (length (data ya))) as Hlen.
    { rewrite Ey in *. cbn in *. destruct Hok as [Hok|Hok]; [|exact Hok].
      destruct (data xa); [contradiction|discriminate]. }
    rewrite (run_bind_ok (py_assert _) _ h h tt) by
      (apply run_py_assert_true, orb_true_iff; right; apply Z.eqb_eq; lia).
    rewrite (run_bind_raise _ _ h h AssertionError); [reflexivity|].
    rewrite (run_getHistogramValue_supplied uninit h x y xa ya _ Hx Hy Hlen Hm).
    apply (run_stairs_short uninit h x y xa Hx). rewrite Hlen, Ey. cbn. lia.
  - rewrite (run_bind_raise _ _ h h AssertionError); [reflexivity|].
    apply run_py_assert_false. apply orb_false_iff.
    split; apply Z.eqb_neq; lia.
Qed.

(** X21. [setHistogramType] accepts a str equal to a mode that is not the
    literal, and stores it when the type changes; the curve then cannot
    be drawn: with as many x values as heights, [k >= 2],
    [_addBackendRenderer] raises [ValueError] and [backend.addCurve] is
    not called. *)
Theorem addBackendRenderer_equal_mode_raises uninit (c : Curve) (s : string)
    (h : heap) (x y : ref) xa ya
    (xerror yerror xerrorData yerrorData : option ref) :
  PyStr s ∈ modes -> value (getHistogramType c) <> PyStr s ->
  h !! x = Some xa -> h !! y = Some ya ->
  length (data xa) = length (data ya) -> (2 <= length (data ya))%nat ->
  exists c',
    setHistogramType (PyStrNew s) c = Ok c' /\
    getHistogramType c' = PyStrNew s /\
    exists h',
      run (_addBackendRenderer uninit c' x y xerror yerror
             xerrorData yerrorData) h
      = (h', Raise ValueError).
Proof.
  intros Hs Hold Hx Hy Hlen Hk.
  assert (value (PyStrNew s) ∈ modes) as Hv by exact Hs.
  rewrite setHistogramType_spec. rewrite bool_decide_eq_true_2.
  2:{ cbn [value]. unfold histogram_types. unfold modes in Hs.
      rewrite !elem_of_cons, elem_of_nil in Hs.
      rewrite !elem_of_cons. tauto. }
  rewrite bool_decide_eq_false_2
    by (intros E; apply Hold; symmetry; exact E).
  eexists. split; [reflexivity|]. split; [reflexivity|].
  destruct (run_getHistogramValue_not_literal uninit h x y xa ya (PyStrNew s)
              Hx Hy Hv (new_not_modes s) Hlen ltac:(lia)) as [h' Hrun].
  destruct (decide (length (data ya) = 1%nat)) as [E|_]; [lia|].
  exists h'. unfold _addBackendRenderer.
  rewrite (run_bind_ok _ _ _ _ _ (run_len h x xa Hx)).
  destruct (Z.eqb_spec (Z.of_nat (length (data xa))) 0) as [E0|_]; [lia|].
  cbn [getHistogramType _histogram].
  rewrite py_in_modes, bool_decide_eq_true_2 by exact Hv.
  rewrite run_bind.
  rewrite (run_bind_ok _ _ _ _ _ (run_len h x xa Hx)).
  rewrite (run_bind_ok _ _ _ _ _ (run_len h y ya Hy)).
  rewrite (run_bind_ok _ _ _ _ _ (run_len h y ya Hy)).
  rewrite (run_bind_ok (py_assert _) _ h h tt) by
    (apply run_py_assert_true, orb_true_iff; left; apply Z.eqb_eq; lia).
  rewrite (run_bind_raise _ _ h h' ValueError); [reflexivity|].
  exact Hrun.
Qed.

End CurveProperties.

Lemma addBackendRenderer_equal_mode_raises_witness :
  (PyStr "left" ∈ modes /\
   value
     (getHistogramType
        (Curve_init (mk_counters 0 0 true true (0, 0, 255, 255))))
   <> PyStr "left" /\
   [int_array [1; 2]; int_array [3; 4]] !! 0%nat = Some (int_array [1; 2]) /\
   [int_array [1; 2]; int_array [3; 4]] !! 1%nat = Some (int_array [3; 4]) /\
   length (data (int_array [1; 2])) = length (data (int_array [3; 4])) /\
   (2 <= length (data (int_array [3; 4]%Z)))%nat) /\
  exists c',
    setHistogramType (PyStrNew "left")
      (Curve_init (mk_counters 0 0 true true (0, 0, 255, 255))) = Ok c' /\
    getHistogramType c' = PyStrNew "left" /\
    exists h',
      run (_addBackendRenderer (fun _ _ => I 0) c' 0%nat 1%nat
             None None None None)
          [int_array [1; 2]; int_array [3; 4]]
      = (h', Raise ValueError).
Proof.
  assert (PyStr "left" ∈ modes) as Hs by (unfold modes; left).
  assert (value
            (getHistogramType
               (Curve_init (mk_counters 0 0 true true (0, 0, 255, 255))))
          <> PyStr "left") as Hold by discriminate.
  assert (2 <= length (data (int_array [3; 4]%Z)))%nat as Hk by (cbn; lia).
  split.
  { split; [exact Hs|]. split; [exact Hold|]. split; [reflexivity|].
    split; [reflexivity|]. split; [reflexivity | exact Hk]. }
  exact (addBackendRenderer_equal_mode_raises (fun _ _ => I 0)
           (Curve_init (mk_counters 0 0 true true (0, 0, 255, 255))) "left"
           [int_array [1; 2]; int_array [3; 4]] 0%nat 1%nat
           (int_array [1; 2]) (int_array [3; 4]) None None None None
           Hs Hold eq_refl eq_refl eq_refl Hk).
Defined.

Lemma setter_twice_is_once_witness :
  (repeatable (SetLineWidth (ColorSpec := Z * Z * Z * Z) 2.5%float) /\
   perform (SetLineWidth 2.5%float)
     (Curve_init (mk_counters 0 0 true true (0, 0, 255, 255)))
   = Ok (mkCurve (mk_counters 1 0 true true (0, 0, 255, 255)) 2.5%float
           (PyStr "-") PyNone (0, 0, 0, 255) false)) /\
  perform (SetLineWidth 2.5%float)
    (mkCurve (mk_counters 1 0 true true (0, 0, 255, 255)) 2.5%float
       (PyStr "-") PyNone (0, 0, 0, 255) false)
  = Ok (mkCurve (mk_counters 1 0 true true (0, 0, 255, 255)) 2.5%float
          (PyStr "-") PyNone (0, 0, 0, 255) false).
Proof.
  split; [split; reflexivity|].
  exact (setter_twice_is_once (SetLineWidth 2.5%float)
           (Curve_init (mk_counters 0 0 true true (0, 0, 255, 255)))
           _ eq_refl eq_refl).
Defined.

Lemma setLineWidth_round_trip_witness :
  is_nan (-0)%float = false /\
  PrimFloat.eqb (-0)%float
    (getLineWidth
       (setLineWidth (-0)%float
          (mkCurve (mk_counters 0 0 true true (0, 0, 255, 255)) 0%float
             (PyStr "-") PyNone (0, 0, 0, 255) false))) = true /\
  (PrimFloat.eqb (-0)%float
     (getLineWidth
        (mkCurve (mk_counters 0 0 true true (0, 0, 255, 255)) 0%float
           (PyStr "-") PyNone (0, 0, 0, 255) false)) = true ->
   setLineWidth (-0)%float
     (mkCurve (mk_counters 0 0 true true (0, 0, 255, 255)) 0%float
        (PyStr "-") PyNone (0, 0, 0, 255) false)
   = mkCurve (mk_counters 0 0 true true (0, 0, 255, 255)) 0%float
       (PyStr "-") PyNone (0, 0, 0, 255) false).
Proof.
  split; [reflexivity|].
  exact (setLineWidth_round_trip (-0)%float
           (mkCurve (mk_counters 0 0 true true (0, 0, 255, 255)) 0%float
              (PyStr "-") PyNone (0, 0, 0, 255) false) eq_refl).
Defined.

Lemma highlight_colour_round_trip_witness :
  (Colors_rgba (255, 0, 0, 255) = Ok (255, 0, 0, 255) /\
   setHighlightedColor (255, 0, 0, 255)
     (Curve_init (mk_counters 0 0 true true (0, 0, 255, 255)))
   = Ok (mkCurve (mk_counters 1 0 true true (0, 0, 255, 255)) 1%float
           (PyStr "-") PyNone (255, 0, 0, 255) false)) /\
  getHighlightedColor
    (mkCurve (mk_counters 1 0 true true (0, 0, 255, 255)) 1%float
       (PyStr "-") PyNone (255, 0, 0, 255) false) = (255, 0, 0, 255) /\
  getCurrentColor
    (setHighlighted true
       (mkCurve (mk_counters 1 0 true true (0, 0, 255, 255)) 1%float
          (PyStr "-") PyNone (255, 0, 0, 255) false)) = (255, 0, 0, 255).
Proof.
  split; [split; reflexivity|].
  exact (highlight_colour_round_trip (255, 0, 0, 255) (255, 0, 0, 255)
           (Curve_init (mk_counters 0 0 true true (0, 0, 255, 255)))
           _ eq_refl eq_refl).
Defined.

Lemma addBackendRenderer_plain_witness :
  ([int_array [1; 2]; int_array [3; 4]] !! 0%nat = Some (int_array [1; 2]) /\
   value
     (getHistogramType
        (Curve_init (mk_counters 0 0 true true (0, 0, 255, 255))))
   ∉ modes) /\
  run (_addBackendRenderer (fun _ _ => I 0)
         (Curve_init (mk_counters 0 0 true true (0, 0, 255, 255)))
         0%nat 1%nat None None None None)
      [int_array [1; 2]; int_array [3; 4]]
  = ([int_array [1; 2]; int_array [3; 4]],
     Ok (Some (mk_addCurve 0%nat 1%nat (0, 0, 255, 255) (PyStr "-") 1%float
                 None None (mk_counters 0 0 true true (0, 0, 255, 255))),
         false)).
Proof.
  assert (value
            (getHistogramType
               (Curve_init (mk_counters 0 0 true true (0, 0, 255, 255))))
          ∉ modes) as Hm.
  { unfold modes. rewrite !not_elem_of_cons.
    repeat split; try discriminate. apply not_elem_of_nil. }
  split; [split; [reflexivity | exact Hm]|].
  exact (addBackendRenderer_plain (fun _ _ => I 0)
           (Curve_init (mk_counters 0 0 true true (0, 0, 255, 255)))
           [int_array [1; 2]; int_array [3; 4]] 0%nat 1%nat
           (int_array [1; 2]) None None None None eq_refl Hm).
Defined.

Lemma addBackendRenderer_histogram_witness :
  ([int_array [1; 2]; int_array [3; 4]] !! 0%nat = Some (int_array [1; 2]) /\
   [int_array [1; 2]; int_array [3; 4]] !! 1%nat = Some (int_array [3; 4]) /\
   wf_ndarray (int_array [1; 2]) = true /\
   value
     (getHistogramType
        (mkCurve (mk_counters 0 0 true true (0, 0, 255, 255)) 1%float
           (PyStr "-") (PyStr "left") (0, 0, 0, 255) true)) ∈ modes /\
   (1 <= length (data (int_array [3; 4]%Z)))%nat /\
   (length (data (int_array [1; 2])) = S (length (data (int_array [3; 4]))) \/
    (length (data (int_array [1; 2])) = length (data (int_array [3; 4])) /\
     getHistogramType
       (mkCurve (mk_counters 0 0 true true (0, 0, 255, 255)) 1%float
          (PyStr "-") (PyStr "left") (0, 0, 0, 255) true) ∈ modes))) /\
  exists h' rx ry ax ay,
    run (_addBackendRenderer (fun _ _ => I 0)
           (mkCurve (mk_counters 0 0 true true (0, 0, 255, 255)) 1%float
              (PyStr "-") (PyStr "left") (0, 0, 0, 255) true)
           0%nat 1%nat None None (Some 2%nat) None)
        [int_array [1; 2]; int_array [3; 4]]
    = (h', Ok (Some (mk_addCurve rx ry (0, 0, 0, 255) (PyStr "-") 1%float
                       None None
                       (mk_counters 0 0 true true (0, 0, 255, 255))),
               true)) /\
    (forall r a, [int_array [1; 2]; int_array [3; 4]] !! r = Some a ->
                 h' !! r = Some a) /\
    (2 <= rx)%nat /\ (2 <= ry)%nat /\ rx <> ry /\
    h' !! rx = Some ax /\ h' !! ry = Some ay /\
    length (data ax) = 4%nat /\ length (data ay) = 4%nat.
Proof.
  assert (PyStr "left" ∈ modes) as Hm by (unfold modes; left).
  assert (1 <= length (data (int_array [3; 4]%Z)))%nat as Hk by (cbn; lia).
  assert (length (data (int_array [1; 2]))
          = S (length (data (int_array [3; 4]))) \/
          (length (data (int_array [1; 2]))
           = length (data (int_array [3; 4])) /\
           getHistogramType
             (mkCurve (mk_counters 0 0 true true (0, 0, 255, 255)) 1%float
                (PyStr "-") (PyStr "left") (0, 0, 0, 255) true) ∈ modes))
    as Hlen
    by (right; split; [reflexivity | exact Hm]).
  split.
  { split; [reflexivity|]. split; [reflexivity|]. split; [reflexivity|].
    split; [exact Hm|]. split; [exact Hk | exact Hlen]. }
  exact (addBackendRenderer_histogram (fun _ _ => I 0)
           (mkCurve (mk_counters 0 0 true true (0, 0, 255, 255)) 1%float
              (PyStr "-") (PyStr "left") (0, 0, 0, 255) true)
           [int_array [1; 2]; int_array [3; 4]] 0%nat 1%nat
           (int_array [1; 2]) (int_array [3; 4]) None None (Some 2%nat) None
           eq_refl eq_refl eq_refl Hm Hk Hlen).
Defined.

Lemma addBackendRenderer_histogram_rejects_witness :
  ([int_array [7]; float_array []] !! 0%nat = Some (int_array [7]) /\
   [int_array [7]; float_array []] !! 1%nat = Some (float_array []) /\
   value
     (getHistogramType
        (mkCurve (mk_counters 0 0 true true (0, 0, 255, 255)) 1%float
           (PyStr "-") (PyStr "center") (0, 0, 0, 255) false)) ∈ modes /\
   data (int_array [7]) <> [] /\
   ((length (data (int_array [7])) <> length (data (float_array [])) /\
     length (data (int_array [7])) <> S (length (data (float_array [])))) \/
    data (float_array []) = [])) /\
  run (_addBackendRenderer (fun _ _ => I 0)
         (mkCurve (mk_counters 0 0 true true (0, 0, 255, 255)) 1%float
            (PyStr "-") (PyStr "center") (0, 0, 0, 255) false)
         0%nat 1%nat None None None None)
      [int_array [7]; float_array []]
  = ([int_array [7]; float_array []], Raise AssertionError).
Proof.
  assert (PyStr "center" ∈ modes) as Hm by (unfold modes; do 2 right; left).
  assert (data (int_array [7]) <> []) as Hne by discriminate.
  split; [repeat split; [reflexivity .. | exact Hm | exact Hne
                         | right; reflexivity]|].
  exact (addBackendRenderer_histogram_rejects (fun _ _ => I 0)
           (mkCurve (mk_counters 0 0 true true (0, 0, 255, 255)) 1%float
              (PyStr "-") (PyStr "center") (0, 0, 0, 255) false)
           [int_array [7]; float_array []] 0%nat 1%nat
           (int_array [7]) (float_array []) None None None None
           eq_refl eq_refl Hm Hne (or_intror eq_refl)).
Defined.

(** ** [Curve.__getitem__] *)

(** X18. [Curve.__getitem__] does not count from the end: every negative
    integer raises [IndexError], while the slice [[i:]] with the same
    negative [i] returns the last [-i] components (all five from [-5]
    down). *)
Theorem getitem_negative_index (i : Z) :
  i < 0 ->
  __getitem__ (Index i) = Raise IndexError /\
  __getitem__ (Slicing (Slice (Some i) None None))
  = Ok (Many (drop (Z.to_nat (5 + i)) components)).
Proof.
  intros Hi. split.
  - cbn [__getitem__]. unfold getitem_index.
    repeat (match goal with |- context [?a =? ?b] => destruct (Z.eqb_spec a b); [lia|] end).
    reflexivity.
  - destruct (decide (i < -5)) as [Hlow|Hhigh].
    + replace (Z.to_nat (5 + i)) with 0%nat by lia.
      cbn [__getitem__]. unfold slice_indices. cbn [slice_step slice_start slice_stop default].
      unfold slice_adjust.
      change (1 =? 0) with false. change (1 <? 0) with false. cbv iota.
      destruct (Z.ltb_spec i 0); [|lia].
      destruct (Z.ltb_spec (i + Z.of_nat 5) 0); [|lia].
      reflexivity.
    + assert (i = -5 \/ i = -4 \/ i = -3 \/ i = -2 \/ i = -1) as Hc by lia.
      destruct Hc as [->|[->|[->|[->| ->]]]]; reflexivity.
Qed.

Lemma getitem_negative_index_witness :
  -2 < 0 /\
  __getitem__ (Index (-2)) = Raise IndexError /\
  __getitem__ (Slicing (Slice (Some (-2)) None None))
  = Ok (Many [Info; Params]).
Proof.
  split; [lia|]. exact (getitem_negative_index (-2) eq_refl).
Defined.

(** X19. A slice never raises [IndexError]: with a step that is not zero,
    [Curve.__getitem__] returns a list of at most five components,
    whatever the bounds; with the step zero it raises [ValueError]. *)
Theorem getitem_slice_never_out_of_range (sl : slice) :
  (slice_step sl <> Some 0 ->
   exists l, __getitem__ (Slicing sl) = Ok (Many l) /\ (length l <= 5)%nat) /\
  (slice_step sl = Some 0 -> __getitem__ (Slicing sl) = Raise ValueError).
Proof.
  split.
  - intros Hs. cbn [__getitem__].
    destruct (slice_indices sl 5) as [idx|e] eqn:E.
    + destruct (slice_indices_bound _ _ _ E) as [Hb Hl].
      destruct (comprehension_ok (fun index => getitem_index (Z.of_nat index))
                  (fun i => (i < 5)%nat) idx getitem_index_in Hb) as (l & -> & Hlen).
      exists l. split; [reflexivity|lia].
    + exfalso. unfold slice_indices in E.
      destruct (slice_step sl) as [s|]; cbn in E; [|discriminate].
      destruct (Z.eqb_spec s 0); [congruence|discriminate].
  - intros Hs. cbn [__getitem__]. unfold slice_indices. rewrite Hs. reflexivity.
Qed.
